(** * OPERATION GROVE GUARDIAN document generator: scenario core

    A shallow embedding of [ogg_generator.py]: the scenario catalog, the
    phase resolver, the daily state engine, the random-consuming parts of
    the document builders and the orchestrator [run], followed by the
    properties established about them.

    Conventions.
    - Python [int] is [Z]; [str] is [string], read as a sequence of code
      points below 256.
    - The module-level generator of Python's [random] is threaded
      explicitly: a computation is a function from the generator state to
      either a value with the new state or an exception with the state at
      the time it was raised.
    - [random] itself is a library: it enters through the interface
      [PyRandom], which records the documented contract of [seed],
      [randint], [choice], [sample] and [shuffle]. *)

From Stdlib Require Import ZArith List String Ascii Bool Lia Permutation.
From Stdlib Require Import DecimalString DecimalN SpecFloat.
Import ListNotations.

Local Open Scope string_scope.
Local Open Scope Z_scope.

(* ====================================================================== *)
(** * Configuration *)
(* ====================================================================== *)

Record PhaseInfo : Type := mkPhase {
  ph_name  : string;
  ph_start : Z;
  ph_end   : Z;
  ph_label : string
}.

(** The dict [PHASES]; Python iterates a dict in insertion order, so the
    association list keeps the order of the literal. *)
Definition PHASES : list (Z * PhaseInfo) :=
  [ (1, mkPhase "Shape"              0   30  "I");
    (2, mkPhase "Train and Secure"   31  120 "II");
    (3, mkPhase "Operate and Expand" 121 270 "III");
    (4, mkPhase "Transition"         271 999 "IV") ].

Definition CCIR_INTERVAL : Z := 3.
Definition PIR_INTERVAL : Z := 3.

(* ====================================================================== *)
(** * Scenario data pools *)
(* ====================================================================== *)

(** A row of [TARGET_POOL]:
    (TGT_ID, Name, Category, Base MGRS, CDE, Phase_available_from). *)
Record Target : Type := mkTarget {
  tgt_id   : string;   (* t[0] *)
  tgt_name : string;   (* t[1] *)
  tgt_cat  : string;   (* t[2] *)
  tgt_mgrs : string;   (* t[3] *)
  tgt_cde  : string;   (* t[4] *)
  tgt_from : Z         (* t[5] *)
}.

Definition TARGET_POOL : list Target :=
  [ mkTarget "SLM-LOG-001" "Primary Weapons Cache (Border Region)" "LOGISTICS" "17R NM 4523 78" "LOW" 0;
    mkTarget "SLM-LOG-002" "Cross-Border Smuggling LZ Alpha" "LOGISTICS" "17R NM 5678 89" "LOW" 0;
    mkTarget "SLM-LOG-003" "Fuel/Supply Point (Scrubland East)" "LOGISTICS" "17R NM 4012 72" "LOW" 0;
    mkTarget "SLM-LOG-004" "IED/Demolitions Workshop" "LOGISTICS" "17R NM 3678 68" "MOD" 0;
    mkTarget "SLM-LOG-005" "Safe House Network (Company Town 3)" "LOGISTICS" "17R NM 3500 71" "HIGH" 0;
    mkTarget "SLM-LOG-006" "Secondary Weapons Cache (Swamp Edge)" "LOGISTICS" "17R NM 3100 65" "LOW" 15;
    mkTarget "SLM-LOG-007" "Smuggling LZ Bravo (Coastal Relay)" "LOGISTICS" "17R NM 5890 91" "LOW" 10;
    mkTarget "SLM-LOG-008" "Medical Supply Cache" "LOGISTICS" "17R NM 3345 69" "MOD" 30;
    mkTarget "SLM-LOG-009" "Vehicle Staging Area" "LOGISTICS" "17R NM 4200 74" "LOW" 45;
    mkTarget "SLM-LOG-010" "Boat Cache (River Junction)" "LOGISTICS" "17R NM 2800 62" "LOW" 20;
    mkTarget "SLM-C2-001" "Regional Commander CP (Swamp Central)" "C2" "17R NM 3456 67" "LOW" 0;
    mkTarget "SLM-C2-002" "Communications Relay (Hill 247)" "C2" "17R NM 3890 70" "LOW" 0;
    mkTarget "SLM-C2-003" "Finance/Funding Cell (Arcadia)" "C2" "17R NM 3210 65" "HIGH" 0;
    mkTarget "SLM-C2-004" "Alternate CP (Scrubland North)" "C2" "17R NM 3780 72" "LOW" 40;
    mkTarget "SLM-C2-005" "Courier Network Hub" "C2" "17R NM 3560 68" "MOD" 25;
    mkTarget "SLM-INF-001" "Propaganda Media Center (Arcadia Urban)" "INFO OPS" "17R NM 3200 65" "HIGH" 0;
    mkTarget "SLM-INF-002" "Social Media Operations Cell" "INFO OPS" "17R NM 3250 64" "HIGH" 0;
    mkTarget "SLM-INF-003" "Underground Print Shop (Company Town 7)" "INFO OPS" "17R NM 3400 66" "MOD" 20;
    mkTarget "SLM-TRN-001" "Training Camp Alpha (Deep Swamp)" "FORCE" "17R NM 2890 62" "LOW" 0;
    mkTarget "SLM-TRN-002" "Training Camp Bravo (Scrubland West)" "FORCE" "17R NM 2560 67" "LOW" 0;
    mkTarget "SLM-TRN-003" "Recruit Assembly Point (Lake Region)" "FORCE" "17R NM 2700 64" "LOW" 35;
    mkTarget "SLM-SAB-001" "Corridor Sabotage Cell (KM 30-50)" "FORCE" "17R NM 3900 75" "LOW" 5;
    mkTarget "SLM-SAB-002" "Corridor Sabotage Cell (KM 80-100)" "FORCE" "17R NM 4100 78" "LOW" 5;
    mkTarget "SLM-SAB-003" "Bridge Assault Team (Rio Verde Bridge)" "FORCE" "17R NM 4300 80" "MOD" 15;
    mkTarget "SLM-MAR-001" "Port Manatee Sleeper Cell" "FORCE" "17R NM 5500 88" "HIGH" 30;
    mkTarget "SLM-CYB-001" "Cyber Operations Cell (Unknown Location)" "C2" "17R NM 3200 65" "HIGH" 60 ].

(** A row of the mission archetype tables: (callsign, aircraft, unit, type). *)
Record Platform : Type := mkPlatform {
  plat_callsign : string;  (* p[0] *)
  plat_acft     : string;  (* p[1] *)
  plat_unit     : string;  (* p[2] *)
  plat_type     : string   (* p[3] *)
}.

Definition MISSION_TYPES_ISR : list Platform :=
  [ mkPlatform "SHADOW" "MQ-1C" "UAS PLT/SOTF-K" "ISR";
    mkPlatform "RAVEN" "RQ-20B" "SOTF-C" "ISR";
    mkPlatform "PUMA" "RQ-11B" "CATF" "ISR";
    mkPlatform "SCAN EAGLE" "RQ-21A" "SOTF-K" "ISR" ].

Definition MISSION_TYPES_SUPPORT : list Platform :=
  [ mkPlatform "DUSTOFF" "UH-60M" "MEDEVAC DET" "MEDEVAC";
    mkPlatform "ATLAS" "C-146A" "AFSOC DET" "AIRLIFT";
    mkPlatform "TALON" "MC-130J" "AFSOC DET" "INFILTRATION";
    mkPlatform "NIGHTHAWK" "MH-60M" "160th SOAR DET" "ASSAULT SUPPORT" ].

Definition ISR_AREAS : list string :=
  [ "CORRIDOR NORTH (COR-N)"; "CORRIDOR SOUTH (COR-S)"; "SWAMP CENTRAL (SWP-C)";
    "BORDER EAST (BDR-E)"; "BORDER WEST (BDR-W)"; "ARCADIA URBAN (ARC-U)";
    "PORT MANATEE APPROACH (PM-A)"; "SCRUBLAND NORTH (SCR-N)"; "SCRUBLAND SOUTH (SCR-S)";
    "LAKE REGION (LK-R)"; "RIVER JUNCTION (RVR-J)"; "COMPANY TOWN CLUSTER (CT-C)" ].

(** A row of [EVENTS_POOL]:
    (day_trigger_min, day_trigger_max, event_text, impact_type). *)
Record Event : Type := mkEvent {
  ev_min    : Z;       (* e[0] *)
  ev_max    : Z;       (* e[1] *)
  ev_text   : string;  (* e[2] *)
  ev_impact : string   (* e[3] *)
}.

Definition EVENTS_POOL : list Event :=
  [ mkEvent 1 5 "SLM propaganda leaflets distributed in Company Town 2" "INFO";
    mkEvent 2 8 "HNSF tip-line reports SLM movement near KM 45 of corridor" "INTEL";
    mkEvent 3 10 "Small arms fire exchanged between HNSF patrol and SLM cell near the swamp edge" "CONTACT";
    mkEvent 5 15 "IED discovered and neutralized on rail line at KM 67" "SABOTAGE";
    mkEvent 7 20 "SLM propaganda video posted on social media showing staged attack" "INFO";
    mkEvent 8 25 "HUMINT source reports SLM planning meeting in Scrubland East" "INTEL";
    mkEvent 10 30 "Cross-border smuggling boat interdicted by HNSF Border Guard; weapons recovered" "INTERDICTION";
    mkEvent 12 35 "CA team conducts well-digging project in Company Town 4; positive reception" "CIVIL";
    mkEvent 15 40 "SLM ambush of CSG patrol near KM 92; 2x HNSF WIA, SLM repelled" "CONTACT";
    mkEvent 18 50 "Radio Solara Libre begins broadcasting; initial listener metrics positive" "INFO";
    mkEvent 20 55 "First SLM defector surrenders via amnesty program; debriefed by J-2" "INTEL";
    mkEvent 25 60 "CUAS system detects and defeats hostile drone near Camp Citrus" "CUAS";
    mkEvent 30 70 "Swamp Rangers conduct first independent patrol; no contact" "HNSF_PROGRESS";
    mkEvent 35 80 "SLM attacks citrus processing plant in Sector 3; minimal damage" "SABOTAGE";
    mkEvent 40 90 "Second amnesty defector provides SLM OOB information" "INTEL";
    mkEvent 45 100 "CSG interdicts SLM sabotage cell preparing to attack Rio Verde Bridge" "INTERDICTION";
    mkEvent 50 110 "SLM cyber intrusion detected on HNSF email server; isolated and eradicated" "CYBER";
    mkEvent 60 130 "Swamp Rangers clear SLM camp; 12 SLM detained by HNSF" "CLEARING";
    mkEvent 75 150 "SLM corridor attacks decrease 40% from baseline" "PROGRESS";
    mkEvent 90 180 "GoS announces land reform pilot program for Grove Laborers" "CIVIL";
    mkEvent 100 200 "SLM VIPER (supreme commander) communicates frustration to foreign sponsor per SIGINT" "INTEL";
    mkEvent 120 240 "HNSF conducts first fully independent corridor security rotation" "HNSF_PROGRESS";
    mkEvent 150 270 "SLM recruitment rate down estimated 60% per HUMINT" "PROGRESS";
    mkEvent 200 300 "SLM offers ceasefire negotiations through intermediary" "DIPLOMATIC";
    mkEvent 250 350 "GoS Ministry of Information assumes lead for Radio Solara Libre" "TRANSITION" ].

(* ====================================================================== *)
(** * Phase resolver *)
(* ====================================================================== *)

(** [for phase_num, info in phases: if start <= day <= end: return phase_num]
    followed by [return 4]. *)
Fixpoint get_phase_in (phases : list (Z * PhaseInfo)) (day : Z) : Z :=
  match phases with
  | [] => 4
  | (phase_num, info) :: rest =>
      if (ph_start info <=? day) && (day <=? ph_end info)
      then phase_num
      else get_phase_in rest day
  end.

Definition get_phase (day : Z) : Z := get_phase_in PHASES day.

(** Dict subscript [d[k]]: [None] stands for [KeyError]. *)
Fixpoint dict_get {V : Type} (d : list (Z * V)) (k : Z) : option V :=
  match d with
  | [] => None
  | (k', v) :: rest => if k' =? k then Some v else dict_get rest k
  end.

Definition get_phase_info (day : Z) : option PhaseInfo :=
  dict_get PHASES (get_phase day).

Definition is_phase_transition (day : Z) : bool :=
  existsb (fun p => ph_start (snd p) =? day) PHASES.

(* ====================================================================== *)
(** * Python values: formatting, splitting and parsing *)
(* ====================================================================== *)

Inductive PyExc : Type :=
  | ValueError
  | IndexError
  | KeyError
  | OverflowError.

Definition digits_of (n : N) : string := NilZero.string_of_uint (N.to_uint n).

Fixpoint zeros (n : nat) : string :=
  match n with
  | O => ""
  | S n' => String "0" (zeros n')
  end.

(** [format(z, "0<w>d")]: sign first, then zero padding up to width [w].
    (CPython 3.11 answers [ValueError] for a number of more than 4300
    digits; that limit is not modelled.) *)
Definition fmt_0d (w : nat) (z : Z) : string :=
  let sign := if z <? 0 then "-" else "" in
  let ds := digits_of (Z.abs_N z) in
  sign ++ zeros (w - String.length sign - String.length ds) ++ ds.

(** [str(z)] *)
Definition str_of_int (z : Z) : string := fmt_0d 0 z.

(** [c.isspace()] on code points below 256. *)
Definition is_space (c : ascii) : bool :=
  let n := N_of_ascii c in
  ((9 <=? n) && (n <=? 13) || (28 <=? n) && (n <=? 32)
   || (n =? 133) || (n =? 160))%N.

(** [s.split()]: maximal runs of non-space characters; [cur] is the
    current run, reversed. *)
Definition rev_string (cs : list ascii) : string :=
  string_of_list_ascii (rev cs).

Fixpoint split_go (s : string) (cur : list ascii) : list string :=
  match s with
  | EmptyString =>
      match cur with [] => [] | _ => [rev_string cur] end
  | String c s' =>
      if is_space c
      then match cur with
           | [] => split_go s' []
           | _ => rev_string cur :: split_go s' []
           end
      else split_go s' (c :: cur)
  end.

Definition py_split (s : string) : list string := split_go s [].

Definition digit_val (c : ascii) : option Z :=
  let n := N_of_ascii c in
  if ((48 <=? n) && (n <=? 57))%N then Some (Z.of_N n - 48) else None.

(** Digits of an integer literal after the sign: a digit, then digits
    each optionally preceded by one underscore. [acc] is the value read so
    far and [after_digit] tells whether the previous character was a
    digit. *)
Fixpoint int_digits (s : string) (acc : Z) (after_digit : bool) : option Z :=
  match s with
  | EmptyString => if after_digit then Some acc else None
  | String c s' =>
      match digit_val c with
      | Some d => int_digits s' (10 * acc + d) true
      | None =>
          if (Ascii.eqb c "_" && after_digit)%bool
          then int_digits s' acc false
          else None
      end
  end.

(** [int(s)] for a [str] without surrounding spaces; [None] stands for
    [ValueError]. (CPython 3.11 also answers [ValueError] past 4300
    digits; that limit is not modelled.) *)
Definition py_int (s : string) : option Z :=
  match s with
  | String "-" s' => option_map Z.opp (int_digits s' 0 false)
  | String "+" s' => int_digits s' 0 false
  | _ => int_digits s 0 false
  end.

(** [s.replace(' ', '_')] *)
Fixpoint replace_space (s : string) : string :=
  match s with
  | EmptyString => EmptyString
  | String c s' => String (if Ascii.eqb c " " then "_"%char else c) (replace_space s')
  end.

(** [int(day * c)] for the float literal [c = num/den]: Python multiplies
    in binary64 and [int] truncates toward zero.  The model truncates the
    exact product; [binary64_int_mul_agrees] below checks that the
    binary64 computation gives the same integer on every day of the
    declared campaign. *)
Definition int_mul (day num den : Z) : Z := Z.quot (day * num) den.

(** The same computation in IEEE binary64, as Python performs it: the
    literal is the double nearest to [num/den], the day is converted to a
    double, the product is rounded to nearest, and [int] drops the
    fraction. *)
Definition b64_of_int (z : Z) : spec_float := binary_normalize 53 1024 z 0 false.

Definition b64_literal (num den : Z) : spec_float :=
  SFdiv 53 1024 (b64_of_int num) (b64_of_int den).

Definition b64_to_int (f : spec_float) : Z :=
  match f with
  | S754_finite sign m e =>
      let magnitude := if 0 <=? e then Zpos m * 2 ^ e
                       else Z.quot (Zpos m) (2 ^ (- e)) in
      if sign then - magnitude else magnitude
  | _ => 0
  end.

Definition int_mul_b64 (day num den : Z) : Z :=
  b64_to_int (SFmul 53 1024 (b64_of_int day) (b64_literal num den)).

(** The float literals of the metric and neutralization formulas:
    6.5, 0.18, 0.02, 0.14, 0.8, 0.15 and 0.03. *)
Definition FLOAT_LITERALS : list (Z * Z) :=
  [ (13, 2); (18, 100); (2, 100); (14, 100); (8, 10); (15, 100); (3, 100) ].

(* ====================================================================== *)
(** * datetime *)
(* ====================================================================== *)

(** A [datetime] with zero seconds: proleptic Gregorian ordinal of the
    date (1 is 0001-01-01), hour and minute. *)
Record datetime : Type := mkDatetime {
  dt_ordinal : Z;
  dt_hour    : Z;
  dt_minute  : Z
}.

Definition is_leap (y : Z) : bool :=
  (y mod 4 =? 0) && (negb (y mod 100 =? 0) || (y mod 400 =? 0)).

Definition days_before_year (y : Z) : Z :=
  let y1 := y - 1 in y1 * 365 + y1 / 4 - y1 / 100 + y1 / 400.

Definition DAYS_IN_MONTH : list Z :=
  [-1; 31; 28; 31; 30; 31; 30; 31; 31; 30; 31; 30; 31].

Definition DAYS_BEFORE_MONTH : list Z :=
  [-1; 0; 31; 59; 90; 120; 151; 181; 212; 243; 273; 304; 334].

Definition days_before_month (y m : Z) : Z :=
  nth (Z.to_nat m) DAYS_BEFORE_MONTH 0
  + (if (2 <? m) && is_leap y then 1 else 0).

Definition ymd2ord (y m d : Z) : Z :=
  days_before_year y + days_before_month y m + d.

Definition ord2ymd (n0 : Z) : Z * Z * Z :=
  let n := n0 - 1 in
  let n400 := n / 146097 in
  let n := n mod 146097 in
  let year := n400 * 400 + 1 in
  let n100 := n / 36524 in
  let n := n mod 36524 in
  let n4 := n / 1461 in
  let n := n mod 1461 in
  let n1 := n / 365 in
  let n := n mod 365 in
  let year := year + n100 * 100 + n4 * 4 + n1 in
  if (n1 =? 4) || (n100 =? 4) then (year - 1, 12, 31)
  else
    let leapyear := (n1 =? 3) && (negb (n4 =? 24) || (n100 =? 3)) in
    let month := Z.shiftr (n + 50) 5 in
    let preceding := nth (Z.to_nat month) DAYS_BEFORE_MONTH 0
                     + (if (2 <? month) && leapyear then 1 else 0) in
    if n <? preceding
    then
      let month := month - 1 in
      let preceding := preceding
                       - (nth (Z.to_nat month) DAYS_IN_MONTH 0
                          + (if (month =? 2) && leapyear then 1 else 0)) in
      (year, month, n - preceding + 1)
    else (year, month, n - preceding + 1).

Definition MAXORDINAL : Z := ymd2ord 9999 12 31.

(** [datetime(2026, 1, 20, 6, 0, 0)], i.e. 200600ZJAN26 *)
Definition BASE_DATE : datetime := mkDatetime (ymd2ord 2026 1 20) 6 0.

(** [timedelta(days=d, hours=h)] as a number of minutes; [None] stands
    for the [OverflowError] raised when the normalised day count exceeds
    999999999 in magnitude. *)
Definition timedelta (days hours : Z) : option Z :=
  let total_hours := days * 24 + hours in
  if Z.abs (total_hours / 24) <=? 999999999
  then Some (total_hours * 60)
  else None.

(** [dt + delta]; [None] stands for the [OverflowError] raised when the
    resulting date leaves 0001-01-01 .. 9999-12-31. *)
Definition datetime_add (dt : datetime) (delta : Z) : option datetime :=
  let total := (dt_ordinal dt * 24 + dt_hour dt) * 60 + dt_minute dt + delta in
  let days := total / 1440 in
  let rem := total mod 1440 in
  if (0 <? days) && (days <=? MAXORDINAL)
  then Some (mkDatetime days (rem / 60) (rem mod 60))
  else None.

Definition MONTH_ABBR : list string :=
  [ ""; "JAN"; "FEB"; "MAR"; "APR"; "MAY"; "JUN";
    "JUL"; "AUG"; "SEP"; "OCT"; "NOV"; "DEC" ].

(** [dt.strftime("%d%H%MZ%b%y").upper()] *)
Definition mil_dtg (dt : datetime) : string :=
  let '(y, m, d) := ord2ymd (dt_ordinal dt) in
  fmt_0d 2 d ++ fmt_0d 2 (dt_hour dt) ++ fmt_0d 2 (dt_minute dt) ++ "Z"
  ++ nth (Z.to_nat m) MONTH_ABBR "" ++ fmt_0d 2 (y mod 100).

(** [BASE_DATE + timedelta(days=day_offset)] *)
Definition day_date (day_offset : Z) : option datetime :=
  match timedelta day_offset 0 with
  | Some delta => datetime_add BASE_DATE delta
  | None => None
  end.

(* ====================================================================== *)
(** * Computations over the global generator *)
(* ====================================================================== *)

(** Outcome of a computation started in a generator state: a value or a
    raised exception, each with the generator state reached. *)
Inductive Res (S A : Type) : Type :=
  | Ok (a : A) (s : S)
  | Raise (e : PyExc) (s : S).

Arguments Ok {S A} a s.
Arguments Raise {S A} e s.

Definition M (S A : Type) : Type := S -> Res S A.

Definition ret {S A : Type} (a : A) : M S A := fun s => Ok a s.

Definition bind {S A B : Type} (c : M S A) (f : A -> M S B) : M S B :=
  fun s =>
    match c s with
    | Ok a s' => f a s'
    | Raise e s' => Raise e s'
    end.

Definition raise {S A : Type} (e : PyExc) : M S A := fun s => Raise e s.

(** [try: body / except (caught): handler] *)
Definition try_except {S A : Type}
    (body : M S A) (caught : PyExc -> bool) (handler : M S A) : M S A :=
  fun s =>
    match body s with
    | Ok a s' => Ok a s'
    | Raise e s' => if caught e then handler s' else Raise e s'
    end.

(** A pure library call that may raise [e]. *)
Definition lift {S A : Type} (e : PyExc) (o : option A) : M S A :=
  match o with
  | Some a => ret a
  | None => raise e
  end.

Declare Scope py_scope.
Delimit Scope py_scope with py.
Notation "v <- m ;; k" := (bind m (fun v => k))
  (at level 61, m at next level, right associativity) : py_scope.
Notation "m ;; k" := (bind m (fun _ => k))
  (at level 61, right associativity) : py_scope.
Notation "' shape <- m ;; k" :=
  (bind m (fun got => match got with shape => k end))
  (at level 61, shape pattern, m at next level, right associativity)
  : py_scope.
Local Open Scope py_scope.

(** [for x in l: acc = body(acc, x)] *)
Fixpoint for_fold {S A B : Type}
    (l : list A) (acc : B) (body : B -> A -> M S B) : M S B :=
  match l with
  | [] => ret acc
  | x :: rest => acc' <- body acc x ;; for_fold rest acc' body
  end.

(** [l[i]]; raises [IndexError] out of range (indices here are never
    negative). *)
Definition list_get {S A : Type} (l : list A) (i : nat) : M S A :=
  lift IndexError (nth_error l i).

(** ** The [random] module

    The generator behind [random] (a Mersenne Twister) enters as an
    interface.  [seed n] is the state [random.seed(n)] leaves, which
    depends on [n] only.  The drawing functions are given on positions:
    [choice_pos n] is the index [random.choice] picks in a sequence of
    List.length [n], [sample_pos n k] the indices [random.sample] picks, in
    order, and [shuffle_pos n] the arrangement [random.shuffle] gives to
    positions [0..n-1].  The laws are the documented contracts. *)
Class PyRandom : Type := {
  rng : Type;
  seed : Z -> rng;
  randint : Z -> Z -> rng -> Z * rng;
  choice_pos : nat -> rng -> nat * rng;
  sample_pos : nat -> nat -> rng -> list nat * rng;
  shuffle_pos : nat -> rng -> list nat * rng;
  randint_range : forall a b g,
    a <= b -> a <= fst (randint a b g) <= b;
  choice_pos_range : forall n g,
    (0 < n)%nat -> (fst (choice_pos n g) < n)%nat;
  sample_pos_spec : forall n k g,
    (k <= n)%nat ->
    List.length (fst (sample_pos n k g)) = k
    /\ NoDup (fst (sample_pos n k g))
    /\ Forall (fun p => (p < n)%nat) (fst (sample_pos n k g));
  shuffle_pos_perm : forall n g,
    Permutation (fst (shuffle_pos n g)) (seq 0 n)
}.

(** The elements of [l] at the positions [ps], in the order of [ps]. *)
Definition pick {A : Type} (l : list A) (ps : list nat) : list A :=
  flat_map (fun p => match nth_error l p with
                     | Some x => [x]
                     | None => []
                     end) ps.

(** [len(l)] *)
Abbreviation len l := (Z.of_nat (List.length l)) (only parsing).

Section Model.

Context {R : PyRandom}.

Definition Py (A : Type) : Type := M rng A.

(** [random.seed(n)] *)
Definition random_seed (n : Z) : Py unit := fun _ => Ok tt (seed n).

(** [random.randint(a, b)]; [ValueError] on an empty range. *)
Definition random_randint (a b : Z) : Py Z :=
  fun g =>
    if a <=? b
    then let (n, g') := randint a b g in Ok n g'
    else Raise ValueError g.

(** [random.choice(l)]; [IndexError] on an empty sequence. *)
Definition random_choice {A : Type} (l : list A) : Py A :=
  fun g =>
    match l with
    | [] => Raise IndexError g
    | x :: _ => let (p, g') := choice_pos (List.length l) g in Ok (nth p l x) g'
    end.

(** [random.sample(l, k)]; [ValueError] when [k] is negative or larger
    than the population. *)
Definition random_sample {A : Type} (l : list A) (k : Z) : Py (list A) :=
  fun g =>
    if (0 <=? k) && (k <=? len l)
    then let (ps, g') := sample_pos (List.length l) (Z.to_nat k) g in
         Ok (pick l ps) g'
    else Raise ValueError g.

(** [random.shuffle(l)]: the list after the in-place shuffle. *)
Definition random_shuffle {A : Type} (l : list A) : Py (list A) :=
  fun g => let (ps, g') := shuffle_pos (List.length l) g in Ok (pick l ps) g'.

(** [int(s)] as a statement that may raise. *)
Definition int_of_str (s : string) : Py Z := lift ValueError (py_int s).

Definition is_ValueError_or_IndexError (e : PyExc) : bool :=
  match e with
  | ValueError | IndexError => true
  | _ => false
  end.

Definition jitter_mgrs (base_mgrs : string) : Py string :=
  let parts := py_split base_mgrs in
  if (4 <=? List.length parts)%nat
  then
    try_except
      (p2 <- list_get parts 2 ;;
       e0 <- int_of_str p2 ;;
       r1 <- random_randint (-50) 50 ;;
       let e := e0 + r1 in
       p3 <- list_get parts 3 ;;
       n0 <- int_of_str p3 ;;
       r2 <- random_randint (-50) 50 ;;
       let n := n0 + r2 in
       p0 <- list_get parts 0 ;;
       p1 <- list_get parts 1 ;;
       ret (p0 ++ " " ++ p1 ++ " " ++ fmt_0d 4 e ++ " " ++ fmt_0d 2 n))
      is_ValueError_or_IndexError
      (ret base_mgrs)
  else ret base_mgrs.

(* ====================================================================== *)
(** * Daily state engine *)
(* ====================================================================== *)

(** An entry of [ato_missions] (a dict with these eight keys). *)
Record Mission : Type := mkMission {
  msn_num     : string;
  callsign    : string;
  acft        : string;
  unit_       : string;
  msn_type    : string;
  target_area : string;
  tot         : string;
  remarks     : string
}.

(** The attributes of a [DailyState] object. *)
Record DailyState : Type := mkDailyState {
  day                 : Z;
  date                : datetime;
  dtg                 : string;
  eff_dtg             : string;
  end_dtg             : string;
  phase               : Z;
  phase_info          : PhaseInfo;
  phase_label         : string;
  phase_name          : string;
  slm_strength        : Z;
  hnsf_readiness      : Z;
  corridor_threat     : Z;
  popular_support_gos : Z;
  tip_line_calls      : Z;
  amnesty_surrenders  : Z;
  events              : list Event;
  event_texts         : list string;
  active_targets      : list Target;
  jiptl_above_cut     : list Target;
  jiptl_below_cut     : list Target;
  ato_missions        : list Mission;
  acm_count           : Z;
  fscm_count          : Z
}.

(** [dt + timedelta(hours=h)] *)
Definition plus_hours (dt : datetime) (h : Z) : Py datetime :=
  delta <- lift OverflowError (timedelta 0 h) ;;
  lift OverflowError (datetime_add dt delta).

(** Body of the loop over [isr_areas_today]; the accumulator is the
    mission list with the running [msn_num]. *)
Definition isr_mission (self_day : Z) (self_date : datetime)
    (acc : list Mission * Z) (area : string) : Py (list Mission * Z) :=
  let '(missions, num) := acc in
  platform <- random_choice MISSION_TYPES_ISR ;;
  c <- random_randint 1 99 ;;
  let callsign := plat_callsign platform ++ " " ++ fmt_0d 2 c in
  start_hr <- random_randint 6 10 ;;
  dur <- random_randint 4 12 ;;
  let end_hr := start_hr + dur in
  start_t <- plus_hours self_date start_hr ;;
  end_t <- plus_hours self_date (Z.min end_hr 23) ;;
  ret (app missions
       [ mkMission ("ATO-" ++ fmt_0d 3 num) callsign
           (plat_acft platform) (plat_unit platform) (plat_type platform)
           area
           (mil_dtg start_t ++ "-" ++ mil_dtg end_t)
           ("ISR coverage; ATO Day " ++ fmt_0d 3 (self_day + 1)) ],
       num + 1).

(** Body of the loop over [MISSION_TYPES_SUPPORT[:2]]. *)
Definition support_mission (self_date : datetime) (self_end_dtg : string)
    (acc : list Mission * Z) (sup : Platform) : Py (list Mission * Z) :=
  let '(missions, num) := acc in
  c <- random_randint 1 20 ;;
  let callsign := plat_callsign sup ++ " " ++ fmt_0d 2 c in
  ret (app missions
       [ mkMission ("ATO-" ++ fmt_0d 3 num) callsign
           (plat_acft sup) (plat_unit sup) (plat_type sup)
           "CAMP CITRUS / JOA-WIDE"
           (mil_dtg self_date ++ "-" ++ self_end_dtg)
           (if String.eqb (plat_type sup) "MEDEVAC"
            then "Standing mission" else "Resupply run") ],
       num + 1).

(** [DailyState._generate_ato_missions]; it reads [self.day],
    [self.date], [self.end_dtg] and [self.phase]. *)
Definition generate_ato_missions (self_day : Z) (self_date : datetime)
    (self_end_dtg : string) (self_phase : Z) : Py (list Mission) :=
  k <- random_randint 4 7 ;;
  isr_areas_today <- random_sample ISR_AREAS (Z.min (len ISR_AREAS) k) ;;
  acc <- for_fold isr_areas_today ([], 1) (isr_mission self_day self_date) ;;
  acc <- for_fold (firstn 2 MISSION_TYPES_SUPPORT) acc
           (support_mission self_date self_end_dtg) ;;
  let '(missions, num) := acc in
  if 3 <=? self_phase
  then
    extra <- random_choice (skipn 2 MISSION_TYPES_SUPPORT) ;;
    c <- random_randint 1 20 ;;
    let callsign := plat_callsign extra ++ " " ++ fmt_0d 2 c in
    area <- random_choice (firstn 3 ISR_AREAS) ;;
    h <- random_randint 1 6 ;;
    t <- plus_hours self_date h ;;
    ret (app missions
         [ mkMission ("ATO-" ++ fmt_0d 3 num) callsign
             (plat_acft extra) (plat_unit extra) (plat_type extra)
             area
             (mil_dtg t)
             "HNSF-led operation support" ])
  else ret missions.

(** [t[0] not in neutralized_ids] *)
Definition not_in_ids (ids : list string) (t : Target) : bool :=
  negb (existsb (String.eqb (tgt_id t)) ids).

(** [[t for t in TARGET_POOL if t[5] <= day]] *)
Definition available_targets (day : Z) : list Target :=
  filter (fun t => tgt_from t <=? day) TARGET_POOL.

(** [min(len(available) - 5, int(day * 0.03))] *)
Definition neutralized_count (day : Z) : Z :=
  Z.min (len (available_targets day) - 5) (int_mul day 3 100).

(** [[e for e in EVENTS_POOL if e[0] <= day <= e[1]]] *)
Definition events_in_window (day : Z) : list Event :=
  filter (fun e => (ev_min e <=? day) && (day <=? ev_max e)) EVENTS_POOL.

(** [DailyState.__init__] *)
Definition DailyState_init (day : Z) : Py DailyState :=
  date <- lift OverflowError (day_date day) ;;
  let dtg := mil_dtg date in
  let eff_dtg := mil_dtg date in
  end_date <- plus_hours date 18 ;;
  let end_dtg := mil_dtg end_date in
  let phase := get_phase day in
  phase_info <- lift KeyError (get_phase_info day) ;;
  let phase_label := ph_label phase_info in
  let phase_name := ph_name phase_info in
  (* Evolving metrics *)
  r <- random_randint (-100) 100 ;;
  let slm_strength := Z.max 500 (3000 - int_mul day 13 2 + r) in
  r <- random_randint (-5) 5 ;;
  let hnsf_readiness := Z.min 95 (35 + int_mul day 18 100 + r) in
  r <- random_randint (-1) 1 ;;
  let corridor_threat := Z.max 1 (10 - int_mul day 2 100 + r) in
  r <- random_randint (-3) 3 ;;
  let popular_support_gos := Z.min 80 (30 + int_mul day 14 100 + r) in
  r <- random_randint (-5) 10 ;;
  let tip_line_calls := Z.max 0 (int_mul day 8 10 + r) in
  r <- random_randint (-2) 3 ;;
  let amnesty_surrenders := Z.max 0 (int_mul day 15 100 + r) in
  (* Select today's events *)
  let events := events_in_window day in
  events <- match events with
            | [] => ret events
            | _ => k <- random_randint 1 3 ;;
                   random_sample events (Z.min (len events) k)
            end ;;
  let event_texts := map ev_text events in
  (* Select today's active targets *)
  let available := available_targets day in
  let neutralized_count := neutralized_count day in
  random_seed (42 + day) ;;
  neutralized_ids <- (if 0 <? neutralized_count
                      then ts <- random_sample available neutralized_count ;;
                           ret (map tgt_id ts)
                      else ret []) ;;
  let active_targets := filter (not_in_ids neutralized_ids) available in
  active_targets <- random_shuffle active_targets ;;
  (* JIPTL: above and below the cut line *)
  r <- random_randint 6 10 ;;
  let n_above_cut := Z.to_nat (Z.min (len active_targets) r) in
  let jiptl_above_cut := firstn n_above_cut active_targets in
  let jiptl_below_cut := skipn n_above_cut active_targets in
  (* ATO missions *)
  ato_missions <- generate_ato_missions day date end_dtg phase ;;
  (* ACM variations *)
  acm_count <- random_randint 6 10 ;;
  fscm_count <- random_randint 5 8 ;;
  (* Reset seed *)
  random_seed 42 ;;
  ret (mkDailyState day date dtg eff_dtg end_dtg phase phase_info
         phase_label phase_name
         slm_strength hnsf_readiness corridor_threat popular_support_gos
         tip_line_calls amnesty_surrenders
         events event_texts
         active_targets jiptl_above_cut jiptl_below_cut
         ato_missions acm_count fscm_count).

End Model.

(* ====================================================================== *)
(** * Document generators *)
(* ====================================================================== *)

Inductive DocKind : Type :=
  | OPORD | FRAGO | ATO | ROE | ACO | CCIR | PIR | JIPTL.

(** What a builder writes, as far as it varies: the paragraphs that draw
    on the generator or on date arithmetic, and the rows ([vals]) of its
    generated tables.  The rest of each document is a fixed template
    filled from the state and the serial number. *)
Definition DocBody : Type := (list string * list (list (list string)))%type.

(** A saved document. *)
Record Doc : Type := mkDoc {
  doc_kind   : DocKind;
  doc_path   : string;
  doc_state  : DailyState;
  doc_number : option Z;   (* frago_num, roe_version, ccir_num, pir_num *)
  doc_body   : DocBody
}.

(** [os.path.join(a, b)] on a POSIX system. *)
Definition ends_with_slash (a : string) : bool :=
  match rev (list_ascii_of_string a) with
  | c :: _ => Ascii.eqb c "/"
  | [] => false
  end.

Definition path_join (a b : string) : string :=
  match b with
  | String "/" _ => b
  | _ => if (String.eqb a "" || ends_with_slash a)%bool
         then a ++ b
         else a ++ "/" ++ b
  end.

(** The process state [run] acts on: the global generator, the
    directories created and the documents saved, oldest first.  (Failures
    of the file system itself are outside the model.) *)
Record ProcessState (G : Type) : Type := mkWorld {
  w_rng   : G;
  w_dirs  : list string;
  w_saved : list Doc
}.

Arguments mkWorld {G} w_rng w_dirs w_saved.
Arguments w_rng {G} p.
Arguments w_dirs {G} p.
Arguments w_saved {G} p.

Section Builders.

Context {R : PyRandom}.

Definition World : Type := ProcessState rng.

Definition Proc (A : Type) : Type := M World A.

(** A computation on the generator, run inside the process. *)
Definition with_rng {A : Type} (c : Py A) : Proc A :=
  fun w =>
    match c (w_rng w) with
    | Ok a g => Ok a (mkWorld g (w_dirs w) (w_saved w))
    | Raise e g => Raise e (mkWorld g (w_dirs w) (w_saved w))
    end.

(** [os.makedirs(d, exist_ok=True)] *)
Definition makedirs (d : string) : Proc unit :=
  fun w =>
    Ok tt (mkWorld (w_rng w)
             (if existsb (String.eqb d) (w_dirs w)
              then w_dirs w else app (w_dirs w) [d])
             (w_saved w)).

(** [doc.save(path)] followed by [return path] *)
Definition save (doc : Doc) : Proc string :=
  fun w =>
    Ok (doc_path doc)
       (mkWorld (w_rng w) (w_dirs w) (app (w_saved w) [doc])).

Definition opord_body (state : DailyState) : Py DocBody := ret ([], []).

Definition generate_opord (state : DailyState) (output_dir : string)
    : Proc string :=
  body <- with_rng (opord_body state) ;;
  let fname := "OPORD_" ++ fmt_0d 3 (phase state) ++ "-26_Phase_"
               ++ phase_label state ++ "_"
               ++ replace_space (phase_name state) ++ ".docx" in
  save (mkDoc OPORD (path_join output_dir fname) state None body).

(** The one draw of [generate_frago]: paragraph 1.c. *)
Definition frago_body (state : DailyState) : Py DocBody :=
  r <- random_randint (-3) 3 ;;
  ret ([ "c. Tip-line calls (24hr): "
         ++ str_of_int (Z.max 0 (tip_line_calls state + r))
         ++ ". Cumulative amnesty surrenders: "
         ++ str_of_int (amnesty_surrenders state) ++ "." ],
       []).

Definition generate_frago (state : DailyState) (output_dir : string)
    (frago_num : Z) : Proc string :=
  body <- with_rng (frago_body state) ;;
  let fname := "FRAGO_" ++ fmt_0d 4 frago_num ++ "-26_Day_"
               ++ fmt_0d 3 (day state + 1) ++ ".docx" in
  save (mkDoc FRAGO (path_join output_dir fname) state (Some frago_num) body).

(** The mission table of [generate_ato]. *)
Definition ato_body (state : DailyState) : Py DocBody :=
  ret ([],
       [ map (fun m => [ msn_num m; callsign m; acft m; unit_ m; msn_type m;
                         target_area m; tot m; remarks m ])
             (ato_missions state) ]).

Definition generate_ato (state : DailyState) (output_dir : string)
    : Proc string :=
  body <- with_rng (ato_body state) ;;
  let fname := "ATO_" ++ fmt_0d 3 (day state + 1) ++ "-26_Day_"
               ++ fmt_0d 3 (day state + 1) ++ ".docx" in
  save (mkDoc ATO (path_join output_dir fname) state None body).

Definition acm_types : list string := ["ROZ"; "UA"; "HIDACZ"; "ACA"].

Definition acm_names : list string :=
  [ "SHADOW NORTH"; "SHADOW SOUTH"; "RAVEN CENTRAL"; "RAVEN BORDER";
    "SCAN PORT"; "CORRIDOR SHIELD"; "CAMP CITRUS"; "PUMA URBAN";
    "SWAMP OVERWATCH"; "BORDER WATCH" ].

Definition acm_bases : list (string * string) :=
  [ ("N27 30 00 W081 45 00 / 20nm", "SFC-15000ft MSL");
    ("N27 00 00 W081 30 00 / 20nm", "SFC-15000ft MSL");
    ("N27 15 00 W081 50 00 / 10nm", "SFC-1200ft AGL");
    ("N27 20 00 W081 15 00 / 10nm", "SFC-1200ft AGL");
    ("N27 40 00 W082 30 00 / 15nm", "SFC-10000ft MSL");
    ("N27 00-40 W081 30-W082 30 / 5nm corridor", "SFC-5000ft AGL");
    ("N27 12 00 W081 46 00 / 3nm", "SFC-3000ft AGL");
    ("N27 12 00 W081 46 00 / 5nm", "SFC-500ft AGL");
    ("N27 10 00 W081 55 00 / 12nm", "SFC-8000ft MSL");
    ("N27 25 00 W081 10 00 / 10nm", "SFC-5000ft AGL") ].

Definition fscm_data : list (string * string * string * string) :=
  [ ("NFA", "ARCADIA CITY", "5km radius Arcadia center", "CONTINUOUS");
    ("NFA", "PORT MANATEE", "3km radius Port Manatee", "CONTINUOUS");
    ("RFA", "CORRIDOR ZONE", "5km either side PM corridor", "CONTINUOUS");
    ("NFA", "EMBASSY COMPOUND", "1km radius U.S. Embassy", "CONTINUOUS");
    ("CFL", "BORDER CFL", "Along international border", "CONTINUOUS");
    ("NFA", "HOSPITAL ZONE", "500m radius Arcadia General", "CONTINUOUS");
    ("FFA", "SWAMP CLEAR", "Designated SLM sanctuary area", "ON ORDER");
    ("RFA", "COMPANY TOWN BUFFER", "2km radius Company Towns 1-5", "CONTINUOUS") ].

Definition in_strings (x : string) (l : list string) : bool :=
  existsb (String.eqb x) l.

(** Body of the loop over [enumerate(selected, 1)]; the accumulator is
    the rows so far with the running index. *)
Definition acm_row (state : DailyState)
    (acc : list (list string) * Z) (sel : nat)
    : Py (list (list string) * Z) :=
  let '(rows, idx) := acc in
  acm_type <- list_get acm_types (sel mod List.length acm_types) ;;
  name <- list_get acm_names sel ;;
  base <- list_get acm_bases sel ;;
  ctrl <- (if in_strings acm_type ["ROZ"; "HIDACZ"; "ACA"]
           then ret "JTF JOC"
           else random_choice ["SOTF-C"; "SOTF-K"; "SOTF-B"; "CATF"]) ;;
  ret (app rows
         [ [ "ACM-" ++ fmt_0d 2 idx; acm_type; name; fst base; snd base;
             (if negb (String.eqb acm_type "ACA")
              then eff_dtg state ++ "-" ++ end_dtg state
              else "CONTINUOUS");
             ctrl ] ],
       idx + 1).

(** Rows of the loop [for idx in range(n_fscms)], from index [idx] on. *)
Fixpoint fscm_rows (fds : list (string * string * string * string))
    (idx : Z) : list (list string) :=
  match fds with
  | [] => []
  | (t, name, loc, eff) :: rest =>
      [ "FSCM-" ++ fmt_0d 2 (idx + 1); t; name; loc; eff; "JTF CDR" ]
      :: fscm_rows rest (idx + 1)
  end.

Definition aco_body (state : DailyState) : Py DocBody :=
  random_seed (42 + day state) ;;
  let n_acms := Z.min (acm_count state) (len acm_names) in
  selected <- random_sample (seq 0 (List.length acm_names)) n_acms ;;
  acc <- for_fold selected ([], 1) (acm_row state) ;;
  let n_fscms := Z.min (fscm_count state) (len fscm_data) in
  let table2 := fscm_rows (firstn (Z.to_nat n_fscms) fscm_data) 0 in
  random_seed 42 ;;
  ret ([], [fst acc; table2]).

Definition generate_aco (state : DailyState) (output_dir : string)
    : Proc string :=
  body <- with_rng (aco_body state) ;;
  let fname := "ACO_" ++ fmt_0d 3 (day state + 1) ++ "-26_Day_"
               ++ fmt_0d 3 (day state + 1) ++ ".docx" in
  save (mkDoc ACO (path_join output_dir fname) state None body).

Definition effects : list string :=
  [ "DESTROY"; "NEUTRALIZE"; "DENY"; "DISRUPT"; "DISRUPT (NON-LETHAL)";
    "DEGRADE" ].

Definition nominators : list string :=
  [ "SOTF-C"; "SOTF-K"; "SOTF-B"; "MISTF"; "CATF"; "J-2" ].

Definition objectives : list string :=
  [ "OBJ 1: Secure Corridor"; "OBJ 2: Neutralize SLM"; "OBJ 3: Counter SLM";
    "OBJ 4: Isolate" ].

(** Body of the loop over [enumerate(state.jiptl_above_cut, 1)]. *)
Definition jiptl_above_row (acc : list (list string) * Z) (tgt : Target)
    : Py (list (list string) * Z) :=
  let '(rows, pri) := acc in
  loc <- jitter_mgrs (tgt_mgrs tgt) ;;
  eff <- (if negb (String.eqb (tgt_cat tgt) "INFO OPS")
          then random_choice (firstn 4 effects)
          else ret "DISRUPT (NON-LETHAL)") ;;
  nom <- random_choice nominators ;;
  obj <- random_choice objectives ;;
  ret (app rows
         [ [ str_of_int pri; tgt_id tgt; tgt_name tgt; tgt_cat tgt; loc; eff;
             tgt_cde tgt; nom; obj; "NOMINATED" ] ],
       pri + 1).

(** Body of the loop over [state.jiptl_below_cut]. *)
Definition jiptl_below_row (acc : list (list string) * Z) (tgt : Target)
    : Py (list (list string) * Z) :=
  let '(rows, pri_offset) := acc in
  loc <- jitter_mgrs (tgt_mgrs tgt) ;;
  eff <- random_choice effects ;;
  nom <- random_choice nominators ;;
  obj <- random_choice objectives ;;
  ret (app rows
         [ [ str_of_int pri_offset; tgt_id tgt; tgt_name tgt; tgt_cat tgt;
             loc; eff; tgt_cde tgt; nom; obj; "BELOW CUT" ] ],
       pri_offset + 1).

Definition jiptl_body (state : DailyState) : Py DocBody :=
  random_seed (42 + day state) ;;
  acc <- for_fold (jiptl_above_cut state) ([], 1) jiptl_above_row ;;
  rows <- match jiptl_below_cut state with
          | [] => ret (fst acc)
          | _ =>
              let rows := app (fst acc) [ ["--- CUT LINE ---"] ] in
              acc <- for_fold (jiptl_below_cut state)
                       (rows, len (jiptl_above_cut state) + 1)
                       jiptl_below_row ;;
              ret (fst acc)
          end ;;
  random_seed 42 ;;
  ret ([], [rows]).

Definition generate_jiptl (state : DailyState) (output_dir : string)
    : Proc string :=
  body <- with_rng (jiptl_body state) ;;
  let fname := "JIPTL_" ++ fmt_0d 3 (day state + 1) ++ "-26_Day_"
               ++ fmt_0d 3 (day state + 1) ++ ".docx" in
  save (mkDoc JIPTL (path_join output_dir fname) state None body).

Definition roe_body (state : DailyState) : Py DocBody := ret ([], []).

Definition generate_roe (state : DailyState) (output_dir : string)
    (roe_version : Z) : Proc string :=
  body <- with_rng (roe_body state) ;;
  let fname := "ROE_V" ++ fmt_0d 2 roe_version ++ "_Phase_"
               ++ phase_label state ++ "_"
               ++ replace_space (phase_name state) ++ ".docx" in
  save (mkDoc ROE (path_join output_dir fname) state (Some roe_version) body).

(** The closing paragraph of [generate_ccir]:
    [mil_dtg(state.date + timedelta(days=CCIR_INTERVAL))]. *)
Definition ccir_body (state : DailyState) : Py DocBody :=
  delta <- lift OverflowError (timedelta CCIR_INTERVAL 0) ;;
  next <- lift OverflowError (datetime_add (date state) delta) ;;
  ret (["Next CCIR review: " ++ mil_dtg next], []).

Definition generate_ccir (state : DailyState) (output_dir : string)
    (ccir_num : Z) : Proc string :=
  body <- with_rng (ccir_body state) ;;
  let fname := "CCIR_" ++ fmt_0d 3 ccir_num ++ "_Day_"
               ++ fmt_0d 3 (day state + 1) ++ ".docx" in
  save (mkDoc CCIR (path_join output_dir fname) state (Some ccir_num) body).

(** The closing paragraph of [generate_pir]. *)
Definition pir_body (state : DailyState) : Py DocBody :=
  delta <- lift OverflowError (timedelta PIR_INTERVAL 0) ;;
  next <- lift OverflowError (datetime_add (date state) delta) ;;
  ret (["Next PIR review: " ++ mil_dtg next], []).

Definition generate_pir (state : DailyState) (output_dir : string)
    (pir_num : Z) : Proc string :=
  body <- with_rng (pir_body state) ;;
  let fname := "PIR_" ++ fmt_0d 3 pir_num ++ "_Day_"
               ++ fmt_0d 3 (day state + 1) ++ ".docx" in
  save (mkDoc PIR (path_join output_dir fname) state (Some pir_num) body).

End Builders.

(* ====================================================================== *)
(** * Main orchestrator *)
(* ====================================================================== *)

Section Orchestrator.

Context {R : PyRandom}.

(** The local variables [run] carries from one day to the next. *)
Record Counters : Type := mkCounters {
  frago_counter : Z;
  ccir_counter  : Z;
  pir_counter   : Z;
  roe_version   : Z;
  last_phase    : Z;
  total_docs    : Z
}.

(** The keys of [dirs], in the order of the dict literal. *)
Definition DIR_NAMES : list string :=
  ["OPORD"; "FRAGO"; "ATO"; "ROE"; "ACO"; "CCIR"; "PIR"; "JIPTL"].

(** [dirs[name]] *)
Definition dirs (output_root name : string) : string :=
  path_join output_root name.

(** [range(n)] *)
Definition range (n : Z) : list Z :=
  map Z.of_nat (seq 0 (Z.to_nat n)).

(** One iteration of [for day in range(num_days)]. *)
Definition run_day (output_root : string) (c : Counters) (day : Z)
    : Proc Counters :=
  state <- with_rng (DailyState_init day) ;;
  let current_phase := phase state in
  let phase_changed := negb (current_phase =? last_phase c) in
  let day_docs := 0 in
  (* OPORD: phase transitions only *)
  day_docs <- (if phase_changed
               then generate_opord state (dirs output_root "OPORD") ;;
                    ret (day_docs + 1)
               else ret day_docs) ;;
  (* ROE: phase transitions *)
  ' (roe_version, day_docs) <-
      (if phase_changed
       then let roe_version := roe_version c + 1 in
            generate_roe state (dirs output_root "ROE") roe_version ;;
            ret (roe_version, day_docs + 1)
       else ret (roe_version c, day_docs)) ;;
  (* FRAGO: daily *)
  let frago_counter := frago_counter c + 1 in
  generate_frago state (dirs output_root "FRAGO") frago_counter ;;
  let day_docs := day_docs + 1 in
  (* ATO: daily *)
  generate_ato state (dirs output_root "ATO") ;;
  let day_docs := day_docs + 1 in
  (* ACO: daily *)
  generate_aco state (dirs output_root "ACO") ;;
  let day_docs := day_docs + 1 in
  (* JIPTL: daily *)
  generate_jiptl state (dirs output_root "JIPTL") ;;
  let day_docs := day_docs + 1 in
  (* CCIR: every N days + phase transitions *)
  ' (ccir_counter, day_docs) <-
      (if (day mod CCIR_INTERVAL =? 0) || phase_changed
       then let ccir_counter := ccir_counter c + 1 in
            generate_ccir state (dirs output_root "CCIR") ccir_counter ;;
            ret (ccir_counter, day_docs + 1)
       else ret (ccir_counter c, day_docs)) ;;
  (* PIR: every N days + phase transitions *)
  ' (pir_counter, day_docs) <-
      (if (day mod PIR_INTERVAL =? 0) || phase_changed
       then let pir_counter := pir_counter c + 1 in
            generate_pir state (dirs output_root "PIR") pir_counter ;;
            ret (pir_counter, day_docs + 1)
       else ret (pir_counter c, day_docs)) ;;
  let total_docs := total_docs c + day_docs in
  let last_phase := current_phase in
  ret (mkCounters frago_counter ccir_counter pir_counter roe_version
         last_phase total_docs).

Definition initial_counters : Counters := mkCounters 0 0 0 0 0 0.

(** [run(num_days, output_root)]; the value is the final [total_docs]
    the summary prints. *)
Definition run (num_days : Z) (output_root : string) : Proc Z :=
  for_fold (map (dirs output_root) DIR_NAMES) tt
           (fun _ d => makedirs d) ;;
  c <- for_fold (range num_days) initial_counters (run_day output_root) ;;
  ret (total_docs c).

(** The process when [run] is entered from the command line: the module
    body has executed [random.seed(42)] and nothing has been written. *)
Definition initial_world : World := mkWorld (seed 42) [] [].

(** [python ogg_generator.py --days N --output PATH] *)
Definition main (days : Z) (output : string) : Res World Z :=
  run days output initial_world.

End Orchestrator.

(* ====================================================================== *)
(** * A concrete generator *)
(* ====================================================================== *)

(** A linear congruential generator that meets the contract of
    [PyRandom].  It shows the contract is satisfiable and gives the
    development a generator to compute with. *)
Module Lcg.

Definition next (s : Z) : Z := (s * 1103515245 + 12345) mod 2147483648.

Definition below (n s : Z) : Z := (s / 65536) mod n.

Definition lcg_seed (n : Z) : Z := Z.abs n mod 2147483648.

Definition lcg_randint (a b s : Z) : Z * Z :=
  let s' := next s in (a + below (b - a + 1) s', s').

Definition lcg_choice_pos (n : nat) (s : Z) : nat * Z :=
  let s' := next s in (Z.to_nat (below (Z.of_nat n) s'), s').

Fixpoint remove_at {A : Type} (i : nat) (l : list A) : list A :=
  match l, i with
  | [], _ => []
  | _ :: rest, O => rest
  | x :: rest, S i' => x :: remove_at i' rest
  end.

(** Draw [k] elements of [pool] without replacement. *)
Fixpoint draw (k : nat) (pool : list nat) (s : Z) : list nat * Z :=
  match k with
  | O => ([], s)
  | S k' =>
      match pool with
      | [] => ([], s)
      | _ :: _ =>
          let (j, s') := lcg_choice_pos (List.length pool) s in
          let (rest, s'') := draw k' (remove_at j pool) s' in
          (nth j pool O :: rest, s'')
      end
  end.

Definition lcg_sample_pos (n k : nat) (s : Z) : list nat * Z :=
  draw k (seq 0 n) s.

Definition lcg_shuffle_pos (n : nat) (s : Z) : list nat * Z :=
  draw n (seq 0 n) s.

Lemma below_range (n s : Z) : 0 < n -> 0 <= below n s < n.
Proof. intro Hn. unfold below. apply Z.mod_pos_bound. exact Hn. Qed.

Lemma lcg_randint_range (a b g : Z) :
  a <= b -> a <= fst (lcg_randint a b g) <= b.
Proof.
  intro Hab. unfold lcg_randint. cbn [fst].
  pose proof (below_range (b - a + 1) (next g)). lia.
Qed.

Lemma lcg_choice_pos_range (n : nat) (g : Z) :
  (0 < n)%nat -> (fst (lcg_choice_pos n g) < n)%nat.
Proof.
  intro Hn. unfold lcg_choice_pos. cbn [fst].
  pose proof (below_range (Z.of_nat n) (next g)). lia.
Qed.

Lemma remove_at_length {A : Type} (l : list A) (i : nat) :
  (i < List.length l)%nat ->
  List.length (remove_at i l) = pred (List.length l).
Proof.
  revert i. induction l as [| x l IH]; intros i Hi; simpl in *.
  - lia.
  - destruct i as [| i]; [reflexivity |].
    simpl. rewrite IH by lia. destruct l; simpl in *; lia.
Qed.

Lemma remove_at_perm (l : list nat) (i : nat) :
  (i < List.length l)%nat ->
  Permutation (nth i l O :: remove_at i l) l.
Proof.
  revert i. induction l as [| x l IH]; intros i Hi; simpl in *.
  - lia.
  - destruct i as [| i]; [reflexivity |].
    simpl. eapply perm_trans; [apply perm_swap |].
    apply perm_skip. apply IH. lia.
Qed.

Lemma draw_spec (k : nat) :
  forall pool s, (k <= List.length pool)%nat ->
    List.length (fst (draw k pool s)) = k
    /\ exists rest, Permutation (app (fst (draw k pool s)) rest) pool.
Proof.
  induction k as [| k IH]; intros pool s Hk.
  - split; [reflexivity | exists pool; reflexivity].
  - destruct pool as [| p pool]; [simpl in Hk; lia |].
    cbn [draw].
    pose proof (lcg_choice_pos_range (List.length (p :: pool)) s) as Hj.
    destruct (lcg_choice_pos (List.length (p :: pool)) s) as [j s'].
    cbn [fst] in Hj. specialize (Hj ltac:(simpl; lia)).
    pose proof (remove_at_length (p :: pool) j Hj) as Hlen.
    specialize (IH (remove_at j (p :: pool)) s').
    destruct (draw k (remove_at j (p :: pool)) s') as [rest s''].
    cbn [fst] in *.
    destruct IH as [IHlen [tl IHperm]]; [simpl in *; lia |].
    split; [simpl; lia |].
    exists tl. simpl app.
    eapply perm_trans; [apply perm_skip, IHperm |].
    exact (remove_at_perm (p :: pool) j Hj).
Qed.

Lemma lcg_sample_pos_spec (n k : nat) (g : Z) :
  (k <= n)%nat ->
  List.length (fst (lcg_sample_pos n k g)) = k
  /\ NoDup (fst (lcg_sample_pos n k g))
  /\ Forall (fun p => (p < n)%nat) (fst (lcg_sample_pos n k g)).
Proof.
  intro Hk. unfold lcg_sample_pos.
  destruct (draw_spec k (seq 0 n) g) as [Hlen [rest Hperm]].
  { rewrite length_seq. exact Hk. }
  split; [exact Hlen |]. split.
  - apply (NoDup_app_remove_r _ rest).
    apply (Permutation_NoDup (Permutation_sym Hperm)). apply seq_NoDup.
  - apply Forall_forall. intros p Hp.
    assert (In p (seq 0 n)) as Hin.
    { apply (Permutation_in _ Hperm). apply in_or_app. left. exact Hp. }
    apply in_seq in Hin. lia.
Qed.

Lemma lcg_shuffle_pos_perm (n : nat) (g : Z) :
  Permutation (fst (lcg_shuffle_pos n g)) (seq 0 n).
Proof.
  unfold lcg_shuffle_pos.
  destruct (draw_spec n (seq 0 n) g) as [Hlen [rest Hperm]].
  { rewrite length_seq. apply le_n. }
  pose proof (Permutation_length Hperm) as Hl.
  rewrite length_app, length_seq, Hlen in Hl.
  destruct rest as [| r rest]; [| simpl in Hl; lia].
  rewrite app_nil_r in Hperm. exact Hperm.
Qed.

Definition lcg : PyRandom := {|
  rng := Z;
  seed := lcg_seed;
  randint := lcg_randint;
  choice_pos := lcg_choice_pos;
  sample_pos := lcg_sample_pos;
  shuffle_pos := lcg_shuffle_pos;
  randint_range := lcg_randint_range;
  choice_pos_range := lcg_choice_pos_range;
  sample_pos_spec := lcg_sample_pos_spec;
  shuffle_pos_perm := lcg_shuffle_pos_perm
|}.

End Lcg.

(* ====================================================================== *)
(** * Reasoning about computations *)
(* ====================================================================== *)

(** [returns c Q s]: started in [s], the computation [c] returns (it does
    not raise) and its value and final state satisfy [Q]. *)
Definition returns {S A : Type} (c : M S A) (Q : A -> S -> Prop) (s : S)
    : Prop :=
  match c s with
  | Ok a s' => Q a s'
  | Raise _ _ => False
  end.

Section Returns.

Context {S : Type}.

Lemma returns_ok {A : Type} (c : M S A) (Q : A -> S -> Prop) (s : S) :
  returns c Q s -> exists a s', c s = Ok a s' /\ Q a s'.
Proof.
  unfold returns. destruct (c s) as [a s' | e s']; intro H.
  - exists a, s'. split; [reflexivity | exact H].
  - contradiction.
Qed.

Lemma ok_returns {A : Type} (c : M S A) (Q : A -> S -> Prop) (s : S) a s' :
  c s = Ok a s' -> Q a s' -> returns c Q s.
Proof. unfold returns. intros -> H. exact H. Qed.

Lemma returns_mono {A : Type} (c : M S A) (P Q : A -> S -> Prop) (s : S) :
  returns c P s -> (forall a s', P a s' -> Q a s') -> returns c Q s.
Proof.
  unfold returns. destruct (c s); intros H HPQ; [apply HPQ, H | exact H].
Qed.

Lemma returns_ret {A : Type} (a : A) (Q : A -> S -> Prop) (s : S) :
  Q a s -> returns (ret a) Q s.
Proof. intro H. exact H. Qed.

Lemma returns_bind {A B : Type} (c : M S A) (f : A -> M S B)
    (Q : B -> S -> Prop) (s : S) :
  returns c (fun a s' => returns (f a) Q s') s -> returns (bind c f) Q s.
Proof.
  unfold returns, bind. destruct (c s) as [a s' | e s']; intro H; exact H.
Qed.

Lemma returns_lift {A : Type} (e : PyExc) (o : option A) (a : A)
    (Q : A -> S -> Prop) (s : S) :
  o = Some a -> Q a s -> returns (lift e o) Q s.
Proof. intros -> H. exact H. Qed.

Lemma returns_list_get {A : Type} (l : list A) (i : nat)
    (Q : A -> S -> Prop) (s : S) :
  (i < List.length l)%nat ->
  (forall x, nth_error l i = Some x -> Q x s) ->
  returns (list_get l i) Q s.
Proof.
  intros Hi HQ. unfold list_get.
  destruct (nth_error l i) as [x |] eqn:E.
  - apply HQ. reflexivity.
  - apply nth_error_None in E. lia.
Qed.

(** A loop returns when its body preserves an invariant. *)
Lemma returns_for_fold {A B : Type} (body : B -> A -> M S B)
    (I : B -> S -> Prop) (l : list A) :
  forall acc s,
    I acc s ->
    (forall acc x s, In x l -> I acc s -> returns (body acc x) I s) ->
    returns (for_fold l acc body) I s.
Proof.
  induction l as [| x l IH]; intros acc s HI Hbody.
  - exact HI.
  - cbn [for_fold]. apply returns_bind.
    eapply returns_mono.
    + apply Hbody; [left; reflexivity | exact HI].
    + intros acc' s' HI'. apply IH; [exact HI' |].
      intros acc0 y s0 Hy. apply Hbody. right. exact Hy.
Qed.

Lemma for_fold_app {A B : Type} (body : B -> A -> M S B) (l1 l2 : list A) :
  forall acc s,
    for_fold (app l1 l2) acc body s
    = bind (for_fold l1 acc body) (fun acc' => for_fold l2 acc' body) s.
Proof.
  induction l1 as [| x l1 IH]; intros acc s.
  - reflexivity.
  - cbn [app for_fold]. unfold bind.
    destruct (body acc x s) as [acc' s' | e s']; [| reflexivity].
    rewrite IH. reflexivity.
Qed.

End Returns.

Section RandomRules.

Context {R : PyRandom}.

Lemma returns_seed (n : Z) (Q : unit -> rng -> Prop) (g : rng) :
  Q tt (seed n) -> returns (random_seed n) Q g.
Proof. intro H. exact H. Qed.

(** The rule of [randint], keeping the value drawn. *)
Lemma returns_randint_exact (a b : Z) (Q : Z -> rng -> Prop) (g : rng) :
  a <= b ->
  Q (fst (randint a b g)) (snd (randint a b g)) ->
  returns (random_randint a b) Q g.
Proof.
  intros Hab H. unfold returns, random_randint.
  apply Z.leb_le in Hab. rewrite Hab.
  destruct (randint a b g). exact H.
Qed.

(** The rule of [randint], from its contract alone. *)
Lemma returns_randint (a b : Z) (Q : Z -> rng -> Prop) (g : rng) :
  a <= b ->
  (forall n g', a <= n <= b -> Q n g') ->
  returns (random_randint a b) Q g.
Proof.
  intros Hab H. apply returns_randint_exact; [exact Hab |].
  apply H. apply randint_range. exact Hab.
Qed.

Lemma returns_choice {A : Type} (l : list A) (Q : A -> rng -> Prop)
    (g : rng) :
  l <> [] ->
  (forall x g', In x l -> Q x g') ->
  returns (random_choice l) Q g.
Proof.
  intros Hl H. unfold returns, random_choice.
  destruct l as [| x l]; [contradiction |].
  pose proof (choice_pos_range (List.length (x :: l)) g) as Hp.
  destruct (choice_pos (List.length (x :: l)) g) as [p g'].
  apply H. apply nth_In. apply Hp. simpl. lia.
Qed.

Lemma returns_sample_exact {A : Type} (l : list A) (k : Z)
    (Q : list A -> rng -> Prop) (g : rng) :
  0 <= k <= len l ->
  Q (pick l (fst (sample_pos (List.length l) (Z.to_nat k) g)))
    (snd (sample_pos (List.length l) (Z.to_nat k) g)) ->
  returns (random_sample l k) Q g.
Proof.
  intros [Hk0 Hk] H. unfold returns, random_sample.
  apply Z.leb_le in Hk0, Hk. rewrite Hk0, Hk. cbn [andb].
  destruct (sample_pos (List.length l) (Z.to_nat k) g). exact H.
Qed.

Lemma returns_sample {A : Type} (l : list A) (k : Z)
    (Q : list A -> rng -> Prop) (g : rng) :
  0 <= k <= len l ->
  (forall ps g',
      List.length ps = Z.to_nat k -> NoDup ps ->
      Forall (fun p => (p < List.length l)%nat) ps ->
      Q (pick l ps) g') ->
  returns (random_sample l k) Q g.
Proof.
  intros Hk H. apply returns_sample_exact; [exact Hk |].
  destruct (sample_pos_spec (List.length l) (Z.to_nat k) g) as [H1 [H2 H3]].
  { lia. }
  apply H; assumption.
Qed.

Lemma returns_shuffle_exact {A : Type} (l : list A)
    (Q : list A -> rng -> Prop) (g : rng) :
  Q (pick l (fst (shuffle_pos (List.length l) g)))
    (snd (shuffle_pos (List.length l) g)) ->
  returns (random_shuffle l) Q g.
Proof.
  intro H. unfold returns, random_shuffle.
  destruct (shuffle_pos (List.length l) g). exact H.
Qed.

Lemma returns_with_rng {A : Type} (c : Py A) (Q : A -> World -> Prop)
    (w : World) :
  returns c (fun a g => Q a (mkWorld g (w_dirs w) (w_saved w))) (w_rng w) ->
  returns (with_rng c) Q w.
Proof.
  unfold returns, with_rng. destruct (c (w_rng w)); intro H; exact H.
Qed.

End RandomRules.

(* ====================================================================== *)
(** * Phase resolver: properties *)
(* ====================================================================== *)

Ltac case_leb :=
  repeat match goal with
         | |- context [?a <=? ?b] =>
             destruct (Z.leb_spec a b); try lia; cbn [andb]
         end.

Lemma get_phase_cases (d : Z) :
  (0 <= d <= 30 /\ get_phase d = 1)
  \/ (31 <= d <= 120 /\ get_phase d = 2)
  \/ (121 <= d <= 270 /\ get_phase d = 3)
  \/ ((d < 0 \/ 271 <= d) /\ get_phase d = 4).
Proof.
  unfold get_phase, PHASES. cbn [get_phase_in ph_start ph_end].
  case_leb; try (left; split; [lia | reflexivity]);
    try (right; left; split; [lia | reflexivity]);
    try (right; right; left; split; [lia | reflexivity]);
    right; right; right; split; (lia || reflexivity).
Qed.

Lemma get_phase_range (d : Z) : 1 <= get_phase d <= 4.
Proof. destruct (get_phase_cases d) as [H | [H | [H | H]]]; lia. Qed.

Lemma get_phase_info_some (d : Z) :
  exists info, get_phase_info d = Some info.
Proof.
  unfold get_phase_info.
  destruct (get_phase_cases d) as [[_ E] | [[_ E] | [[_ E] | [_ E]]]];
    rewrite E; eexists; reflexivity.
Qed.

(** C4. For every non-negative day the phase resolver returns a declared
    phase (no [KeyError] follows in [get_phase_info]); the phase returned
    is the one whose inclusive range [start, end] contains the day, or,
    when the day lies beyond every declared range, the last declared
    phase, number 4; and no other declared phase contains the day. *)
Theorem get_phase_resolves (d : Z) :
  0 <= d ->
  exists info,
    get_phase_info d = Some info
    /\ In (get_phase d, info) PHASES
    /\ ((ph_start info <= d <= ph_end info)
        \/ (Forall (fun p => ph_end (snd p) < d) PHASES
            /\ get_phase d = 4
            /\ last PHASES (0, mkPhase "" 0 0 "") = (get_phase d, info)))
    /\ (forall p info',
          In (p, info') PHASES ->
          ph_start info' <= d <= ph_end info' ->
          p = get_phase d /\ info' = info).
Proof.
  intro Hd. unfold get_phase_info.
  assert (forall p info', In (p, info') PHASES ->
            ph_start info' <= d <= ph_end info' ->
            (p = 1 /\ 0 <= d <= 30 /\ info' = mkPhase "Shape" 0 30 "I")
            \/ (p = 2 /\ 31 <= d <= 120
                /\ info' = mkPhase "Train and Secure" 31 120 "II")
            \/ (p = 3 /\ 121 <= d <= 270
                /\ info' = mkPhase "Operate and Expand" 121 270 "III")
            \/ (p = 4 /\ 271 <= d <= 999
                /\ info' = mkPhase "Transition" 271 999 "IV")) as Huniq.
  { intros p info' Hin Hr. simpl in Hin.
    destruct Hin as [E | [E | [E | [E | []]]]]; inversion E; subst;
      cbn [ph_start ph_end] in Hr; tauto. }
  destruct (get_phase_cases d) as [[Hr E] | [[Hr E] | [[Hr E] | [Hr E]]]];
    rewrite E; cbn [dict_get PHASES Z.eqb Pos.eqb];
    eexists; (split; [reflexivity |]); (split; [simpl; tauto |]).
  1-3: split; [left; cbn [ph_start ph_end]; lia |];
       intros p info' Hin Hr'; destruct (Huniq p info' Hin Hr')
         as [H | [H | [H | H]]]; destruct H as [-> [? ->]];
       (split; [reflexivity || lia | reflexivity || lia]).
  destruct (Z.le_gt_cases d 999) as [Hle | Hgt].
  - split; [left; cbn [ph_start ph_end]; lia |].
    intros p info' Hin Hr'. destruct (Huniq p info' Hin Hr')
      as [H | [H | [H | H]]]; destruct H as [-> [? ->]];
      (split; [reflexivity || lia | reflexivity || lia]).
  - split.
    + right. split; [| split; reflexivity].
      repeat constructor; cbn [snd ph_end]; lia.
    + intros p info' Hin Hr'. destruct (Huniq p info' Hin Hr')
        as [H | [H | [H | H]]]; destruct H as [-> [? ->]]; lia.
Qed.

Lemma get_phase_resolves_witness :
  0 <= 45 /\
  exists info,
    get_phase_info 45 = Some info
    /\ In (get_phase 45, info) PHASES
    /\ ((ph_start info <= 45 <= ph_end info)
        \/ (Forall (fun p => ph_end (snd p) < 45) PHASES
            /\ get_phase 45 = 4
            /\ last PHASES (0, mkPhase "" 0 0 "") = (get_phase 45, info)))
    /\ (forall p info',
          In (p, info') PHASES ->
          ph_start info' <= 45 <= ph_end info' ->
          p = get_phase 45 /\ info' = info).
Proof. split; [lia | apply (get_phase_resolves 45); lia]. Defined.

(* ====================================================================== *)
(** * Float products: the exact model agrees with binary64 *)
(* ====================================================================== *)

Definition agrees_on (d : Z) : bool :=
  forallb (fun c => int_mul_b64 d (fst c) (snd c) =? int_mul d (fst c) (snd c))
          FLOAT_LITERALS.

Lemma agrees_on_campaign :
  forallb agrees_on (map Z.of_nat (seq 0 1000)) = true.
Proof. vm_compute. reflexivity. Qed.

(** On every day of the declared phases (0 to 999), [int(day * c)]
    computed in binary64 is the truncated exact product, for each float
    literal [c] the formulas use. *)
Lemma binary64_int_mul_agrees (d num den : Z) :
  0 <= d <= 999 -> In (num, den) FLOAT_LITERALS ->
  int_mul_b64 d num den = int_mul d num den.
Proof.
  intros Hd Hc. pose proof agrees_on_campaign as H.
  rewrite forallb_forall in H.
  assert (In d (map Z.of_nat (seq 0 1000))) as Hin.
  { apply in_map_iff. exists (Z.to_nat d). split; [lia |].
    apply in_seq. lia. }
  specialize (H d Hin). unfold agrees_on in H.
  rewrite forallb_forall in H. specialize (H (num, den) Hc).
  apply Z.eqb_eq in H. exact H.
Qed.

Example int_mul_b64_day_100 : int_mul_b64 100 3 100 = 3.
Proof. vm_compute. reflexivity. Qed.

(* ====================================================================== *)
(** * Dates: the days on which the engine can run *)
(* ====================================================================== *)

(** The first day whose date exists: 0001-01-01. *)
Definition FIRST_STATE_DAY : Z := 1 - dt_ordinal BASE_DATE.

(** The last day whose state can be built: [self.date + timedelta(hours=18)]
    and the mission windows reach into the following calendar day, which
    must not pass 9999-12-31. *)
Definition LAST_STATE_DAY : Z := MAXORDINAL - dt_ordinal BASE_DATE - 1.

(** The last day [run] can process: the CCIR and PIR builders also format
    the date [CCIR_INTERVAL] days ahead. *)
Definition LAST_RUN_DAY : Z := MAXORDINAL - dt_ordinal BASE_DATE - CCIR_INTERVAL.

(** The value of [day_date day] inside the supported range. *)
Definition date_of_day (day : Z) : datetime :=
  mkDatetime (dt_ordinal BASE_DATE + day) 6 0.

Lemma MAXORDINAL_value : MAXORDINAL = 3652059.
Proof. reflexivity. Qed.

Lemma BASE_DATE_value : BASE_DATE = mkDatetime 739636 6 0.
Proof. reflexivity. Qed.

Lemma FIRST_STATE_DAY_value : FIRST_STATE_DAY = -739635.
Proof. reflexivity. Qed.

Lemma LAST_STATE_DAY_value : LAST_STATE_DAY = 2912422.
Proof. reflexivity. Qed.

Lemma LAST_RUN_DAY_value : LAST_RUN_DAY = 2912420.
Proof. reflexivity. Qed.

Lemma date_of_day_value (d : Z) : date_of_day d = mkDatetime (739636 + d) 6 0.
Proof. reflexivity. Qed.

Lemma leb_true (a b : Z) : a <= b -> (a <=? b) = true.
Proof. apply Z.leb_le. Qed.

Lemma ltb_true (a b : Z) : a < b -> (a <? b) = true.
Proof. apply Z.ltb_lt. Qed.

Lemma timedelta_some (days hours : Z) :
  -999999999 <= days <= 999999998 -> 0 <= hours < 24 ->
  timedelta days hours = Some ((days * 24 + hours) * 60).
Proof.
  intros Hd Hh. unfold timedelta.
  rewrite leb_true; [reflexivity |].
  assert ((days * 24 + hours) / 24 = days) as ->
    by (symmetry; apply (Z.div_unique _ 24 days hours); lia).
  lia.
Qed.

(** The date and hour [datetime_add] reaches from 06:00 of day [d] after
    [m] minutes, before the range check. *)
Lemma date_of_day_plus (d delta q h : Z) :
  delta = (q * 24 + h) * 60 -> -6 <= h < 18 ->
  datetime_add (date_of_day d) delta
  = if (0 <? 739636 + d + q) && (739636 + d + q <=? 3652059)
    then Some (mkDatetime (739636 + d + q) (6 + h) 0)
    else None.
Proof.
  intros -> Hh.
  unfold datetime_add. rewrite date_of_day_value.
  cbn [dt_ordinal dt_hour dt_minute]. rewrite MAXORDINAL_value.
  set (total := ((739636 + d) * 24 + 6) * 60 + 0 + (q * 24 + h) * 60).
  assert (total / 1440 = 739636 + d + q) as Hq
    by (symmetry; apply (Z.div_unique _ 1440 _ ((6 + h) * 60));
        subst total; lia).
  assert (total mod 1440 = (6 + h) * 60) as Hr
    by (symmetry; apply (Z.mod_unique _ 1440 (739636 + d + q));
        subst total; lia).
  rewrite Hq, Hr.
  rewrite Z.div_mul, Z.mod_mul by lia. reflexivity.
Qed.

Lemma datetime_add_days (d days : Z) :
  FIRST_STATE_DAY <= d + days <= LAST_STATE_DAY + 1 ->
  datetime_add (date_of_day d) ((days * 24 + 0) * 60)
  = Some (date_of_day (d + days)).
Proof.
  rewrite FIRST_STATE_DAY_value, LAST_STATE_DAY_value. intro H.
  rewrite (date_of_day_plus d _ days 0) by lia.
  rewrite ltb_true, leb_true by lia. cbn [andb].
  rewrite date_of_day_value. do 2 f_equal. lia.
Qed.

Lemma datetime_add_hours (d h : Z) :
  FIRST_STATE_DAY <= d <= LAST_STATE_DAY -> 0 <= h < 24 ->
  exists dt, datetime_add (date_of_day d) ((0 * 24 + h) * 60) = Some dt.
Proof.
  rewrite FIRST_STATE_DAY_value, LAST_STATE_DAY_value. intros Hd Hh.
  destruct (Z.lt_ge_cases h 18) as [Hlt | Hge].
  - rewrite (date_of_day_plus d _ 0 h) by lia.
    rewrite ltb_true, leb_true by lia. eexists. reflexivity.
  - rewrite (date_of_day_plus d _ 1 (h - 24)) by lia.
    rewrite ltb_true, leb_true by lia. eexists. reflexivity.
Qed.

Lemma day_date_some (d : Z) :
  FIRST_STATE_DAY <= d <= LAST_STATE_DAY + 1 ->
  day_date d = Some (date_of_day d).
Proof.
  intro Hd. pose proof Hd as Hd'.
  rewrite FIRST_STATE_DAY_value, LAST_STATE_DAY_value in Hd'.
  unfold day_date. rewrite timedelta_some by lia.
  change BASE_DATE with (date_of_day 0).
  apply (datetime_add_days 0 d). exact Hd.
Qed.

(** Outside the supported range the date arithmetic of the state raises:
    either [day_date] does, or the end of the 18 hour window does. *)
Lemma day_date_none (d : Z) :
  d < FIRST_STATE_DAY \/ LAST_STATE_DAY + 1 < d -> day_date d = None.
Proof.
  rewrite FIRST_STATE_DAY_value, LAST_STATE_DAY_value. intro Hd.
  unfold day_date, timedelta.
  destruct (Z.abs ((d * 24 + 0) / 24) <=? 999999999); [| reflexivity].
  change BASE_DATE with (date_of_day 0).
  rewrite (date_of_day_plus 0 _ d 0) by lia.
  destruct (Z.ltb_spec 0 (739636 + 0 + d)); [| reflexivity].
  destruct (Z.leb_spec (739636 + 0 + d) 3652059); [lia | reflexivity].
Qed.

Lemma end_of_window_none :
  datetime_add (date_of_day (LAST_STATE_DAY + 1)) ((0 * 24 + 18) * 60) = None.
Proof. reflexivity. Qed.

Section PlusHours.

Context {R : PyRandom}.

Lemma returns_plus_hours (d h : Z) (Q : datetime -> rng -> Prop) (g : rng) :
  FIRST_STATE_DAY <= d <= LAST_STATE_DAY -> 0 <= h < 24 ->
  (forall dt, Q dt g) ->
  returns (plus_hours (date_of_day d) h) Q g.
Proof.
  intros Hd Hh HQ. unfold plus_hours.
  apply returns_bind.
  eapply returns_lift; [apply (timedelta_some 0 h); lia |].
  destruct (datetime_add_hours d h Hd Hh) as [dt Hdt].
  eapply returns_lift; [exact Hdt | apply HQ].
Qed.

End PlusHours.

(* ====================================================================== *)
(** * Lists: picking positions and filtering by identifier *)
(* ====================================================================== *)

Lemma pick_length {A : Type} (l : list A) (ps : list nat) :
  Forall (fun p => (p < List.length l)%nat) ps ->
  List.length (pick l ps) = List.length ps.
Proof.
  induction 1 as [| p ps Hp _ IH]; [reflexivity |].
  unfold pick in *. cbn [flat_map]. rewrite length_app, IH.
  destruct (nth_error l p) eqn:E; [reflexivity |].
  apply nth_error_None in E. lia.
Qed.

Lemma pick_seq {A : Type} (l : list A) :
  forall n, pick l (seq n (List.length l - n)) = skipn n l.
Proof.
  intro n. remember (List.length l - n)%nat as m eqn:Hm.
  revert n Hm. induction m as [| m IH]; intros n Hm.
  - cbn. symmetry. apply skipn_all2. lia.
  - cbn [seq pick flat_map].
    destruct (nth_error l n) as [x |] eqn:E.
    + fold (pick l (seq (S n) m)). rewrite IH by lia.
      clear IH Hm. revert n E. induction l as [| y l IHl]; intros n E.
      * destruct n; discriminate.
      * destruct n as [| n]; [injection E as ->; reflexivity |].
        cbn [skipn]. apply IHl. exact E.
    + apply nth_error_None in E. lia.
Qed.

Lemma pick_perm {A : Type} (l : list A) (ps qs : list nat) :
  Permutation ps qs -> Permutation (pick l ps) (pick l qs).
Proof.
  unfold pick. intro H. induction H; cbn [flat_map].
  - constructor.
  - apply Permutation_app_head. assumption.
  - rewrite !app_assoc. apply Permutation_app_tail, Permutation_app_comm.
  - eapply perm_trans; eassumption.
Qed.

(** Shuffling rearranges: picking a permutation of all positions gives a
    permutation of the list. *)
Lemma pick_shuffle {A : Type} (l : list A) (ps : list nat) :
  Permutation ps (seq 0 (List.length l)) -> Permutation (pick l ps) l.
Proof.
  intro H. eapply perm_trans; [apply pick_perm, H |].
  pose proof (pick_seq l 0) as E. rewrite Nat.sub_0_r in E.
  rewrite E. reflexivity.
Qed.

Lemma in_ids_iff (ids : list string) (t : Target) :
  not_in_ids ids t = false <-> In (tgt_id t) ids.
Proof.
  unfold not_in_ids. rewrite negb_false_iff, existsb_exists. split.
  - intros [x [Hx E]]. apply String.eqb_eq in E. subst. exact Hx.
  - intro H. exists (tgt_id t). split; [exact H | apply String.eqb_refl].
Qed.

(** Removing the targets whose identifier is among [ids] removes at most
    [length ids] of them when identifiers are unique. *)
Lemma filter_ids_length (ids : list string) (ts : list Target) :
  NoDup (map tgt_id ts) ->
  (List.length ts <= List.length (filter (not_in_ids ids) ts)
                     + List.length ids)%nat.
Proof.
  intro Hnd.
  pose proof (filter_length (not_in_ids ids) ts) as Hsplit.
  assert (List.length (filter (fun t => negb (not_in_ids ids t)) ts)
          <= List.length ids)%nat as Hle.
  { rewrite <- (length_map tgt_id).
    apply NoDup_incl_length.
    - clear Hsplit. induction ts as [| t ts IH]; [constructor |].
      cbn [map] in Hnd. apply NoDup_cons_iff in Hnd. destruct Hnd as [Hn Hnd].
      cbn [filter]. destruct (negb (not_in_ids ids t)); [| apply IH, Hnd].
      cbn [map]. constructor; [| apply IH, Hnd].
      intro Hin. apply Hn. apply in_map_iff in Hin.
      destruct Hin as [t' [E Ht']]. apply filter_In in Ht'.
      apply in_map_iff. exists t'. tauto.
    - intros x Hx. apply in_map_iff in Hx. destruct Hx as [t [<- Ht]].
      apply filter_In in Ht. destruct Ht as [_ Ht].
      apply negb_true_iff in Ht. apply in_ids_iff. exact Ht. }
  lia.
Qed.

Lemma TARGET_POOL_ids_NoDup : NoDup (map tgt_id TARGET_POOL).
Proof.
  apply (NoDup_count_occ' string_dec).
  intros x Hx. cbn in Hx.
  repeat (destruct Hx as [<- | Hx]; [vm_compute; reflexivity |]).
  contradiction.
Qed.

(** Filtering keeps keys distinct. *)
Lemma NoDup_keys_filter {T K : Type} (key : T -> K) (keep : T -> bool) :
  forall ts : list T,
    NoDup (map key ts) -> NoDup (map key (filter keep ts)).
Proof.
  intro ts. induction ts as [| t ts IH]; intro Hkeys; [constructor |].
  cbn [map] in Hkeys. apply NoDup_cons_iff in Hkeys.
  destruct Hkeys as [Hfresh Hkeys].
  cbn [filter]. destruct (keep t); [| apply IH, Hkeys].
  cbn [map]. constructor; [| apply IH, Hkeys].
  intro Hin. apply Hfresh. apply in_map_iff in Hin.
  destruct Hin as [t' [E Ht']]. apply filter_In in Ht'.
  apply in_map_iff. exists t'. tauto.
Qed.

Lemma available_ids_NoDup (d : Z) : NoDup (map tgt_id (available_targets d)).
Proof. apply NoDup_keys_filter, TARGET_POOL_ids_NoDup. Qed.

(** A weaker filter keeps at least as many elements. *)
Lemma filter_length_mono {A : Type} (p q : A -> bool) (l : list A) :
  (forall x, p x = true -> q x = true) ->
  (List.length (filter p l) <= List.length (filter q l))%nat.
Proof.
  intro Hpq. induction l as [| x l IH]; [apply le_n |].
  cbn [filter]. destruct (p x) eqn:Ep.
  - rewrite (Hpq x Ep). simpl. lia.
  - destruct (q x); simpl; lia.
Qed.

Lemma available_targets_mono (d1 d2 : Z) :
  d1 <= d2 ->
  (List.length (available_targets d1)
   <= List.length (available_targets d2))%nat.
Proof.
  intro H. apply filter_length_mono. intros t Ht.
  apply Z.leb_le in Ht. apply Z.leb_le. lia.
Qed.

Lemma available_targets_bounds (d : Z) :
  0 <= d -> (12 <= List.length (available_targets d) <= 26)%nat.
Proof.
  intro Hd. split.
  - change 12%nat with (List.length (available_targets 0)).
    apply available_targets_mono, Hd.
  - change 26%nat with (List.length TARGET_POOL).
    apply filter_length_le.
Qed.

(* ====================================================================== *)
(** * Daily state engine: what a construction establishes *)
(* ====================================================================== *)

Section DailyStateFacts.

Context {R : PyRandom}.

(** The identifiers drawn from [available] when [count] is positive, and
    the generator state after the draw. *)
Definition seeded_ids (available : list Target) (count : Z) (g : rng)
    : list string * rng :=
  if 0 <? count
  then let r := sample_pos (List.length available) (Z.to_nat count) g in
       (map tgt_id (pick available (fst r)), snd r)
  else ([], g).

(** The neutralized identifiers of day [d] and the generator state after
    drawing them, as fixed by [random.seed(42 + d)]. *)
Definition day_seeded_ids (d : Z) : list string * rng :=
  seeded_ids (available_targets d) (neutralized_count d) (seed (42 + d)).

(** The targets left after neutralization, before the shuffle. *)
Definition day_survivors (d : Z) : list Target :=
  filter (not_in_ids (fst (day_seeded_ids d))) (available_targets d).

(** The shuffled active target list of day [d]. *)
Definition day_targets (d : Z) : list Target :=
  pick (day_survivors d)
       (fst (shuffle_pos (List.length (day_survivors d))
               (snd (day_seeded_ids d)))).

(** What [DailyState(d)] establishes about the object it builds. *)
Record DailyState_ok (d : Z) (st : DailyState) : Prop := {
  ok_day : day st = d;
  ok_date : date st = date_of_day d;
  ok_dtg : dtg st = mil_dtg (date_of_day d) /\ eff_dtg st = dtg st;
  ok_phase : phase st = get_phase d;
  ok_info : get_phase_info d = Some (phase_info st);
  ok_labels : phase_label st = ph_label (phase_info st)
              /\ phase_name st = ph_name (phase_info st);
  ok_slm : exists r, -100 <= r <= 100
             /\ slm_strength st = Z.max 500 (3000 - int_mul d 13 2 + r);
  ok_hnsf : exists r, -5 <= r <= 5
             /\ hnsf_readiness st = Z.min 95 (35 + int_mul d 18 100 + r);
  ok_threat : exists r, -1 <= r <= 1
             /\ corridor_threat st = Z.max 1 (10 - int_mul d 2 100 + r);
  ok_support : exists r, -3 <= r <= 3
             /\ popular_support_gos st = Z.min 80 (30 + int_mul d 14 100 + r);
  ok_tips : exists r, -5 <= r <= 10
             /\ tip_line_calls st = Z.max 0 (int_mul d 8 10 + r);
  ok_amnesty : exists r, -2 <= r <= 3
             /\ amnesty_surrenders st = Z.max 0 (int_mul d 15 100 + r);
  ok_texts : event_texts st = map ev_text (events st);
  ok_targets : active_targets st = day_targets d;
  ok_cut : exists r, 6 <= r <= 10
             /\ jiptl_above_cut st
                = firstn (Z.to_nat (Z.min (len (active_targets st)) r))
                         (active_targets st)
             /\ jiptl_below_cut st
                = skipn (Z.to_nat (Z.min (len (active_targets st)) r))
                        (active_targets st);
  ok_acm : 6 <= acm_count st <= 10;
  ok_fscm : 5 <= fscm_count st <= 8
}.

Lemma neutralized_count_le (d : Z) :
  neutralized_count d <= len (available_targets d) - 5.
Proof. unfold neutralized_count. lia. Qed.

Lemma returns_missions (d : Z) (e : string) (p : Z)
    (Q : list Mission -> rng -> Prop) (g : rng) :
  FIRST_STATE_DAY <= d <= LAST_STATE_DAY ->
  (forall ms g', Q ms g') ->
  returns (generate_ato_missions d (date_of_day d) e p) Q g.
Proof.
  intros Hd HQ. unfold generate_ato_missions.
  apply returns_bind, returns_randint; [lia |]. intros k g1 Hk.
  apply returns_bind, returns_sample.
  { cbn [ISR_AREAS List.length]. lia. }
  intros ps g2 _ _ _.
  apply returns_bind.
  apply (returns_mono _ (fun _ _ => True)).
  { apply returns_for_fold; [exact I |].
    intros [missions num] area s _ _. unfold isr_mission.
    apply returns_bind, returns_choice; [discriminate |]. intros pl g3 _.
    apply returns_bind, returns_randint; [lia |]. intros c g4 _.
    apply returns_bind, returns_randint; [lia |]. intros sh g5 Hsh.
    apply returns_bind, returns_randint; [lia |]. intros du g6 Hdu.
    apply returns_bind, returns_plus_hours; [exact Hd | lia |]. intros st.
    apply returns_bind, returns_plus_hours; [exact Hd | lia |]. intros en.
    exact I. }
  intros acc g3 _.
  apply returns_bind.
  apply (returns_mono _ (fun _ _ => True)).
  { apply returns_for_fold; [exact I |].
    intros [missions num] sup s _ _. unfold support_mission.
    apply returns_bind, returns_randint; [lia |]. intros c g4 _.
    exact I. }
  intros [missions num] g4 _.
  destruct (3 <=? p); [| apply HQ].
  apply returns_bind, returns_choice; [discriminate |]. intros ex g5 _.
  apply returns_bind, returns_randint; [lia |]. intros c g6 _.
  apply returns_bind, returns_choice; [discriminate |]. intros ar g7 _.
  apply returns_bind, returns_randint; [lia |]. intros h g8 Hh.
  apply returns_bind, returns_plus_hours; [exact Hd | lia |]. intros t.
  apply HQ.
Qed.

(** Every construction on a supported day returns, leaves the generator
    freshly seeded with 42, and builds a state as described. *)
Lemma DailyState_init_returns (d : Z) (g : rng) :
  FIRST_STATE_DAY <= d <= LAST_STATE_DAY ->
  returns (DailyState_init d)
          (fun st g' => g' = seed 42 /\ DailyState_ok d st) g.
Proof.
  intro Hd. unfold DailyState_init.
  apply returns_bind.
  eapply returns_lift; [apply day_date_some; lia |].
  apply returns_bind, returns_plus_hours; [exact Hd | lia |]. intro end_date.
  destruct (get_phase_info_some d) as [info Hinfo].
  apply returns_bind. eapply returns_lift; [exact Hinfo |].
  apply returns_bind, returns_randint; [lia |]. intros r1 g1 Hr1.
  apply returns_bind, returns_randint; [lia |]. intros r2 g2 Hr2.
  apply returns_bind, returns_randint; [lia |]. intros r3 g3 Hr3.
  apply returns_bind, returns_randint; [lia |]. intros r4 g4 Hr4.
  apply returns_bind, returns_randint; [lia |]. intros r5 g5 Hr5.
  apply returns_bind, returns_randint; [lia |]. intros r6 g6 Hr6.
  apply returns_bind.
  apply (returns_mono _ (fun _ _ => True)).
  { destruct (events_in_window d) as [| e es] eqn:Eev; [exact I |].
    apply returns_bind, returns_randint; [lia |]. intros k g7 Hk.
    apply returns_sample_exact; [| exact I].
    cbn [List.length]. lia. }
  intros evs g7 _.
  apply returns_bind, returns_seed.
  apply returns_bind.
  apply (returns_mono _ (fun ids g' => (ids, g') = day_seeded_ids d)).
  { unfold day_seeded_ids, seeded_ids.
    destruct (0 <? neutralized_count d) eqn:Ecount.
    - apply returns_bind, returns_sample_exact.
      + apply Z.ltb_lt in Ecount. pose proof (neutralized_count_le d). lia.
      + reflexivity.
    - reflexivity. }
  intros ids g8 Hids.
  apply returns_bind, returns_shuffle_exact.
  apply returns_bind, returns_randint; [lia |]. intros r7 g9 Hr7.
  apply returns_bind, returns_missions; [exact Hd |]. intros ms g10.
  apply returns_bind, returns_randint; [lia |]. intros r8 g11 Hr8.
  apply returns_bind, returns_randint; [lia |]. intros r9 g12 Hr9.
  apply returns_bind, returns_seed.
  apply returns_ret. split; [reflexivity |].
  constructor; cbn [day date dtg eff_dtg phase phase_info phase_label
                      phase_name slm_strength hnsf_readiness corridor_threat
                      popular_support_gos tip_line_calls amnesty_surrenders
                      events event_texts active_targets jiptl_above_cut
                      jiptl_below_cut acm_count fscm_count];
    try reflexivity; try assumption; try (split; reflexivity);
    try (eexists; split; [eassumption | reflexivity]).
  - unfold day_targets, day_survivors. rewrite <- Hids. reflexivity.
  - exists r7. split; [exact Hr7 | split; reflexivity].
Qed.

End DailyStateFacts.

(* ====================================================================== *)
(** * The reading of the reseed as a frame *)
(* ====================================================================== *)

Section Isolated.

Context {R : PyRandom}.

(** Run [c] on a generator of its own, seeded with [n]; the ambient
    generator is not touched. *)
Definition with_private_seed {A : Type} (n : Z) (c : Py A) : Py A :=
  fun g =>
    match c (seed n) with
    | Ok a _ => Ok a g
    | Raise e _ => Raise e g
    end.

(** The construction as the specification words it, for comparison with
    [DailyState_init]: the neutralized set is drawn from a generator keyed
    by 42 + day, every other draw of the day, the shuffle included, comes
    from the ambient stream, and the ambient stream is left where those
    draws put it. *)
Definition DailyState_init_isolated (day : Z) : Py DailyState :=
  date <- lift OverflowError (day_date day) ;;
  let dtg := mil_dtg date in
  let eff_dtg := mil_dtg date in
  end_date <- plus_hours date 18 ;;
  let end_dtg := mil_dtg end_date in
  let phase := get_phase day in
  phase_info <- lift KeyError (get_phase_info day) ;;
  let phase_label := ph_label phase_info in
  let phase_name := ph_name phase_info in
  r <- random_randint (-100) 100 ;;
  let slm_strength := Z.max 500 (3000 - int_mul day 13 2 + r) in
  r <- random_randint (-5) 5 ;;
  let hnsf_readiness := Z.min 95 (35 + int_mul day 18 100 + r) in
  r <- random_randint (-1) 1 ;;
  let corridor_threat := Z.max 1 (10 - int_mul day 2 100 + r) in
  r <- random_randint (-3) 3 ;;
  let popular_support_gos := Z.min 80 (30 + int_mul day 14 100 + r) in
  r <- random_randint (-5) 10 ;;
  let tip_line_calls := Z.max 0 (int_mul day 8 10 + r) in
  r <- random_randint (-2) 3 ;;
  let amnesty_surrenders := Z.max 0 (int_mul day 15 100 + r) in
  let events := events_in_window day in
  events <- match events with
            | [] => ret events
            | _ => k <- random_randint 1 3 ;;
                   random_sample events (Z.min (len events) k)
            end ;;
  let event_texts := map ev_text events in
  let available := available_targets day in
  let neutralized_count := neutralized_count day in
  neutralized_ids <- with_private_seed (42 + day)
                       (if 0 <? neutralized_count
                        then ts <- random_sample available neutralized_count ;;
                             ret (map tgt_id ts)
                        else ret []) ;;
  let active_targets := filter (not_in_ids neutralized_ids) available in
  active_targets <- random_shuffle active_targets ;;
  r <- random_randint 6 10 ;;
  let n_above_cut := Z.to_nat (Z.min (len active_targets) r) in
  let jiptl_above_cut := firstn n_above_cut active_targets in
  let jiptl_below_cut := skipn n_above_cut active_targets in
  ato_missions <- generate_ato_missions day date end_dtg phase ;;
  acm_count <- random_randint 6 10 ;;
  fscm_count <- random_randint 5 8 ;;
  ret (mkDailyState day date dtg eff_dtg end_dtg phase phase_info
         phase_label phase_name
         slm_strength hnsf_readiness corridor_threat popular_support_gos
         tip_line_calls amnesty_surrenders
         events event_texts
         active_targets jiptl_above_cut jiptl_below_cut
         ato_missions acm_count fscm_count).

(** The generator state a computation leaves, whether it returns or
    raises. *)
Definition state_after {A : Type} (c : Py A) (g : rng) : rng :=
  match c g with
  | Ok _ g' => g'
  | Raise _ g' => g'
  end.

(** The value a computation returns, if it does. *)
Definition value_of {A : Type} (c : Py A) (g : rng) : option A :=
  match c g with
  | Ok a _ => Some a
  | Raise _ _ => None
  end.

(** C3 as stated: a draw made after the construction gives what it would
    give had the neutralization draw been made aside from the ambient
    stream. *)
Definition reseed_is_frame (d : Z) (g : rng) : Prop :=
  forall a b,
    value_of (random_randint a b) (state_after (DailyState_init d) g)
    = value_of (random_randint a b)
               (state_after (DailyState_init_isolated d) g).

(** C7 as stated: the presentation order is the one a shuffle on the
    ambient stream gives. *)
Definition shuffle_is_ambient (d : Z) (g : rng) : Prop :=
  option_map active_targets (value_of (DailyState_init d) g)
  = option_map active_targets (value_of (DailyState_init_isolated d) g).

(** Two constructions of the same day, one after the other. *)
Definition derive_twice (d : Z) : Py (DailyState * DailyState) :=
  first <- DailyState_init d ;;
  second <- DailyState_init d ;;
  ret (first, second).

(** C2 as stated: from the generator state [g] a global seed leaves, the
    two derivations give one and the same state. *)
Definition rederivation_identical (d : Z) (g : rng) : Prop :=
  exists st g', derive_twice d g = Ok (st, st) g'.

(** The attributes of a state computed from the day alone or drawn after
    [random.seed(42 + day)]. *)
Definition day_determined (st : DailyState) :=
  (day st, date st, dtg st, eff_dtg st, end_dtg st,
   phase st, phase_info st, phase_label st, phase_name st,
   active_targets st, jiptl_above_cut st, jiptl_below_cut st,
   ato_missions st, acm_count st, fscm_count st).

(** The attributes drawn before that reseed, from the stream the
    construction finds: the six metrics and the events. *)
Definition ambient_drawn (st : DailyState) :=
  (slm_strength st, hnsf_readiness st, corridor_threat st,
   popular_support_gos st, tip_line_calls st, amnesty_surrenders st,
   events st, event_texts st).

End Isolated.

(* ====================================================================== *)
(** * Daily state engine: properties *)
(* ====================================================================== *)

Lemma bind_ok {S A B : Type} (c : M S A) (f : A -> M S B) s a s' :
  c s = Ok a s' -> bind c f s = f a s'.
Proof. unfold bind. intros ->. reflexivity. Qed.

Lemma bind_raise {S A B : Type} (c : M S A) (f : A -> M S B) s e s' :
  c s = Raise e s' -> bind c f s = Raise e s'.
Proof. unfold bind. intros ->. reflexivity. Qed.

Section DailyStateProperties.

Context {R : PyRandom}.

Lemma DailyState_init_ok (d : Z) (g : rng) :
  FIRST_STATE_DAY <= d <= LAST_STATE_DAY ->
  exists st, DailyState_init d g = Ok st (seed 42) /\ DailyState_ok d st.
Proof.
  intro Hd.
  destruct (returns_ok _ _ _ (DailyState_init_returns d g Hd))
    as [st [g' [E [-> Hok]]]].
  exists st. split; assumption.
Qed.

(** Outside the supported days the construction raises [OverflowError]
    before any draw is made. *)
Lemma DailyState_init_raises (d : Z) (g : rng) :
  d < FIRST_STATE_DAY \/ LAST_STATE_DAY < d ->
  DailyState_init d g = Raise OverflowError g.
Proof.
  intro Hd. unfold DailyState_init.
  destruct (Z.eq_dec d (LAST_STATE_DAY + 1)) as [-> | Hne].
  - erewrite bind_ok
      by (unfold lift; rewrite day_date_some;
          [reflexivity | rewrite FIRST_STATE_DAY_value, LAST_STATE_DAY_value; lia]).
    apply bind_raise. unfold plus_hours.
    erewrite bind_ok
      by (unfold lift; rewrite (timedelta_some 0 18) by lia; reflexivity).
    unfold lift. rewrite end_of_window_none. reflexivity.
  - apply bind_raise. unfold lift. rewrite day_date_none; [reflexivity | lia].
Qed.

Lemma bind_inv {S A B : Type} (c : M S A) (f : A -> M S B) s b t :
  bind c f s = Ok b t -> exists a s', c s = Ok a s' /\ f a s' = Ok b t.
Proof.
  unfold bind. destruct (c s) as [a s' | e s']; [| discriminate].
  intro H. exists a, s'. split; [reflexivity | exact H].
Qed.

Lemma lift_inv {S A : Type} (e : PyExc) (o : option A) (s : S) a t :
  lift e o s = Ok a t -> o = Some a /\ t = s.
Proof.
  unfold lift, ret, raise. destruct o as [x |]; [| discriminate].
  intro H. injection H as -> ->. split; reflexivity.
Qed.

(** Date arithmetic reads nothing of the generator. *)
Lemma plus_hours_inv (dt : datetime) (h : Z) (g : rng) a t :
  plus_hours dt h g = Ok a t -> forall g', plus_hours dt h g' = Ok a g'.
Proof.
  unfold plus_hours, bind, lift, ret, raise.
  destruct (timedelta 0 h) as [delta |]; [| discriminate].
  destruct (datetime_add dt delta) as [x |]; [| discriminate].
  intro H. injection H as -> _. reflexivity.
Qed.

Ltac next_step E a g H :=
  apply bind_inv in E; destruct E as (a & g & H & E); cbv beta zeta in E.

Ltac same_step Ea Eb a g H :=
  let b := fresh "b" in
  let gb := fresh "gb" in
  let Hb := fresh "Hb" in
  next_step Ea a g H; next_step Eb b gb Hb;
  rewrite H in Hb; injection Hb as <- <-.

(** Whatever the generator states two constructions of a day start from,
    they agree on everything that follows [random.seed(42 + day)]. *)
Lemma day_determined_fixed (d : Z) (g1 g2 : rng) (s1 s2 : DailyState)
    (t1 t2 : rng) :
  DailyState_init d g1 = Ok s1 t1 ->
  DailyState_init d g2 = Ok s2 t2 ->
  day_determined s1 = day_determined s2.
Proof.
  intros E1 E2. unfold DailyState_init in E1, E2.
  next_step E1 date1 ga Hd1. next_step E2 date2 gb Hd2.
  apply lift_inv in Hd1, Hd2. destruct Hd1 as [Hd1 ->], Hd2 as [Hd2 ->].
  rewrite Hd1 in Hd2. injection Hd2 as <-.
  next_step E1 end1 ga He1. next_step E2 end2 gb He2.
  rewrite (plus_hours_inv _ _ _ _ _ He1 g2) in He2. injection He2 as <- <-.
  next_step E1 info1 gc Hi1. next_step E2 info2 gd Hi2.
  apply lift_inv in Hi1, Hi2. destruct Hi1 as [Hi1 ->], Hi2 as [Hi2 ->].
  rewrite Hi1 in Hi2. injection Hi2 as <-.
  do 7 (let a := fresh "a" in let g := fresh "g" in let H := fresh "H" in
        next_step E1 a g H; clear H).
  do 7 (let a := fresh "a" in let g := fresh "g" in let H := fresh "H" in
        next_step E2 a g H; clear H).
  next_step E1 u1 gs1 Hs1. next_step E2 u2 gs2 Hs2.
  unfold random_seed in Hs1, Hs2.
  injection Hs1 as <- <-. injection Hs2 as <- <-.
  same_step E1 E2 ids q1 Hids.
  same_step E1 E2 act q2 Hact.
  same_step E1 E2 above q3 Habove.
  same_step E1 E2 ms q4 Hms.
  same_step E1 E2 acm q5 Hacm.
  same_step E1 E2 fscm q6 Hfscm.
  next_step E1 v1 gt1 Ht1. next_step E2 v2 gt2 Ht2.
  unfold ret in E1, E2.
  injection E1 as <- _. injection E2 as <- _.
  reflexivity.
Qed.

(** A state is its day-determined attributes and its ambient draws. *)
Lemma state_of_parts (a b : DailyState) :
  day_determined a = day_determined b ->
  ambient_drawn a = ambient_drawn b ->
  a = b.
Proof.
  destruct a, b. unfold day_determined, ambient_drawn.
  cbn [day date dtg eff_dtg end_dtg phase phase_info phase_label
       phase_name slm_strength hnsf_readiness corridor_threat
       popular_support_gos tip_line_calls amnesty_surrenders
       events event_texts active_targets jiptl_above_cut
       jiptl_below_cut ato_missions acm_count fscm_count].
  intros H1 H2. injection H1 as -> -> -> -> -> -> -> -> -> -> -> -> -> -> ->.
  injection H2 as -> -> -> -> -> -> -> ->. reflexivity.
Qed.

(** C2, amended. Every construction ends in [random.seed(42)], so of two
    derivations of a day in a row the second starts from the seed-42
    state whatever state [g] the first started from (after
    [random.seed(n)], [g] is [seed n]).  From the seed-42 state, where the
    module and every construction leave the generator, the two
    derivations give the same object.  From any other state they still
    agree on everything that follows [random.seed(42 + day)] -- the
    active targets, the above-cut and below-cut lists, the missions, and
    the ACM and FSCM counts -- and on what the day alone fixes; the six
    metrics and the events of the first derivation come from the stream
    of [g], those of the second from the seed-42 stream, and the two
    states are the same exactly when these ambient draws coincide.  This
    is so on every day from [FIRST_STATE_DAY] to [LAST_STATE_DAY]; on any
    other day each derivation raises [OverflowError] before drawing
    anything. *)
Theorem DailyState_rederivation (d : Z) (g : rng) :
  (FIRST_STATE_DAY <= d <= LAST_STATE_DAY
   /\ (exists st, derive_twice d (seed 42) = Ok (st, st) (seed 42))
   /\ exists first second,
        derive_twice d g = Ok (first, second) (seed 42)
        /\ DailyState_init d g = Ok first (seed 42)
        /\ DailyState_init d (seed 42) = Ok second (seed 42)
        /\ day_determined first = day_determined second
        /\ (first = second <-> ambient_drawn first = ambient_drawn second))
  \/ ((d < FIRST_STATE_DAY \/ LAST_STATE_DAY < d)
      /\ (forall g0, DailyState_init d g0 = Raise OverflowError g0)
      /\ derive_twice d g = Raise OverflowError g).
Proof.
  assert (d < FIRST_STATE_DAY \/ LAST_STATE_DAY < d ->
          (d < FIRST_STATE_DAY \/ LAST_STATE_DAY < d)
          /\ (forall g0, DailyState_init d g0 = Raise OverflowError g0)
          /\ derive_twice d g = Raise OverflowError g) as Hout.
  { intro Hd. split; [exact Hd |].
    split; [intro g0; apply DailyState_init_raises, Hd |].
    unfold derive_twice. apply bind_raise, DailyState_init_raises, Hd. }
  destruct (Z.lt_ge_cases d FIRST_STATE_DAY) as [Hlo | Hlo];
    [right; apply Hout; lia |].
  destruct (Z.lt_ge_cases LAST_STATE_DAY d) as [Hhi | Hhi];
    [right; apply Hout; lia |].
  clear Hout. left. split; [lia |].
  destruct (DailyState_init_ok d (seed 42)) as [second [E2 _]]; [lia |].
  destruct (DailyState_init_ok d g) as [first [E1 _]]; [lia |].
  split.
  { exists second. unfold derive_twice.
    rewrite (bind_ok _ _ _ _ _ E2), (bind_ok _ _ _ _ _ E2). reflexivity. }
  exists first, second.
  split.
  { unfold derive_twice.
    rewrite (bind_ok _ _ _ _ _ E1), (bind_ok _ _ _ _ _ E2). reflexivity. }
  split; [exact E1 |]. split; [exact E2 |].
  pose proof (day_determined_fixed d g (seed 42) first second _ _ E1 E2)
    as Hday.
  split; [exact Hday |].
  split; [intros ->; reflexivity | apply state_of_parts, Hday].
Qed.

(** C3, amended. The construction ends by reseeding the global generator
    with 42: whatever the ambient state before it, the state after it is
    the fresh seed-42 state, so a value drawn after the construction is
    the one drawn at the start of the seed-42 stream. *)
Theorem DailyState_init_reseeds (d : Z) (g : rng) :
  FIRST_STATE_DAY <= d <= LAST_STATE_DAY ->
  state_after (DailyState_init d) g = seed 42
  /\ forall a b,
       value_of (random_randint a b) (state_after (DailyState_init d) g)
       = value_of (random_randint a b) (seed 42).
Proof.
  intro Hd. destruct (DailyState_init_ok d g Hd) as [st [E _]].
  unfold state_after. rewrite E. split; reflexivity.
Qed.

Lemma seeded_ids_length (available : list Target) (count : Z) (g : rng) :
  count <= len available ->
  List.length (fst (seeded_ids available count g)) = Z.to_nat count.
Proof.
  intro Hc. unfold seeded_ids.
  destruct (Z.ltb_spec 0 count) as [Hpos | Hneg].
  - cbn [fst]. rewrite length_map, pick_length.
    + apply sample_pos_spec. lia.
    + apply sample_pos_spec. lia.
  - cbn [fst List.length]. lia.
Qed.

(** Survivors of a neutralization: at least the available targets less
    the identifiers drawn. *)
Lemma survivors_floor (available : list Target) (ids : list string)
    (count : Z) :
  NoDup (map tgt_id available) ->
  List.length ids = Z.to_nat count ->
  count <= len available - 5 ->
  (5 <= List.length available)%nat ->
  (5 <= List.length (filter (not_in_ids ids) available))%nat.
Proof.
  intros Hnd Hids Hc Hav.
  pose proof (filter_ids_length ids available Hnd). lia.
Qed.

Lemma int_mul_mono (d1 d2 num den : Z) :
  0 <= num -> 0 < den -> d1 <= d2 -> int_mul d1 num den <= int_mul d2 num den.
Proof.
  intros Hn Hden Hd. unfold int_mul. apply Z.quot_le_mono; nia.
Qed.

Lemma neutralized_count_mono (d1 d2 : Z) :
  d1 <= d2 -> neutralized_count d1 <= neutralized_count d2.
Proof.
  intro Hd. unfold neutralized_count.
  pose proof (available_targets_mono d1 d2 Hd).
  pose proof (int_mul_mono d1 d2 3 100 ltac:(lia) ltac:(lia) Hd).
  lia.
Qed.

Lemma day_targets_perm (d : Z) :
  Permutation (day_targets d) (day_survivors d).
Proof. unfold day_targets. apply pick_shuffle, shuffle_pos_perm. Qed.

Lemma day_seeded_ids_length (d : Z) :
  List.length (fst (day_seeded_ids d)) = Z.to_nat (neutralized_count d).
Proof.
  unfold day_seeded_ids. apply seeded_ids_length.
  pose proof (neutralized_count_le d). lia.
Qed.

Lemma day_survivors_floor (d : Z) :
  0 <= d -> (5 <= List.length (day_survivors d))%nat.
Proof.
  intro Hd. unfold day_survivors.
  apply (survivors_floor _ _ (neutralized_count d)).
  - apply available_ids_NoDup.
  - apply day_seeded_ids_length.
  - apply neutralized_count_le.
  - pose proof (available_targets_bounds d Hd). lia.
Qed.

(** C5. The neutralized count [min(len(available) - 5, int(day * 0.03))]
    does not decrease as the day grows, and the active targets of a day
    are a rearrangement of [day_survivors], the available targets without
    the neutralized identifiers (as many identifiers as the count, when it
    is positive), and number at least 5. *)
Theorem neutralization_monotone_floor (d1 d2 : Z) (g : rng) :
  0 <= d1 <= d2 -> d2 <= LAST_STATE_DAY ->
  neutralized_count d1 <= neutralized_count d2
  /\ List.length (fst (day_seeded_ids d2)) = Z.to_nat (neutralized_count d2)
  /\ exists st,
       DailyState_init d2 g = Ok st (seed 42)
       /\ Permutation (active_targets st) (day_survivors d2)
       /\ (5 <= List.length (active_targets st))%nat.
Proof.
  intros Hd Hlast. split; [apply neutralized_count_mono; lia |].
  split; [apply day_seeded_ids_length |].
  destruct (DailyState_init_ok d2 g) as [st [E Hok]].
  { rewrite FIRST_STATE_DAY_value. lia. }
  exists st. split; [exact E |].
  rewrite (ok_targets _ _ Hok).
  pose proof (day_targets_perm d2) as Hperm.
  pose proof (day_survivors_floor d2 ltac:(lia)) as Hfloor.
  rewrite <- (Permutation_length Hperm) in Hfloor.
  split; [exact Hperm | exact Hfloor].
Qed.

(** The bounds the metric formulas guarantee.  The corridor threat score
    has a floor but no ceiling in the code: with noise +1 it reaches 11. *)
Lemma metric_bounds (d : Z) (g : rng) :
  0 <= d <= LAST_STATE_DAY ->
  exists st,
    DailyState_init d g = Ok st (seed 42)
    /\ 500 <= slm_strength st
    /\ hnsf_readiness st <= 95
    /\ 1 <= corridor_threat st <= 11
    /\ popular_support_gos st <= 80
    /\ 0 <= tip_line_calls st
    /\ 0 <= amnesty_surrenders st.
Proof.
  intro Hd. destruct (DailyState_init_ok d g) as [st [E Hok]].
  { rewrite FIRST_STATE_DAY_value. lia. }
  exists st. split; [exact E |].
  destruct (ok_slm _ _ Hok) as [r1 [_ ->]].
  destruct (ok_hnsf _ _ Hok) as [r2 [_ ->]].
  destruct (ok_threat _ _ Hok) as [r3 [Hr3 ->]].
  destruct (ok_support _ _ Hok) as [r4 [_ ->]].
  destruct (ok_tips _ _ Hok) as [r5 [_ ->]].
  destruct (ok_amnesty _ _ Hok) as [r6 [_ ->]].
  assert (0 <= int_mul d 2 100) by (apply Z.quot_pos; lia).
  lia.
Qed.

(** C7, amended. The shuffle comes after [random.seed(42 + day)] and so
    consumes the day-seeded stream: the presentation order is
    [day_targets d], fixed by the day, whatever the ambient generator
    state the construction starts from. *)
Theorem active_targets_day_seeded (d : Z) (g1 g2 : rng) :
  FIRST_STATE_DAY <= d <= LAST_STATE_DAY ->
  exists s1 s2,
    value_of (DailyState_init d) g1 = Some s1
    /\ value_of (DailyState_init d) g2 = Some s2
    /\ active_targets s1 = day_targets d
    /\ active_targets s2 = active_targets s1.
Proof.
  intro Hd.
  destruct (DailyState_init_ok d g1 Hd) as [s1 [E1 H1]].
  destruct (DailyState_init_ok d g2 Hd) as [s2 [E2 H2]].
  exists s1, s2. unfold value_of. rewrite E1, E2.
  rewrite (ok_targets _ _ H1), (ok_targets _ _ H2). repeat split.
Qed.

End DailyStateProperties.

(* ====================================================================== *)
(** * Daily state engine: concrete runs *)
(* ====================================================================== *)

Section ConcreteStates.

#[local] Existing Instance Lcg.lcg.

(** C2 as stated fails.  With the generator [Lcg.lcg]: after
    [random.seed(7)], two derivations of day 5 in a row give the strength
    2935, then 3055.  The first draws its noise from the stream of seed
    7; the construction then reseeds with 42, and the second draws from
    that stream. *)
Lemma rederivation_differs : ~ rederivation_identical 5 (seed 7).
Proof.
  intros [st [g' H]].
  apply (f_equal (fun r => match r with
                           | Ok (a, b) _ => Some (slm_strength a,
                                                  slm_strength b)
                           | Raise _ _ => None
                           end)) in H.
  vm_compute in H. injection H as H1 H2. rewrite <- H1 in H2.
  discriminate H2.
Qed.

Lemma DailyState_init_reseeds_witness :
  (FIRST_STATE_DAY <= 0 <= LAST_STATE_DAY)
  /\ (state_after (DailyState_init 0) 7 = seed 42
      /\ forall a b,
           value_of (random_randint a b)
                    (state_after (DailyState_init 0) 7)
           = value_of (random_randint a b) (seed 42)).
Proof.
  assert (FIRST_STATE_DAY <= 0 <= LAST_STATE_DAY) as H
    by (rewrite FIRST_STATE_DAY_value, LAST_STATE_DAY_value; lia).
  split; [exact H | apply (@DailyState_init_reseeds Lcg.lcg 0 7 H)].
Defined.

(** C3 as stated fails.  With the generator [Lcg.lcg]: after the
    construction of day 0 from the freshly seeded state, [randint(1, 100)]
    gives 82, the first value of the seed-42 stream, whereas with the
    neutralization draw kept aside from the ambient stream it would give
    18. *)
Lemma reseed_not_frame : ~ reseed_is_frame 0 (seed 42).
Proof.
  intro H. specialize (H 1 100). vm_compute in H. discriminate H.
Qed.

Lemma neutralization_monotone_floor_witness :
  (0 <= 40 <= 130) /\ (130 <= LAST_STATE_DAY)
  /\ (neutralized_count 40 <= neutralized_count 130
      /\ List.length (fst (day_seeded_ids 130))
         = Z.to_nat (neutralized_count 130)
      /\ exists st,
           DailyState_init 130 (seed 42) = Ok st (seed 42)
           /\ Permutation (active_targets st) (day_survivors 130)
           /\ (5 <= List.length (active_targets st))%nat).
Proof.
  assert (0 <= 40 <= 130) as H1 by lia.
  assert (130 <= LAST_STATE_DAY) as H2
    by (rewrite LAST_STATE_DAY_value; lia).
  split; [exact H1 |]. split; [exact H2 |].
  apply (@neutralization_monotone_floor Lcg.lcg 40 130 (seed 42) H1 H2).
Defined.

(** C6 at a failing input: on day 0, when the [randint(-1, 1)] noise
    comes out +1 (as it does with [Lcg.lcg] from the freshly seeded
    state), the corridor threat score is 11, above the 1-10 range noted
    beside the formula. *)
Lemma corridor_threat_eleven :
  exists st,
    DailyState_init 0 (seed 42) = Ok st (seed 42)
    /\ corridor_threat st = 11.
Proof. eexists. split; vm_compute; reflexivity. Qed.

Lemma active_targets_day_seeded_witness :
  (FIRST_STATE_DAY <= 130 <= LAST_STATE_DAY)
  /\ exists s1 s2,
       value_of (DailyState_init 130) 1 = Some s1
       /\ value_of (DailyState_init 130) 2 = Some s2
       /\ active_targets s1 = day_targets 130
       /\ active_targets s2 = active_targets s1.
Proof.
  assert (FIRST_STATE_DAY <= 130 <= LAST_STATE_DAY) as H
    by (rewrite FIRST_STATE_DAY_value, LAST_STATE_DAY_value; lia).
  split; [exact H | apply (@active_targets_day_seeded Lcg.lcg 130 1 2 H)].
Defined.

(** C7 as stated fails.  With the generator [Lcg.lcg], on day 0 from the
    freshly seeded state, the order the code produces differs from the
    order a shuffle on the ambient stream produces. *)
Lemma shuffle_not_ambient : ~ shuffle_is_ambient 0 (seed 42).
Proof.
  intro H. vm_compute in H. discriminate H.
Qed.

(** C8 as stated fails at its first clause: the construction of day
    3000000 raises. *)
Lemma DailyState_init_overflow :
  DailyState_init 3000000 (seed 42)
  = Raise OverflowError (seed 42).
Proof. vm_compute. reflexivity. Qed.

End ConcreteStates.

(* ====================================================================== *)
(** * Coordinate jitter *)
(* ====================================================================== *)

(** A coordinate string [jitter_mgrs] cannot jitter: fewer than four
    whitespace-separated parts, or a third or fourth part that [int]
    rejects. *)
Definition malformed_mgrs (s : string) : Prop :=
  (List.length (py_split s) < 4)%nat
  \/ py_int (nth 2 (py_split s) "") = None
  \/ py_int (nth 3 (py_split s) "") = None.

Section Jitter.

Context {R : PyRandom}.

Lemma jitter_mgrs_returns (s : string) (g : rng) :
  exists out g',
    jitter_mgrs s g = Ok out g' /\ (malformed_mgrs s -> out = s).
Proof.
  unfold jitter_mgrs, malformed_mgrs.
  generalize (py_split s). intro parts.
  destruct (Nat.leb_spec 4 (List.length parts)) as [Hlen | Hlen];
    [| exists s, g; split; reflexivity].
  unfold try_except, bind, list_get, int_of_str, lift, ret, raise.
  destruct (nth_error parts 2) as [p2 |] eqn:E2;
    [| exists s, g; split; reflexivity].
  rewrite (nth_error_nth _ _ "" E2).
  destruct (py_int p2) as [e0 |];
    [| exists s, g; split; reflexivity].
  unfold random_randint. change (-50 <=? 50) with true. cbv iota.
  destruct (randint (-50) 50 g) as [r1 g1].
  destruct (nth_error parts 3) as [p3 |] eqn:E3;
    [| exists s, g1; split; reflexivity].
  rewrite (nth_error_nth _ _ "" E3).
  destruct (py_int p3) as [n0 |];
    [| exists s, g1; split; reflexivity].
  destruct (randint (-50) 50 g1) as [r2 g2].
  destruct (nth_error parts 0) as [p0 |];
    [| exists s, g2; split; reflexivity].
  destruct (nth_error parts 1) as [p1 |];
    [| exists s, g2; split; reflexivity].
  eexists. exists g2. split; [reflexivity |].
  intros [H | [H | H]]; [lia | discriminate H | discriminate H].
Qed.

(** C8, amended. Building the Daily State returns, without raising, on
    every day from [FIRST_STATE_DAY] to [LAST_STATE_DAY] (on other days
    the date arithmetic raises [OverflowError]); and [jitter_mgrs] returns
    on every string, giving back the string itself when it is
    malformed. *)
Theorem derivation_and_jitter_return (d : Z) (s : string) (g : rng) :
  FIRST_STATE_DAY <= d <= LAST_STATE_DAY ->
  (exists st g', DailyState_init d g = Ok st g')
  /\ (exists out g',
        jitter_mgrs s g = Ok out g' /\ (malformed_mgrs s -> out = s)).
Proof.
  intro Hd. split.
  - destruct (DailyState_init_ok d g Hd) as [st [E _]].
    exists st, (seed 42). exact E.
  - apply jitter_mgrs_returns.
Qed.

End Jitter.

Section ConcreteJitter.

#[local] Existing Instance Lcg.lcg.

Lemma derivation_and_jitter_return_witness :
  (FIRST_STATE_DAY <= 12 <= LAST_STATE_DAY)
  /\ (exists st g', DailyState_init 12 (seed 42) = Ok st g')
  /\ (exists out g',
        jitter_mgrs "17R NM 45x3 78" (seed 42) = Ok out g'
        /\ (malformed_mgrs "17R NM 45x3 78" -> out = "17R NM 45x3 78")).
Proof.
  assert (FIRST_STATE_DAY <= 12 <= LAST_STATE_DAY) as H
    by (rewrite FIRST_STATE_DAY_value, LAST_STATE_DAY_value; lia).
  split; [exact H |].
  apply (@derivation_and_jitter_return Lcg.lcg 12 "17R NM 45x3 78" (seed 42) H).
Defined.

Example jitter_well_formed :
  jitter_mgrs "17R NM 4523 78" 7 = Ok "17R NM 4544 37" 642666333.
Proof. vm_compute. reflexivity. Qed.

Example jitter_malformed_part :
  jitter_mgrs "17R NM 4523 7x" 7 = Ok "17R NM 4523 7x" 1282168116.
Proof. vm_compute. reflexivity. Qed.

Example jitter_short :
  jitter_mgrs "17R NM 4523" 7 = Ok "17R NM 4523" 7.
Proof. vm_compute. reflexivity. Qed.

End ConcreteJitter.

(* ====================================================================== *)
(** * Document generators: what each one does to the process *)
(* ====================================================================== *)

(** The builder behind each kind of document. *)
Definition body_of {R : PyRandom} (k : DocKind) : DailyState -> Py DocBody :=
  match k with
  | OPORD => opord_body
  | FRAGO => frago_body
  | ATO => ato_body
  | ROE => roe_body
  | ACO => aco_body
  | CCIR => ccir_body
  | PIR => pir_body
  | JIPTL => jiptl_body
  end.

(** A saved document is canonical when it is what its day alone
    determines: its state is the state [DailyState(day)] builds from the
    freshly seeded generator, and its body is what its builder makes of
    that state, again from the freshly seeded generator. *)
Definition canonical {R : PyRandom} (doc : Doc) : Prop :=
  DailyState_init (day (doc_state doc)) (seed 42)
  = Ok (doc_state doc) (seed 42)
  /\ value_of (body_of (doc_kind doc) (doc_state doc)) (seed 42)
     = Some (doc_body doc).

Lemma pick_In {A : Type} (l : list A) (ps : list nat) (x : A) :
  In x (pick l ps) -> In x l.
Proof.
  unfold pick. intro H. apply in_flat_map in H. destruct H as [p [_ Hx]].
  destruct (nth_error l p) as [y |] eqn:E; [| contradiction].
  destruct Hx as [<- | []]. eapply nth_error_In. exact E.
Qed.

Section BuilderFacts.

Context {R : PyRandom}.

Lemma returns_save (doc : Doc) (Q : string -> World -> Prop) (w : World) :
  Q (doc_path doc) (mkWorld (w_rng w) (w_dirs w) (app (w_saved w) [doc])) ->
  returns (save doc) Q w.
Proof. intro H. exact H. Qed.

Lemma returns_jitter (s : string) (Q : string -> rng -> Prop) (g : rng) :
  (forall out g', Q out g') -> returns (jitter_mgrs s) Q g.
Proof.
  intro H. destruct (jitter_mgrs_returns s g) as [out [g' [E _]]].
  eapply ok_returns; [exact E | apply H].
Qed.

(** A builder that starts by reseeding gives the same outcome from every
    generator state. *)
Lemma aco_body_any (st : DailyState) (g g' : rng) :
  aco_body st g = aco_body st g'.
Proof. reflexivity. Qed.

Lemma jiptl_body_any (st : DailyState) (g g' : rng) :
  jiptl_body st g = jiptl_body st g'.
Proof. reflexivity. Qed.

Lemma aco_body_returns (st : DailyState) (g : rng) :
  0 <= acm_count st ->
  returns (aco_body st) (fun _ g' => g' = seed 42) g.
Proof.
  intro Hacm. unfold aco_body.
  apply returns_bind, returns_seed.
  apply returns_bind, returns_sample.
  { cbn [acm_names List.length]. rewrite length_seq. lia. }
  intros ps g1 _ _ Hps.
  apply returns_bind.
  apply (returns_mono _ (fun _ _ => True)).
  { apply returns_for_fold; [exact I |].
    intros [rows idx] sel s Hsel _. unfold acm_row.
    apply pick_In, in_seq in Hsel. cbn [acm_names List.length] in Hsel.
    apply returns_bind, returns_list_get.
    { cbn [acm_types List.length]. apply Nat.mod_upper_bound. discriminate. }
    intros acm_type _.
    apply returns_bind, returns_list_get;
      [cbn [acm_names List.length]; lia |]. intros name _.
    apply returns_bind, returns_list_get;
      [cbn [acm_bases List.length]; lia |]. intros base _.
    apply returns_bind.
    destruct (in_strings acm_type ["ROZ"; "HIDACZ"; "ACA"]).
    - apply returns_ret. exact I.
    - apply returns_choice; [discriminate |]. intros ctrl g2 _. exact I. }
  intros acc g2 _.
  apply returns_bind, returns_seed. apply returns_ret. reflexivity.
Qed.

Lemma jiptl_body_returns (st : DailyState) (g : rng) :
  returns (jiptl_body st) (fun _ g' => g' = seed 42) g.
Proof.
  unfold jiptl_body.
  apply returns_bind, returns_seed.
  apply returns_bind.
  apply (returns_mono _ (fun _ _ => True)).
  { apply returns_for_fold; [exact I |].
    intros [rows pri] tgt s _ _. unfold jiptl_above_row.
    apply returns_bind, returns_jitter. intros loc g1.
    apply returns_bind.
    apply (returns_mono _ (fun _ _ => True)).
    { destruct (negb (String.eqb (tgt_cat tgt) "INFO OPS")).
      - apply returns_choice; [discriminate |]. intros; exact I.
      - exact I. }
    intros eff g2 _.
    apply returns_bind, returns_choice; [discriminate |]. intros nom g3 _.
    apply returns_bind, returns_choice; [discriminate |]. intros obj g4 _.
    exact I. }
  intros acc g1 _.
  apply returns_bind.
  apply (returns_mono _ (fun _ _ => True)).
  { destruct (jiptl_below_cut st) as [| t ts]; [exact I |].
    apply returns_bind.
    apply (returns_mono _ (fun _ _ => True)); [| intros; exact I].
    apply returns_for_fold; [exact I |].
    intros [rows pri] tgt s _ _. unfold jiptl_below_row.
    apply returns_bind, returns_jitter. intros loc g2.
    apply returns_bind, returns_choice; [discriminate |]. intros eff g3 _.
    apply returns_bind, returns_choice; [discriminate |]. intros nom g4 _.
    apply returns_bind, returns_choice; [discriminate |]. intros obj g5 _.
    exact I. }
  intros rows g2 _.
  apply returns_bind, returns_seed. apply returns_ret. reflexivity.
Qed.

(** The review date [interval] days ahead exists up to [LAST_RUN_DAY]. *)
Lemma review_date_some (d : Z) :
  FIRST_STATE_DAY <= d <= LAST_RUN_DAY ->
  exists delta next,
    timedelta 3 0 = Some delta
    /\ datetime_add (date_of_day d) delta = Some next.
Proof.
  rewrite FIRST_STATE_DAY_value, LAST_RUN_DAY_value. intro Hd.
  exists ((3 * 24 + 0) * 60), (date_of_day (d + 3)).
  split; [reflexivity |].
  apply datetime_add_days.
  rewrite FIRST_STATE_DAY_value, LAST_STATE_DAY_value. lia.
Qed.

Lemma ccir_body_returns (st : DailyState) (d : Z) (g : rng) :
  date st = date_of_day d -> FIRST_STATE_DAY <= d <= LAST_RUN_DAY ->
  exists b, forall g', ccir_body st g' = Ok b g'.
Proof.
  intros Hdate Hd. destruct (review_date_some d Hd) as [delta [next [E1 E2]]].
  exists (["Next CCIR review: " ++ mil_dtg next], []). intro g'.
  unfold ccir_body. change CCIR_INTERVAL with 3.
  unfold bind, lift. rewrite E1. unfold ret at 1. rewrite Hdate, E2.
  reflexivity.
Qed.

Lemma pir_body_returns (st : DailyState) (d : Z) (g : rng) :
  date st = date_of_day d -> FIRST_STATE_DAY <= d <= LAST_RUN_DAY ->
  exists b, forall g', pir_body st g' = Ok b g'.
Proof.
  intros Hdate Hd. destruct (review_date_some d Hd) as [delta [next [E1 E2]]].
  exists (["Next PIR review: " ++ mil_dtg next], []). intro g'.
  unfold pir_body. change PIR_INTERVAL with 3.
  unfold bind, lift. rewrite E1. unfold ret at 1. rewrite Hdate, E2.
  reflexivity.
Qed.

End BuilderFacts.

(* ====================================================================== *)
(** * The cadence *)
(* ====================================================================== *)

(** The kinds [run] emits on day [d], in order, given whether the phase
    changed. *)
Definition kinds_of_day (changed : bool) (d : Z) : list DocKind :=
  app (if changed then [OPORD; ROE] else [])
      (app [FRAGO; ATO; ACO; JIPTL]
           (app (if (d mod CCIR_INTERVAL =? 0) || changed then [CCIR] else [])
                (if (d mod PIR_INTERVAL =? 0) || changed then [PIR] else []))).

(** The kinds and days emitted over the days [ds], starting with
    [last_phase = last]. *)
Fixpoint schedule (ds : list Z) (last : Z) : list (DocKind * Z) :=
  match ds with
  | [] => []
  | d :: rest =>
      app (map (fun k => (k, d))
               (kinds_of_day (negb (get_phase d =? last)) d))
          (schedule rest (get_phase d))
  end.

Definition kind_day (doc : Doc) : DocKind * Z :=
  (doc_kind doc, day (doc_state doc)).

Definition DocKind_eqb (a b : DocKind) : bool :=
  match a, b with
  | OPORD, OPORD | FRAGO, FRAGO | ATO, ATO | ROE, ROE
  | ACO, ACO | CCIR, CCIR | PIR, PIR | JIPTL, JIPTL => true
  | _, _ => false
  end.

(** The days on which documents of kind [k] were saved, in order. *)
Definition days_of (k : DocKind) (docs : list Doc) : list Z :=
  map (fun doc => day (doc_state doc))
      (filter (fun doc => DocKind_eqb (doc_kind doc) k) docs).

Section Cadence.

Context {R : PyRandom}.

Ltac generator E :=
  apply returns_bind, returns_with_rng; cbn [w_rng w_dirs w_saved];
  (eapply ok_returns; [exact E |]);
  apply returns_save; cbn [w_rng w_dirs w_saved doc_path].

(** One day of [run], started with the generator freshly seeded. *)
Lemma run_day_returns (root : string) (c : Counters) (d : Z) (w : World) :
  0 <= d <= LAST_RUN_DAY -> w_rng w = seed 42 ->
  returns (run_day root c d)
    (fun c' w' =>
       w_rng w' = seed 42 /\ w_dirs w' = w_dirs w
       /\ last_phase c' = get_phase d
       /\ exists docs,
            w_saved w' = app (w_saved w) docs
            /\ map doc_kind docs
               = kinds_of_day (negb (get_phase d =? last_phase c)) d
            /\ Forall (fun doc => day (doc_state doc) = d /\ canonical doc)
                      docs
            /\ total_docs c' = total_docs c + len docs) w.
Proof.
  intros Hd Hrng.
  assert (FIRST_STATE_DAY <= d <= LAST_STATE_DAY) as Hstate
    by (revert Hd; rewrite FIRST_STATE_DAY_value, LAST_STATE_DAY_value,
          LAST_RUN_DAY_value; lia).
  assert (FIRST_STATE_DAY <= d <= LAST_RUN_DAY) as Hrun
    by (rewrite FIRST_STATE_DAY_value; lia).
  destruct (DailyState_init_ok d (seed 42) Hstate) as [st [E Hok]].
  pose proof (ok_day _ _ Hok) as Hday.
  pose proof (ok_phase _ _ Hok) as Hphase.
  assert (forall g : rng, opord_body st g = Ok ([], []) g) as Eopord
    by reflexivity.
  assert (forall g : rng, roe_body st g = Ok ([], []) g) as Eroe
    by reflexivity.
  destruct (returns_ok _ _ _
              (returns_randint (-3) 3 (fun _ _ => True) (seed 42)
                 ltac:(lia) (fun _ _ _ => I))) as [r [g1 [Er _]]].
  assert (exists b, frago_body st (seed 42) = Ok b g1) as [bfrago Efrago].
  { eexists. unfold frago_body, bind. rewrite Er. reflexivity. }
  assert (exists b, forall g : rng, ato_body st g = Ok b g) as [bato Eato]
    by (eexists; intro; reflexivity).
  destruct (returns_ok _ _ _ (aco_body_returns st (seed 42)
              ltac:(pose proof (ok_acm _ _ Hok); lia)))
    as [baco [g2 [Eaco0 ->]]].
  assert (forall g : rng, aco_body st g = Ok baco (seed 42)) as Eaco
    by (intro g; rewrite (aco_body_any st g (seed 42)); exact Eaco0).
  destruct (returns_ok _ _ _ (jiptl_body_returns st (seed 42)))
    as [bjiptl [g3 [Ejiptl ->]]].
  destruct (ccir_body_returns st d (seed 42) (ok_date _ _ Hok) Hrun)
    as [bccir Eccir].
  destruct (pir_body_returns st d (seed 42) (ok_date _ _ Hok) Hrun)
    as [bpir Epir].
  assert (forall k b, value_of (body_of k st) (seed 42) = Some b ->
            forall doc, doc_kind doc = k -> doc_state doc = st ->
                        doc_body doc = b ->
                        day (doc_state doc) = d /\ canonical doc) as Hcanon.
  { intros k b Hb doc Hk Hs Hbody. unfold canonical.
    rewrite Hs, Hk, Hbody, Hday. repeat split; assumption. }
  assert (forall k b g', body_of k st (seed 42) = Ok b g' ->
            value_of (body_of k st) (seed 42) = Some b) as Hval
    by (intros k b g' Ek; unfold value_of; rewrite Ek; reflexivity).
  unfold run_day.
  apply returns_bind, returns_with_rng. rewrite Hrng.
  eapply ok_returns; [exact E |]. cbn [w_rng w_dirs w_saved].
  rewrite Hphase.
  unfold kinds_of_day. change CCIR_INTERVAL with 3. change PIR_INTERVAL with 3.
  destruct (negb (get_phase d =? last_phase c));
    [rewrite orb_true_r | rewrite orb_false_r; destruct (d mod 3 =? 0)].
  all: cbn iota;
    unfold generate_opord, generate_roe, generate_frago, generate_ato,
      generate_aco, generate_jiptl, generate_ccir, generate_pir.
  - apply returns_bind. apply returns_bind.
    generator (Eopord (seed 42)). apply returns_ret.
    apply returns_bind. apply returns_bind.
    generator (Eroe (seed 42)). apply returns_ret. cbn iota beta.
    apply returns_bind. generator Efrago.
    apply returns_bind. generator (Eato g1).
    apply returns_bind. generator (Eaco g1).
    apply returns_bind. generator Ejiptl.
    apply returns_bind. apply returns_bind.
    generator (Eccir (seed 42)). apply returns_ret. cbn iota beta.
    apply returns_bind. apply returns_bind.
    generator (Epir (seed 42)). apply returns_ret. cbn iota beta.
    apply returns_ret. cbn [last_phase total_docs].
    repeat (split; [reflexivity |]).
    eexists. split; [rewrite <- !app_assoc; cbn [app]; reflexivity |].
    split; [reflexivity |].
    split; [| cbn [List.length]; lia].
    repeat (constructor;
            [eapply Hcanon; [eapply Hval | reflexivity ..]; eauto |]).
    constructor.
  - apply returns_bind. apply returns_ret.
    apply returns_bind. apply returns_ret. cbn iota beta.
    apply returns_bind. generator Efrago.
    apply returns_bind. generator (Eato g1).
    apply returns_bind. generator (Eaco g1).
    apply returns_bind. generator Ejiptl.
    apply returns_bind. apply returns_bind.
    generator (Eccir (seed 42)). apply returns_ret. cbn iota beta.
    apply returns_bind. apply returns_bind.
    generator (Epir (seed 42)). apply returns_ret. cbn iota beta.
    apply returns_ret. cbn [last_phase total_docs].
    repeat (split; [reflexivity |]).
    eexists. split; [rewrite <- !app_assoc; cbn [app]; reflexivity |].
    split; [reflexivity |].
    split; [| cbn [List.length]; lia].
    repeat (constructor;
            [eapply Hcanon; [eapply Hval | reflexivity ..]; eauto |]).
    constructor.
  - apply returns_bind. apply returns_ret.
    apply returns_bind. apply returns_ret. cbn iota beta.
    apply returns_bind. generator Efrago.
    apply returns_bind. generator (Eato g1).
    apply returns_bind. generator (Eaco g1).
    apply returns_bind. generator Ejiptl.
    apply returns_bind. apply returns_ret. cbn iota beta.
    apply returns_bind. apply returns_ret. cbn iota beta.
    apply returns_ret. cbn [last_phase total_docs].
    repeat (split; [reflexivity |]).
    eexists. split; [rewrite <- !app_assoc; cbn [app]; reflexivity |].
    split; [reflexivity |].
    split; [| cbn [List.length]; lia].
    repeat (constructor;
            [eapply Hcanon; [eapply Hval | reflexivity ..]; eauto |]).
    constructor.
Qed.

End Cadence.

(* ====================================================================== *)
(** * The orchestrator: properties *)
(* ====================================================================== *)

(** [run] up to the start of the iteration that follows [days]: the
    directories are made and the days [days] have been processed. *)
Definition run_until {R : PyRandom} (output_root : string) (days : list Z)
    : Proc Counters :=
  for_fold (map (dirs output_root) DIR_NAMES) tt (fun _ d => makedirs d) ;;
  for_fold days initial_counters (run_day output_root).

Definition supported_day (d : Z) : Prop := 0 <= d <= LAST_RUN_DAY.

Lemma range_supported (n : Z) :
  n <= LAST_RUN_DAY + 1 -> Forall supported_day (range n).
Proof.
  intro Hn. unfold range. apply Forall_forall. intros d Hd.
  apply in_map_iff in Hd. destruct Hd as [i [<- Hi]].
  apply in_seq in Hi. unfold supported_day. lia.
Qed.

Lemma range_nonpositive (n : Z) : n <= 0 -> range n = [].
Proof.
  intro Hn. unfold range. replace (Z.to_nat n) with O by lia. reflexivity.
Qed.

Lemma kind_day_of_day (docs : list Doc) (d : Z) :
  Forall (fun doc => day (doc_state doc) = d) docs ->
  map kind_day docs = map (fun k => (k, d)) (map doc_kind docs).
Proof.
  induction 1 as [| doc docs Hd _ IH]; [reflexivity |].
  cbn [map]. rewrite IH. unfold kind_day. rewrite Hd. reflexivity.
Qed.

Lemma days_of_kind_day (k : DocKind) (docs : list Doc) :
  days_of k docs
  = map snd (filter (fun p => DocKind_eqb (fst p) k) (map kind_day docs)).
Proof.
  unfold days_of. induction docs as [| doc docs IH]; [reflexivity |].
  cbn [map filter kind_day fst].
  destruct (DocKind_eqb (doc_kind doc) k); cbn [map snd]; rewrite IH;
    reflexivity.
Qed.

Section RunFacts.

Context {R : PyRandom}.

(** The loop over the days, started with the generator freshly seeded:
    it returns, leaves the generator freshly seeded, creates no
    directory, and appends the scheduled documents, each canonical. *)
Lemma days_return (root : string) :
  forall (ds : list Z) (c : Counters) (w : World),
    Forall supported_day ds -> w_rng w = seed 42 ->
    returns (for_fold ds c (run_day root))
      (fun c' w' =>
         w_rng w' = seed 42 /\ w_dirs w' = w_dirs w
         /\ exists docs,
              w_saved w' = app (w_saved w) docs
              /\ map kind_day docs = schedule ds (last_phase c)
              /\ Forall canonical docs
              /\ total_docs c' = total_docs c + len docs) w.
Proof.
  induction ds as [| d ds IH]; intros c w Hds Hrng.
  - apply returns_ret. repeat (split; [assumption || reflexivity |]).
    exists []. rewrite app_nil_r. repeat split; [constructor | cbn; lia].
  - apply Forall_cons_iff in Hds. destruct Hds as [Hd Hds].
    cbn [for_fold]. apply returns_bind.
    eapply returns_mono; [apply run_day_returns; assumption |].
    intros c1 w1 [Hrng1 [Hdirs1 [Hlast [docs1 [Hs1 [Hk1 [Hc1 Ht1]]]]]]].
    eapply returns_mono; [apply IH; assumption |].
    intros c2 w2 [Hrng2 [Hdirs2 [docs2 [Hs2 [Hk2 [Hc2 Ht2]]]]]].
    split; [exact Hrng2 |]. split; [congruence |].
    exists (app docs1 docs2).
    split; [rewrite Hs2, Hs1, app_assoc; reflexivity |].
    split.
    + rewrite map_app, Hk2, Hlast. cbn [schedule]. f_equal.
      rewrite (kind_day_of_day docs1 d), Hk1; [reflexivity |].
      eapply Forall_impl; [| exact Hc1]. intros doc [H _]. exact H.
    + split.
      * apply Forall_app. split; [| exact Hc2].
        eapply Forall_impl; [| exact Hc1]. intros doc [_ H]. exact H.
      * rewrite length_app. lia.
Qed.

(** The directory loop: every listed directory exists afterwards; the
    generator and the saved documents are untouched. *)
Lemma makedirs_return :
  forall (ds : list string) (w : World),
    returns (for_fold ds tt (fun _ d => makedirs d))
      (fun _ w' =>
         w_rng w' = w_rng w /\ w_saved w' = w_saved w
         /\ incl (w_dirs w) (w_dirs w') /\ incl ds (w_dirs w')) w.
Proof.
  induction ds as [| d ds IH]; intro w.
  - apply returns_ret. repeat split; try apply incl_refl. intros x [].
  - cbn [for_fold]. apply returns_bind. unfold makedirs at 1.
    unfold returns at 1.
    eapply returns_mono; [apply IH |].
    cbn [w_rng w_dirs w_saved].
    intros _ w' [Hrng [Hsaved [Hold Hnew]]].
    assert (incl (w_dirs w) (w_dirs w') /\ In d (w_dirs w')) as [H1 H2].
    { destruct (existsb (String.eqb d) (w_dirs w)) eqn:Ex.
      - split; [exact Hold |]. apply Hold.
        apply existsb_exists in Ex. destruct Ex as [x [Hx Ex]].
        apply String.eqb_eq in Ex. subst x. exact Hx.
      - split.
        + intros x Hx. apply Hold. apply in_or_app. left. exact Hx.
        + apply Hold. apply in_or_app. right. left. reflexivity. }
    repeat split; try assumption.
    intros x [<- | Hx]; [exact H2 | apply Hnew, Hx].
Qed.

Lemma run_until_returns (root : string) (ds : list Z) (w : World) :
  Forall supported_day ds -> w_rng w = seed 42 ->
  returns (run_until root ds)
    (fun c w' =>
       w_rng w' = seed 42
       /\ incl (map (dirs root) DIR_NAMES) (w_dirs w')
       /\ exists docs,
            w_saved w' = app (w_saved w) docs
            /\ map kind_day docs = schedule ds 0
            /\ Forall canonical docs
            /\ total_docs c = len docs) w.
Proof.
  intros Hds Hrng. unfold run_until. apply returns_bind.
  eapply returns_mono; [apply makedirs_return |].
  intros _ w1 [Hrng1 [Hsaved1 [_ Hdirs1]]].
  eapply returns_mono; [apply days_return; [exact Hds | congruence] |].
  intros c w2 [Hrng2 [Hdirs2 [docs [Hs [Hk [Hc Ht]]]]]].
  split; [exact Hrng2 |]. split; [rewrite Hdirs2; exact Hdirs1 |].
  exists docs. rewrite Hs, Hsaved1. repeat split; assumption.
Qed.

Lemma run_as_run_until (n : Z) (root : string) (w : World) :
  run n root w
  = bind (run_until root (range n)) (fun c => ret (total_docs c)) w.
Proof.
  unfold run, run_until, bind.
  destruct (for_fold (map (dirs root) DIR_NAMES) tt (fun _ d => makedirs d) w);
    reflexivity.
Qed.

Lemma run_until_app (root : string) (ds1 ds2 : list Z) (w : World) :
  run_until root (app ds1 ds2) w
  = bind (run_until root ds1)
         (fun c => for_fold ds2 c (run_day root)) w.
Proof.
  unfold run_until, bind.
  destruct (for_fold (map (dirs root) DIR_NAMES) tt (fun _ d => makedirs d) w)
    as [u w1 | e w1]; [| reflexivity].
  rewrite for_fold_app. reflexivity.
Qed.

Lemma run_returns (n : Z) (root : string) (w : World) :
  n <= LAST_RUN_DAY + 1 -> w_rng w = seed 42 ->
  exists w',
    run n root w = Ok (len (schedule (range n) 0)) w'
    /\ w_rng w' = seed 42
    /\ incl (map (dirs root) DIR_NAMES) (w_dirs w')
    /\ exists docs,
         w_saved w' = app (w_saved w) docs
         /\ map kind_day docs = schedule (range n) 0
         /\ Forall canonical docs.
Proof.
  intros Hn Hrng.
  destruct (returns_ok _ _ _
              (run_until_returns root (range n) w (range_supported n Hn) Hrng))
    as [c [w' [E [Hrng' [Hdirs [docs [Hs [Hk [Hc Ht]]]]]]]]].
  exists w'. rewrite run_as_run_until, (bind_ok _ _ _ _ _ E).
  unfold ret. rewrite Ht, <- Hk, length_map.
  split; [reflexivity |]. split; [exact Hrng' |]. split; [exact Hdirs |].
  exists docs. repeat split; assumption.
Qed.

End RunFacts.

Section RunTheorems.

Context {R : PyRandom}.

(** C1. Running the generator for 8 days (the intervals being 3, the
    eight days lying in phase 1) returns and saves exactly: one OPORD and
    one ROE, both on day 0; one FRAGO, one ATO, one ACO and one JIPTL on
    each of the days 0 to 7, hence 8 of each; and a CCIR and a PIR on the
    days 0, 3 and 6, hence 3 of each and never two of a kind on one day;
    40 documents in all. *)
Theorem run_eight_days (root : string) :
  exists total w,
    main 8 root = Ok total w
    /\ days_of OPORD (w_saved w) = [0]
    /\ days_of ROE (w_saved w) = [0]
    /\ days_of FRAGO (w_saved w) = [0; 1; 2; 3; 4; 5; 6; 7]
    /\ days_of ATO (w_saved w) = [0; 1; 2; 3; 4; 5; 6; 7]
    /\ days_of ACO (w_saved w) = [0; 1; 2; 3; 4; 5; 6; 7]
    /\ days_of JIPTL (w_saved w) = [0; 1; 2; 3; 4; 5; 6; 7]
    /\ days_of CCIR (w_saved w) = [0; 3; 6]
    /\ days_of PIR (w_saved w) = [0; 3; 6]
    /\ List.length (w_saved w) = 40%nat
    /\ total = 40.
Proof.
  destruct (run_returns 8 root initial_world) as
    [w [E [_ [_ [docs [Hs [Hk _]]]]]]].
  { rewrite LAST_RUN_DAY_value. lia. }
  { reflexivity. }
  cbn [initial_world w_saved app] in Hs.
  exists (len (schedule (range 8) 0)), w.
  split; [exact E |].
  rewrite !days_of_kind_day, Hs, Hk.
  assert (List.length docs = 40%nat) as Hlen
    by (rewrite <- (length_map kind_day), Hk; vm_compute; reflexivity).
  rewrite Hlen.
  repeat (split; [vm_compute; reflexivity |]). vm_compute. reflexivity.
Qed.

(** C9, amended. A non-positive day count is not rejected: [run] returns
    normally with 0 documents; no document is produced and the generator
    is not used, but the eight output directories are created before the
    (empty) loop over the days. *)
Theorem run_nonpositive (n : Z) (root : string) (w : World) :
  n <= 0 ->
  exists w',
    run n root w = Ok 0 w'
    /\ w_saved w' = w_saved w
    /\ w_rng w' = w_rng w
    /\ incl (map (dirs root) DIR_NAMES) (w_dirs w').
Proof.
  intro Hn. rewrite run_as_run_until, (range_nonpositive n Hn).
  unfold run_until.
  destruct (returns_ok _ _ _
              (makedirs_return (map (dirs root) DIR_NAMES) w))
    as [u [w' [E [Hrng [Hsaved [_ Hdirs]]]]]].
  exists w'. unfold bind. rewrite E. cbn [for_fold]. unfold ret.
  repeat split; assumption.
Qed.

Lemma DailyState_init_final (d : Z) (g : rng) (st : DailyState) (g' : rng) :
  DailyState_init d g = Ok st g' -> g' = seed 42.
Proof.
  intro H.
  destruct (Z.lt_ge_cases d FIRST_STATE_DAY) as [Hlo | Hlo];
    [rewrite DailyState_init_raises in H by lia; discriminate H |].
  destruct (Z.lt_ge_cases LAST_STATE_DAY d) as [Hhi | Hhi];
    [rewrite DailyState_init_raises in H by lia; discriminate H |].
  destruct (DailyState_init_ok d g) as [st' [E _]]; [lia |].
  rewrite E in H. injection H as _ H. symmetry. exact H.
Qed.

Lemma aco_body_final (st : DailyState) (g : rng) (b : DocBody) (g' : rng) :
  aco_body st g = Ok b g' -> g' = seed 42.
Proof.
  unfold aco_body, bind, random_seed, ret.
  destruct (random_sample _ _ _) as [selected g1 | e g1];
    [| intro H; discriminate H].
  destruct (for_fold selected _ _ g1) as [acc g2 | e g2];
    [| intro H; discriminate H].
  intro H. injection H as _ H. symmetry. exact H.
Qed.

Lemma jiptl_body_final (st : DailyState) (g : rng) (b : DocBody) (g' : rng) :
  jiptl_body st g = Ok b g' -> g' = seed 42.
Proof.
  unfold jiptl_body, bind, random_seed, ret.
  destruct (for_fold (jiptl_above_cut st) _ _ _) as [acc g1 | e g1];
    [| intro H; discriminate H].
  destruct (jiptl_below_cut st) as [| t ts].
  - intro H. injection H as _ H. symmetry. exact H.
  - destruct (for_fold (t :: ts) _ _ g1) as [acc2 g2 | e g2];
      [| intro H; discriminate H].
    intro H. injection H as _ H. symmetry. exact H.
Qed.

(** C10. The construction of a Daily State and the ACO and JIPTL
    builders, whenever they return, leave the global generator freshly
    seeded with 42.  Consequently, in a run over [n] days, whichever day
    [d] of the run one looks at (the days before it and after it being
    what they may), the iteration for [d] starts with the generator in
    the seed-42 state, and every document the run saves is canonical: its
    state is the one [DailyState(day)] builds from the seed-42 state and
    its body the one its builder gives from there, so both depend on the
    day alone; only the serial numbers, and through [last_phase] the
    choice of kinds emitted, depend on the rest of the run. *)
Theorem reseed_makes_days_independent
    (n : Z) (root : string) (before after : list Z) (d : Z) :
  n <= LAST_RUN_DAY + 1 ->
  range n = app before (d :: after) ->
  (forall d' g st g', DailyState_init d' g = Ok st g' -> g' = seed 42)
  /\ (forall st g b g', aco_body st g = Ok b g' -> g' = seed 42)
  /\ (forall st g b g', jiptl_body st g = Ok b g' -> g' = seed 42)
  /\ (exists c1 w1,
        run_until root before initial_world = Ok c1 w1
        /\ w_rng w1 = seed 42
        /\ main n root
           = bind (for_fold (d :: after) c1 (run_day root))
                  (fun c => ret (total_docs c)) w1)
  /\ (exists total w,
        main n root = Ok total w
        /\ w_rng w = seed 42
        /\ Forall canonical (w_saved w)).
Proof.
  intros Hn Hsplit.
  split; [exact DailyState_init_final |].
  split; [exact aco_body_final |].
  split; [exact jiptl_body_final |].
  split.
  - pose proof (range_supported n Hn) as Hall.
    rewrite Hsplit in Hall. apply Forall_app in Hall.
    destruct Hall as [Hbefore _].
    destruct (returns_ok _ _ _
                (run_until_returns root before initial_world Hbefore
                   eq_refl))
      as [c1 [w1 [E [Hrng _]]]].
    exists c1, w1. split; [exact E |]. split; [exact Hrng |].
    unfold main. rewrite run_as_run_until, Hsplit.
    unfold bind at 1. rewrite run_until_app, (bind_ok _ _ _ _ _ E).
    reflexivity.
  - destruct (run_returns n root initial_world Hn eq_refl)
      as [w [E [Hrng [_ [docs [Hs [_ Hc]]]]]]].
    exists (len (schedule (range n) 0)), w.
    split; [exact E |]. split; [exact Hrng |].
    rewrite Hs. exact Hc.
Qed.

End RunTheorems.

Section ConcreteRuns.

#[local] Existing Instance Lcg.lcg.

Lemma run_nonpositive_witness :
  (-1 <= 0)
  /\ exists w',
       run (-1) "out" initial_world = Ok 0 w'
       /\ w_saved w' = w_saved initial_world
       /\ w_rng w' = w_rng initial_world
       /\ incl (map (dirs "out") DIR_NAMES) (w_dirs w').
Proof.
  assert (-1 <= 0) as H by lia.
  split; [exact H |].
  apply (@run_nonpositive Lcg.lcg (-1) "out" initial_world H).
Defined.

(** C9 as stated fails: with [--days -1] nothing is rejected and the
    eight output directories are created. *)
Lemma run_nonpositive_makes_directories :
  main (-1) "out"
  = Ok 0 (mkWorld (seed 42)
            [ "out/OPORD"; "out/FRAGO"; "out/ATO"; "out/ROE"; "out/ACO";
              "out/CCIR"; "out/PIR"; "out/JIPTL" ]
            []).
Proof. vm_compute. reflexivity. Qed.

Lemma reseed_makes_days_independent_witness :
  (8 <= LAST_RUN_DAY + 1)
  /\ (range 8 = app [0; 1; 2] (3 :: [4; 5; 6; 7]))
  /\ ((forall d' g st g', DailyState_init d' g = Ok st g' -> g' = seed 42)
      /\ (forall st g b g', aco_body st g = Ok b g' -> g' = seed 42)
      /\ (forall st g b g', jiptl_body st g = Ok b g' -> g' = seed 42)
      /\ (exists c1 w1,
            run_until "out" [0; 1; 2] initial_world = Ok c1 w1
            /\ w_rng w1 = seed 42
            /\ main 8 "out"
               = bind (for_fold (3 :: [4; 5; 6; 7]) c1 (run_day "out"))
                      (fun c => ret (total_docs c)) w1)
      /\ (exists total w,
            main 8 "out" = Ok total w
            /\ w_rng w = seed 42
            /\ Forall canonical (w_saved w))).
Proof.
  assert (8 <= LAST_RUN_DAY + 1) as H1
    by (rewrite LAST_RUN_DAY_value; lia).
  assert (range 8 = app [0; 1; 2] (3 :: [4; 5; 6; 7])) as H2
    by reflexivity.
  split; [exact H1 |]. split; [exact H2 |].
  apply (@reseed_makes_days_independent Lcg.lcg 8 "out"
           [0; 1; 2] [4; 5; 6; 7] 3 H1 H2).
Defined.

(** Running exactly one day saves one document of each of the eight
    kinds. *)
Example run_one_day :
  exists total w,
    main 1 "out" = Ok total w
    /\ map kind_day (w_saved w)
       = [ (OPORD, 0); (ROE, 0); (FRAGO, 0); (ATO, 0); (ACO, 0); (JIPTL, 0);
           (CCIR, 0); (PIR, 0) ]
    /\ total = 8.
Proof. do 2 eexists. split; [vm_compute; reflexivity |]. split; reflexivity. Qed.

End ConcreteRuns.

(* ====================================================================== *)
(** * Phase transitions and the schedule of a whole run *)
(* ====================================================================== *)

Lemma is_phase_transition_cases (d : Z) :
  is_phase_transition d = true <-> d = 0 \/ d = 31 \/ d = 121 \/ d = 271.
Proof.
  unfold is_phase_transition, PHASES. cbn [existsb snd ph_start].
  rewrite !orb_true_iff, !Z.eqb_eq. split.
  - intros [H | [H | [H | [H | H]]]]; try discriminate H; lia.
  - intros [H | [H | [H | H]]]; lia.
Qed.

(** The value [last_phase] has when a run that started at day 0 reaches
    day [d]. *)
Definition phase_before (d : Z) : Z :=
  if d =? 0 then 0 else get_phase (d - 1).

Lemma phase_changes_on_transition (d : Z) :
  0 <= d ->
  negb (get_phase d =? phase_before d) = is_phase_transition d.
Proof.
  intro Hd. unfold phase_before.
  destruct (is_phase_transition d) eqn:Et.
  - apply is_phase_transition_cases in Et.
    destruct Et as [-> | [-> | [-> | ->]]]; reflexivity.
  - assert (~ (d = 0 \/ d = 31 \/ d = 121 \/ d = 271)) as Hn
      by (rewrite <- is_phase_transition_cases, Et; discriminate).
    destruct (Z.eqb_spec d 0) as [-> | Hd0]; [exfalso; apply Hn; lia |].
    apply negb_false_iff, Z.eqb_eq.
    destruct (get_phase_cases d) as [[H1 ->] | [[H1 ->] | [[H1 ->] | [H1 ->]]]];
      destruct (get_phase_cases (d - 1))
        as [[H2 ->] | [[H2 ->] | [[H2 ->] | [H2 ->]]]];
      try reflexivity; exfalso; lia.
Qed.

(** X1. In a run from day 0, the test [current_phase != last_phase] that
    [run] makes on day [d] is true exactly on the days
    [is_phase_transition] marks, and those are the first days of the four
    phases: 0, 31, 121 and 271. *)
Theorem phase_change_is_transition (d : Z) :
  0 <= d ->
  negb (get_phase d =? phase_before d) = is_phase_transition d
  /\ (is_phase_transition d = true
      <-> d = 0 \/ d = 31 \/ d = 121 \/ d = 271).
Proof.
  intro Hd. split.
  - apply phase_changes_on_transition, Hd.
  - apply is_phase_transition_cases.
Qed.

Lemma phase_change_is_transition_witness :
  (0 <= 31)
  /\ negb (get_phase 31 =? phase_before 31) = is_phase_transition 31
  /\ (is_phase_transition 31 = true
      <-> 31 = 0 \/ 31 = 31 \/ 31 = 121 \/ 31 = 271).
Proof.
  assert (0 <= 31) as H by lia.
  split; [exact H | apply (phase_change_is_transition 31 H)].
Defined.

(** The kinds and days a run emits when the phase changes exactly on the
    transition days. *)
Definition cadence (ds : list Z) : list (DocKind * Z) :=
  flat_map (fun d => map (fun k => (k, d))
                         (kinds_of_day (is_phase_transition d) d)) ds.

Lemma schedule_consecutive (k : nat) :
  forall a : nat,
    schedule (map Z.of_nat (seq a k)) (phase_before (Z.of_nat a))
    = cadence (map Z.of_nat (seq a k)).
Proof.
  induction k as [| k IH]; intro a; [reflexivity |].
  cbn [seq map schedule cadence flat_map].
  rewrite phase_changes_on_transition by lia. f_equal.
  specialize (IH (S a)). unfold cadence in IH. rewrite <- IH. f_equal.
  unfold phase_before.
  destruct (Z.eqb_spec (Z.of_nat (S a)) 0) as [H | _]; [lia |].
  f_equal. lia.
Qed.

Lemma schedule_range (n : Z) : schedule (range n) 0 = cadence (range n).
Proof. unfold range. apply (schedule_consecutive (Z.to_nat n) 0). Qed.

Lemma filter_kind_cadence (k : DocKind) (keep : Z -> bool) (ds : list Z) :
  (forall d, In d ds ->
     filter (fun q => DocKind_eqb q k) (kinds_of_day (is_phase_transition d) d)
     = if keep d then [k] else []) ->
  map snd (filter (fun p => DocKind_eqb (fst p) k) (cadence ds))
  = filter keep ds.
Proof.
  induction ds as [| d ds IH]; intro H; [reflexivity |].
  unfold cadence in *. cbn [flat_map]. rewrite filter_app, map_app, IH.
  - cbn [filter]. specialize (H d (or_introl eq_refl)).
    assert (forall l : list DocKind,
              map snd (filter (fun p : DocKind * Z => DocKind_eqb (fst p) k)
                              (map (fun q => (q, d)) l))
              = map (fun _ => d) (filter (fun q => DocKind_eqb q k) l)) as Hm.
    { induction l as [| q l IHl]; [reflexivity |].
      cbn [map filter fst]. destruct (DocKind_eqb q k); cbn [map snd];
        rewrite IHl; reflexivity. }
    rewrite Hm, H. destruct (keep d); reflexivity.
  - intros d' Hd'. apply H. right. exact Hd'.
Qed.

(** Whether day [d] carries a periodic document. *)
Definition periodic_day (d : Z) : bool :=
  (d mod CCIR_INTERVAL =? 0) || is_phase_transition d.

Section WholeRun.

Context {R : PyRandom}.

(** X2. A run over [n] days (any [n] up to the last day [run] can process)
    returns the number of documents it saved, and saved: an OPORD and a
    ROE exactly on the phase transition days below [n]; a FRAGO, an ATO,
    an ACO and a JIPTL on every day below [n]; a CCIR and a PIR exactly on
    the days below [n] that are multiples of the interval or phase
    transitions, one of each. *)
Theorem run_cadence (n : Z) (root : string) :
  n <= LAST_RUN_DAY + 1 ->
  exists total w,
    main n root = Ok total w
    /\ total = len (w_saved w)
    /\ days_of OPORD (w_saved w) = filter is_phase_transition (range n)
    /\ days_of ROE (w_saved w) = filter is_phase_transition (range n)
    /\ days_of FRAGO (w_saved w) = range n
    /\ days_of ATO (w_saved w) = range n
    /\ days_of ACO (w_saved w) = range n
    /\ days_of JIPTL (w_saved w) = range n
    /\ days_of CCIR (w_saved w) = filter periodic_day (range n)
    /\ days_of PIR (w_saved w) = filter periodic_day (range n).
Proof.
  intro Hn.
  destruct (run_returns n root initial_world Hn eq_refl)
    as [w [E [_ [_ [docs [Hs [Hk _]]]]]]].
  cbn [initial_world w_saved app] in Hs.
  exists (len (schedule (range n) 0)), w.
  split; [exact E |].
  split; [rewrite Hs, <- Hk, length_map; reflexivity |].
  rewrite !days_of_kind_day, Hs, Hk, schedule_range.
  assert (forall l : list Z, filter (fun _ => true) l = l) as Hall
    by (induction l as [| x l IHl]; [| cbn [filter]; rewrite IHl];
        reflexivity).
  rewrite <- (Hall (range n)) at 6 8 10 12.
  repeat split; apply filter_kind_cadence; intros d _;
    unfold periodic_day, kinds_of_day;
    change PIR_INTERVAL with CCIR_INTERVAL;
    destruct (is_phase_transition d);
    destruct (d mod CCIR_INTERVAL =? 0); reflexivity.
Qed.

End WholeRun.

Section ConcreteWholeRun.

#[local] Existing Instance Lcg.lcg.

Lemma run_cadence_witness :
  (365 <= LAST_RUN_DAY + 1)
  /\ exists total w,
       main 365 "out" = Ok total w
       /\ total = len (w_saved w)
       /\ days_of OPORD (w_saved w) = filter is_phase_transition (range 365)
       /\ days_of ROE (w_saved w) = filter is_phase_transition (range 365)
       /\ days_of FRAGO (w_saved w) = range 365
       /\ days_of ATO (w_saved w) = range 365
       /\ days_of ACO (w_saved w) = range 365
       /\ days_of JIPTL (w_saved w) = range 365
       /\ days_of CCIR (w_saved w) = filter periodic_day (range 365)
       /\ days_of PIR (w_saved w) = filter periodic_day (range 365).
Proof.
  assert (365 <= LAST_RUN_DAY + 1) as H
    by (rewrite LAST_RUN_DAY_value; lia).
  split; [exact H | apply (@run_cadence Lcg.lcg 365 "out" H)].
Defined.

End ConcreteWholeRun.

(* ====================================================================== *)
(** * Formatting and parsing integers, splitting and joining *)
(* ====================================================================== *)

Lemma int_digits_acc (d : Decimal.uint) :
  forall p : positive,
    int_digits (NilEmpty.string_of_uint d) (Zpos p) true
    = Some (Zpos (Pos.of_uint_acc d p)).
Proof.
  induction d as [| d IH | d IH | d IH | d IH | d IH | d IH | d IH | d IH
                  | d IH | d IH]; intro p; [reflexivity | ..];
    cbn [NilEmpty.string_of_uint int_digits Pos.of_uint_acc];
    match goal with
    | |- context [digit_val ?c] =>
        let v := eval vm_compute in (digit_val c) in
        change (digit_val c) with v
    end; cbv iota; rewrite <- IH; f_equal; lia.
Qed.

Lemma int_digits_uint (d : Decimal.uint) :
  forall b : bool,
    b = true \/ d <> Decimal.Nil ->
    int_digits (NilEmpty.string_of_uint d) 0 b
    = Some (Z.of_N (Pos.of_uint d)).
Proof.
  induction d as [| d IH | d IH | d IH | d IH | d IH | d IH | d IH | d IH
                  | d IH | d IH]; intros b Hb.
  - destruct Hb as [-> | Hb]; [reflexivity | contradiction].
  - cbn [NilEmpty.string_of_uint int_digits Pos.of_uint].
    change (digit_val "0") with (Some 0). cbv iota.
    apply IH. left. reflexivity.
  - apply (int_digits_acc d 1).
  - apply (int_digits_acc d 2).
  - apply (int_digits_acc d 3).
  - apply (int_digits_acc d 4).
  - apply (int_digits_acc d 5).
  - apply (int_digits_acc d 6).
  - apply (int_digits_acc d 7).
  - apply (int_digits_acc d 8).
  - apply (int_digits_acc d 9).
Qed.

Lemma to_uint_not_Nil (n : N) : N.to_uint n <> Decimal.Nil.
Proof.
  intro H. pose proof (DecimalN.Unsigned.of_to n) as E. rewrite H in E.
  cbn in E. subst n. discriminate H.
Qed.

Lemma digits_of_NilEmpty (n : N) :
  digits_of n = NilEmpty.string_of_uint (N.to_uint n).
Proof.
  unfold digits_of, NilZero.string_of_uint.
  pose proof (to_uint_not_Nil n). destruct (N.to_uint n); congruence.
Qed.

Lemma int_digits_digits_of (n : N) (b : bool) :
  int_digits (digits_of n) 0 b = Some (Z.of_N n).
Proof.
  rewrite digits_of_NilEmpty, int_digits_uint.
  - change (Pos.of_uint (N.to_uint n)) with (N.of_uint (N.to_uint n)).
    rewrite DecimalN.Unsigned.of_to. reflexivity.
  - right. apply to_uint_not_Nil.
Qed.

Lemma int_digits_zeros (k : nat) (s : string) (b : bool) :
  int_digits (zeros k ++ s) 0 b
  = int_digits s 0 (b || negb (Nat.eqb k 0)).
Proof.
  revert b. induction k as [| k IH]; intro b.
  - cbn [zeros append Nat.eqb negb]. rewrite orb_false_r. reflexivity.
  - cbn [zeros append int_digits]. change (digit_val "0") with (Some 0).
    cbv iota. change (10 * 0 + 0) with 0. rewrite IH.
    cbn [Nat.eqb negb orb]. rewrite orb_true_r. reflexivity.
Qed.

(** A string [int_digits] accepts from the start carries no sign, so
    [int] reads it as it stands. *)
Lemma py_int_unsigned (s : string) (v : Z) :
  int_digits s 0 false = Some v -> py_int s = Some v.
Proof.
  destruct s as [| c s]; [intro H; exact H |].
  destruct c as [[] [] [] [] [] [] [] []]; intro H; try exact H;
    cbn in H; discriminate H.
Qed.

(** Parsing undoes formatting: [int(format(z, "0<w>d")) == z], whatever
    the width. *)
Lemma py_int_fmt_0d (w : nat) (z : Z) : py_int (fmt_0d w z) = Some z.
Proof.
  unfold fmt_0d. destruct (Z.ltb_spec z 0) as [Hneg | Hpos].
  - change ("-" ++ ?t) with (String "-" t). cbn [append].
    unfold py_int. rewrite int_digits_zeros, int_digits_digits_of.
    cbn [option_map]. f_equal. lia.
  - cbn [append]. apply py_int_unsigned.
    rewrite int_digits_zeros, int_digits_digits_of. f_equal. lia.
Qed.

(** A word: a non-empty string without whitespace. *)
Definition is_word (p : string) : bool :=
  negb (String.eqb p "")
  && forallb (fun c => negb (is_space c)) (list_ascii_of_string p).

Lemma rev_string_spec (p : string) (cur : list ascii) :
  rev_string (app (rev (list_ascii_of_string p)) cur)
  = (rev_string cur ++ p)%string.
Proof.
  unfold rev_string. rewrite rev_app_distr, rev_involutive.
  generalize (rev cur). intro l.
  induction l as [| c l IH]; cbn [app string_of_list_ascii append].
  - apply string_of_list_ascii_of_string.
  - rewrite IH. reflexivity.
Qed.

(** Reading a run of non-space characters only extends the current
    word. *)
Lemma split_go_chars (p : string) :
  forall (rest : string) (cur : list ascii),
    forallb (fun c => negb (is_space c)) (list_ascii_of_string p) = true ->
    split_go (p ++ rest) cur
    = split_go rest (app (rev (list_ascii_of_string p)) cur).
Proof.
  induction p as [| c p IH]; intros rest cur Hp; [reflexivity |].
  cbn [list_ascii_of_string forallb] in Hp. apply andb_prop in Hp.
  destruct Hp as [Hc Hp]. apply negb_true_iff in Hc.
  cbn [append split_go list_ascii_of_string rev]. rewrite Hc.
  rewrite IH by exact Hp. rewrite <- app_assoc. reflexivity.
Qed.

Lemma is_word_chars (p : string) :
  is_word p = true ->
  p <> "" /\ forallb (fun c => negb (is_space c)) (list_ascii_of_string p)
             = true.
Proof.
  unfold is_word. intro H. apply andb_prop in H. destruct H as [H1 H2].
  split; [| exact H2]. intros ->. discriminate H1.
Qed.

Lemma rev_chars_nonempty (p : string) (cur : list ascii) :
  p <> "" -> app (rev (list_ascii_of_string p)) cur <> [].
Proof.
  destruct p as [| c p]; [congruence |]. intros _ H.
  cbn [list_ascii_of_string rev] in H.
  apply app_eq_nil in H. destruct H as [H _].
  apply app_eq_nil in H. destruct H as [_ H]. discriminate H.
Qed.

Lemma append_empty_r (p : string) : (p ++ "")%string = p.
Proof.
  induction p as [| c p IH]; [reflexivity |].
  cbn [append]. rewrite IH. reflexivity.
Qed.

Lemma py_split_word (p : string) :
  is_word p = true -> py_split p = [p].
Proof.
  intro Hp. destruct (is_word_chars p Hp) as [Hne Hchars].
  unfold py_split. rewrite <- (append_empty_r p) at 1.
  rewrite split_go_chars by exact Hchars. cbn [split_go].
  pose proof (rev_chars_nonempty p [] Hne) as Hcur.
  pose proof (rev_string_spec p []) as Hrev.
  destruct (app (rev (list_ascii_of_string p)) []); [contradiction |].
  rewrite Hrev. reflexivity.
Qed.

Lemma py_split_word_space (p rest : string) :
  is_word p = true ->
  py_split (p ++ String " " rest) = p :: py_split rest.
Proof.
  intro Hp. destruct (is_word_chars p Hp) as [Hne Hchars].
  unfold py_split. rewrite split_go_chars by exact Hchars.
  cbn [split_go]. change (is_space " ") with true. cbv iota.
  pose proof (rev_chars_nonempty p [] Hne) as Hcur.
  pose proof (rev_string_spec p []) as Hrev.
  destruct (app (rev (list_ascii_of_string p)) []); [contradiction |].
  rewrite Hrev. reflexivity.
Qed.

(** The parts [split] produces are words. *)
Lemma split_go_words (s : string) :
  forall cur : list ascii,
    forallb (fun c => negb (is_space c)) cur = true ->
    Forall (fun p => is_word p = true) (split_go s cur).
Proof.
  assert (forall cur : list ascii,
            cur <> [] ->
            forallb (fun c => negb (is_space c)) cur = true ->
            is_word (rev_string cur) = true) as Hword.
  { intros cur Hne Hcur. unfold is_word, rev_string.
    rewrite list_ascii_of_string_of_list_ascii.
    apply andb_true_intro. split.
    - apply negb_true_iff. apply String.eqb_neq. intro H.
      apply (f_equal list_ascii_of_string) in H.
      rewrite list_ascii_of_string_of_list_ascii in H. cbn in H.
      apply (f_equal (@rev ascii)) in H. rewrite rev_involutive in H.
      exact (Hne H).
    - apply forallb_forall. intros c Hc. apply in_rev in Hc.
      rewrite forallb_forall in Hcur. apply Hcur, Hc. }
  induction s as [| c s IH]; intros cur Hcur; cbn [split_go].
  - destruct cur as [| c0 cur]; [constructor |].
    constructor; [apply Hword; [discriminate | exact Hcur] | constructor].
  - destruct (is_space c) eqn:Hc.
    + destruct cur as [| c0 cur]; [apply IH; reflexivity |].
      constructor; [apply Hword; [discriminate | exact Hcur] |].
      apply IH. reflexivity.
    + apply IH. cbn [forallb]. rewrite Hc, Hcur. reflexivity.
Qed.

Lemma py_split_words (s : string) :
  Forall (fun p => is_word p = true) (py_split s).
Proof. apply split_go_words. reflexivity. Qed.

Lemma fmt_0d_word (w : nat) (z : Z) : is_word (fmt_0d w z) = true.
Proof.
  assert (forall d : Decimal.uint,
            forallb (fun c => negb (is_space c))
                    (list_ascii_of_string (NilEmpty.string_of_uint d))
            = true) as Hd
    by (induction d; cbn [NilEmpty.string_of_uint list_ascii_of_string
                          forallb]; [reflexivity | ..]; rewrite IHd;
        reflexivity).
  assert (forall n, digits_of n <> "") as Hne.
  { intros n H. pose proof (int_digits_digits_of n false) as E.
    rewrite H in E. discriminate E. }
  assert (forall (k : nat) (t : string),
            forallb (fun c => negb (is_space c)) (list_ascii_of_string t)
            = true ->
            forallb (fun c => negb (is_space c))
                    (list_ascii_of_string (zeros k ++ t)) = true) as Hz
    by (intros k t Ht; induction k as [| k IHk]; [exact Ht |];
        cbn [zeros append list_ascii_of_string forallb]; rewrite IHk;
        reflexivity).
  unfold is_word, fmt_0d. apply andb_true_intro. split.
  - apply negb_true_iff, String.eqb_neq.
    destruct (z <? 0); cbn [append]; [discriminate |].
    specialize (Hne (Z.abs_N z)).
    destruct (zeros (w - String.length "" - String.length (digits_of (Z.abs_N z))));
      cbn [append]; [exact Hne | discriminate].
  - destruct (z <? 0); cbn [append list_ascii_of_string forallb];
      rewrite Hz; try reflexivity;
      rewrite digits_of_NilEmpty; apply Hd.
Qed.

(* ====================================================================== *)
(** * Coordinate jitter: the well-formed case and the draws consumed *)
(* ====================================================================== *)

Lemma py_split_word_sep (p rest : string) :
  is_word p = true ->
  py_split (p ++ " " ++ rest) = p :: py_split rest.
Proof. apply py_split_word_space. Qed.

(** ** The digit limit of the conversions

    CPython converts between [str] and [int] up to
    [sys.get_int_max_str_digits()] digits, 4300 as shipped: past that,
    [int(s)] and [format(z, ...)] raise [ValueError], which [jitter_mgrs]
    catches like any other.  [py_int] and [fmt_0d] carry no limit; they
    are [int] and [format] on numerals within it, and the statements
    below that depend on it say so. *)
Definition MAX_STR_DIGITS : nat := 4300.

(** An integer [format] prints. *)
Definition printable_int (z : Z) : Prop :=
  Z.abs z < 10 ^ Z.of_nat MAX_STR_DIGITS.

Lemma digit_val_range (c : ascii) (v : Z) :
  digit_val c = Some v -> 0 <= v <= 9.
Proof.
  unfold digit_val.
  destruct ((48 <=? N_of_ascii c) && (N_of_ascii c <=? 57))%N eqn:E;
    [| discriminate].
  intro H. injection H as <-.
  apply andb_true_iff in E. destruct E as [E1 E2].
  apply N.leb_le in E1, E2. lia.
Qed.

(** A numeral of [n] characters read after [acc] stays below
    [(acc + 1) * 10 ^ n]. *)
Lemma int_digits_bound (s : string) :
  forall (acc : Z) (b : bool) (z : Z),
    0 <= acc -> int_digits s acc b = Some z ->
    0 <= z < (acc + 1) * 10 ^ Z.of_nat (String.length s).
Proof.
  induction s as [| c s IH]; intros acc b z Hacc H;
    cbn [int_digits String.length] in H |- *.
  - destruct b; [| discriminate H]. injection H as <-.
    change (10 ^ Z.of_nat 0) with 1. lia.
  - rewrite Nat2Z.inj_succ, Z.pow_succ_r by lia.
    assert (0 < 10 ^ Z.of_nat (String.length s)) as Hpos
      by (apply Z.pow_pos_nonneg; lia).
    destruct (digit_val c) as [v |] eqn:Ev.
    + apply digit_val_range in Ev. apply IH in H; [| lia]. nia.
    + destruct (Ascii.eqb c "_" && b)%bool; [| discriminate H].
      apply IH in H; [| lia]. nia.
Qed.

Lemma py_int_sign (c : ascii) (s : string) (z : Z) :
  py_int (String c s) = Some z ->
  (exists v, int_digits s 0 false = Some v /\ (z = v \/ z = - v))
  \/ int_digits (String c s) 0 false = Some z.
Proof.
  intro H.
  destruct c as [[] [] [] [] [] [] [] []]; unfold py_int in H;
    first [ right; exact H
          | left; exists z; split; [exact H | left; reflexivity]
          | left; destruct (int_digits s 0 false) as [v |];
            [| discriminate H];
            cbn [option_map] in H; injection H as <-;
            exists v; split; [reflexivity | right; reflexivity] ].
Qed.

(** What [int] reads in a string of [n] characters is below [10 ^ n] in
    magnitude. *)
Lemma py_int_bound (s : string) (z : Z) :
  py_int s = Some z -> Z.abs z < 10 ^ Z.of_nat (String.length s).
Proof.
  destruct s as [| c s]; [discriminate |]. intro H.
  apply py_int_sign in H. destruct H as [[v [Hv Hz]] | H].
  - apply int_digits_bound in Hv; [| lia].
    cbn [String.length]. rewrite Nat2Z.inj_succ, Z.pow_succ_r by lia.
    destruct Hz as [-> | ->]; lia.
  - apply int_digits_bound in H; lia.
Qed.

(** A numeral of fewer than [n] characters, moved by at most 50, has at
    most [n] digits. *)
Lemma moved_numeral_bound (n : nat) (s : string) (z r : Z) :
  (String.length s < n)%nat -> py_int s = Some z -> -50 <= r <= 50 ->
  Z.abs (z + r) < 10 ^ Z.of_nat n.
Proof.
  intros Hn Hz Hr.
  assert (s <> EmptyString) as Hs by (intros ->; discriminate Hz).
  apply py_int_bound in Hz.
  assert (1 <= String.length s)%nat as Hlen
    by (destruct s; [contradiction | cbn [String.length]; lia]).
  assert (10 ^ 1 <= 10 ^ Z.of_nat (String.length s)) as H1
    by (apply Z.pow_le_mono_r; lia).
  assert (10 ^ (Z.of_nat (String.length s) + 1) <= 10 ^ Z.of_nat n) as H2
    by (apply Z.pow_le_mono_r; lia).
  rewrite Z.pow_add_r in H2 by lia.
  change (10 ^ 1) with 10 in H1, H2. lia.
Qed.

Section JitterDetails.

Context {R : PyRandom}.

(** The value [jitter_mgrs] returns on a string with at least four parts
    whose third and fourth parts are integers. *)
Lemma jitter_mgrs_parts
    (s p0 p1 p2 p3 : string) (rest : list string) (e0 n0 : Z) (g : rng) :
  py_split s = p0 :: p1 :: p2 :: p3 :: rest ->
  py_int p2 = Some e0 -> py_int p3 = Some n0 ->
  exists r1 r2 g',
    -50 <= r1 <= 50 /\ -50 <= r2 <= 50
    /\ jitter_mgrs s g
       = Ok (p0 ++ " " ++ p1 ++ " " ++ fmt_0d 4 (e0 + r1)
                ++ " " ++ fmt_0d 2 (n0 + r2)) g'.
Proof.
  intros Hsplit He Hn.
  pose proof (randint_range (-50) 50 g ltac:(lia)) as Hr1.
  destruct (randint (-50) 50 g) as [r1 g1] eqn:E1. cbn [fst] in Hr1.
  pose proof (randint_range (-50) 50 g1 ltac:(lia)) as Hr2.
  destruct (randint (-50) 50 g1) as [r2 g2] eqn:E2. cbn [fst] in Hr2.
  exists r1, r2, g2. split; [exact Hr1 |]. split; [exact Hr2 |].
  unfold jitter_mgrs. rewrite Hsplit.
  change (4 <=? List.length (p0 :: p1 :: p2 :: p3 :: rest))%nat with true.
  cbv iota.
  unfold try_except, bind, list_get, int_of_str, lift, ret.
  cbn [nth_error]. rewrite He. unfold random_randint.
  change (-50 <=? 50) with true. cbv iota. rewrite E1, Hn, E2.
  reflexivity.
Qed.

(** X3. On a string with at least four parts whose third and fourth parts
    are integers written in fewer than 4300 characters each,
    [jitter_mgrs] keeps the first two parts, moves the two numbers by at
    most 50 each, and drops any further part.  The moved numbers stay
    within the 4300 digits [format] prints, and the result is again a
    four-part coordinate string that reads back as the moved numbers, so
    it is not malformed in its turn.  (On a longer numeral [int] or
    [format] raises and the string comes back unchanged.) *)
Theorem jitter_mgrs_well_formed
    (s p0 p1 p2 p3 : string) (rest : list string) (e0 n0 : Z) (g : rng) :
  py_split s = p0 :: p1 :: p2 :: p3 :: rest ->
  (String.length p2 < MAX_STR_DIGITS)%nat ->
  (String.length p3 < MAX_STR_DIGITS)%nat ->
  py_int p2 = Some e0 -> py_int p3 = Some n0 ->
  exists r1 r2 out g',
    jitter_mgrs s g = Ok out g'
    /\ -50 <= r1 <= 50 /\ -50 <= r2 <= 50
    /\ printable_int (e0 + r1) /\ printable_int (n0 + r2)
    /\ out = p0 ++ " " ++ p1 ++ " " ++ fmt_0d 4 (e0 + r1)
                ++ " " ++ fmt_0d 2 (n0 + r2)
    /\ py_split out = [p0; p1; fmt_0d 4 (e0 + r1); fmt_0d 2 (n0 + r2)]
    /\ py_int (nth 2 (py_split out) "") = Some (e0 + r1)
    /\ py_int (nth 3 (py_split out) "") = Some (n0 + r2)
    /\ ~ malformed_mgrs out.
Proof.
  intros Hsplit Hlen2 Hlen3 He Hn.
  pose proof (py_split_words s) as Hwords. rewrite Hsplit in Hwords.
  apply Forall_cons_iff in Hwords. destruct Hwords as [Hw0 Hwords].
  apply Forall_cons_iff in Hwords. destruct Hwords as [Hw1 _].
  destruct (jitter_mgrs_parts s p0 p1 p2 p3 rest e0 n0 g Hsplit He Hn)
    as [r1 [r2 [g2 [Hr1 [Hr2 E]]]]].
  exists r1, r2.
  exists (p0 ++ " " ++ p1 ++ " " ++ fmt_0d 4 (e0 + r1)
             ++ " " ++ fmt_0d 2 (n0 + r2)), g2.
  assert (py_split (p0 ++ " " ++ p1 ++ " " ++ fmt_0d 4 (e0 + r1)
                       ++ " " ++ fmt_0d 2 (n0 + r2))
          = [p0; p1; fmt_0d 4 (e0 + r1); fmt_0d 2 (n0 + r2)]) as Hout.
  { rewrite (py_split_word_sep p0) by exact Hw0.
    rewrite (py_split_word_sep p1) by exact Hw1.
    rewrite (py_split_word_sep (fmt_0d 4 (e0 + r1)))
      by apply fmt_0d_word.
    rewrite (py_split_word (fmt_0d 2 (n0 + r2))) by apply fmt_0d_word.
    reflexivity. }
  split; [exact E |].
  split; [exact Hr1 |]. split; [exact Hr2 |].
  split; [exact (moved_numeral_bound _ p2 e0 r1 Hlen2 He Hr1) |].
  split; [exact (moved_numeral_bound _ p3 n0 r2 Hlen3 Hn Hr2) |].
  split; [reflexivity |].
  split; [exact Hout |]. rewrite Hout. cbn [nth].
  split; [apply py_int_fmt_0d |]. split; [apply py_int_fmt_0d |].
  unfold malformed_mgrs. rewrite Hout. cbn [nth List.length].
  rewrite !py_int_fmt_0d. intros [H | [H | H]];
    [lia | discriminate H | discriminate H].
Qed.

(** X4. [jitter_mgrs] consumes nothing of the stream when the string has
    fewer than four parts or its third part is not an integer. *)
Theorem jitter_mgrs_no_draw (s : string) (g : rng) :
  (List.length (py_split s) < 4)%nat
  \/ py_int (nth 2 (py_split s) "") = None ->
  jitter_mgrs s g = Ok s g.
Proof.
  unfold jitter_mgrs. generalize (py_split s). intro parts.
  intros [Hlen | Hbad].
  - destruct (Nat.leb_spec 4 (List.length parts)); [lia | reflexivity].
  - destruct (Nat.leb_spec 4 (List.length parts)) as [Hlen | _];
      [| reflexivity].
    unfold try_except, bind, list_get, int_of_str, lift, ret, raise.
    destruct (nth_error parts 2) as [p2 |] eqn:E2; [| reflexivity].
    rewrite (nth_error_nth _ _ "" E2) in Hbad. rewrite Hbad.
    reflexivity.
Qed.

(** X5. When the third part is an integer written in at most 4300
    characters, so that [int] reads it, and the fourth part is not an
    integer, the string comes back unchanged but one draw has been
    consumed: the easting noise was drawn before the northing failed to
    parse.  (A longer third part makes [int] raise before any draw.) *)
Theorem jitter_mgrs_lost_draw (s : string) (g : rng) :
  (4 <= List.length (py_split s))%nat ->
  (String.length (nth 2 (py_split s) "") <= MAX_STR_DIGITS)%nat ->
  py_int (nth 2 (py_split s) "") <> None ->
  py_int (nth 3 (py_split s) "") = None ->
  jitter_mgrs s g = Ok s (snd (randint (-50) 50 g)).
Proof.
  unfold jitter_mgrs. generalize (py_split s). intro parts.
  intros Hlen _ Hgood Hbad.
  destruct (Nat.leb_spec 4 (List.length parts)); [| lia].
  unfold try_except, bind, list_get, int_of_str, lift, ret, raise.
  destruct (nth_error parts 2) as [p2 |] eqn:E2;
    [| apply nth_error_None in E2; lia].
  rewrite (nth_error_nth _ _ "" E2) in Hgood.
  destruct (py_int p2) as [e0 |]; [| contradiction].
  unfold random_randint. change (-50 <=? 50) with true. cbv iota.
  destruct (randint (-50) 50 g) as [r1 g1]. cbn [snd].
  destruct (nth_error parts 3) as [p3 |] eqn:E3;
    [| apply nth_error_None in E3; lia].
  rewrite (nth_error_nth _ _ "" E3) in Hbad. rewrite Hbad.
  reflexivity.
Qed.

End JitterDetails.

Section ConcreteJitterDetails.

#[local] Existing Instance Lcg.lcg.

Lemma jitter_mgrs_well_formed_witness :
  py_split "17R NM 4523 78 extra" = ["17R"; "NM"; "4523"; "78"; "extra"]
  /\ (String.length "4523" < MAX_STR_DIGITS)%nat
  /\ (String.length "78" < MAX_STR_DIGITS)%nat
  /\ py_int "4523" = Some 4523 /\ py_int "78" = Some 78
  /\ exists r1 r2 out g',
       jitter_mgrs "17R NM 4523 78 extra" 7 = Ok out g'
       /\ -50 <= r1 <= 50 /\ -50 <= r2 <= 50
       /\ printable_int (4523 + r1) /\ printable_int (78 + r2)
       /\ out = "17R" ++ " " ++ "NM" ++ " " ++ fmt_0d 4 (4523 + r1)
                    ++ " " ++ fmt_0d 2 (78 + r2)
       /\ py_split out
          = ["17R"; "NM"; fmt_0d 4 (4523 + r1); fmt_0d 2 (78 + r2)]
       /\ py_int (nth 2 (py_split out) "") = Some (4523 + r1)
       /\ py_int (nth 3 (py_split out) "") = Some (78 + r2)
       /\ ~ malformed_mgrs out.
Proof.
  assert (py_split "17R NM 4523 78 extra"
          = ["17R"; "NM"; "4523"; "78"; "extra"]) as H1 by reflexivity.
  assert (String.length "4523" < MAX_STR_DIGITS)%nat as L2
    by (unfold MAX_STR_DIGITS; cbn [String.length]; lia).
  assert (String.length "78" < MAX_STR_DIGITS)%nat as L3
    by (unfold MAX_STR_DIGITS; cbn [String.length]; lia).
  assert (py_int "4523" = Some 4523) as H2 by reflexivity.
  assert (py_int "78" = Some 78) as H3 by reflexivity.
  split; [exact H1 |]. split; [exact L2 |]. split; [exact L3 |].
  split; [exact H2 |]. split; [exact H3 |].
  apply (@jitter_mgrs_well_formed Lcg.lcg "17R NM 4523 78 extra"
           "17R" "NM" "4523" "78" ["extra"] 4523 78 7 H1 L2 L3 H2 H3).
Defined.

Lemma jitter_mgrs_no_draw_witness :
  ((List.length (py_split "17R NM 45x3 78") < 4)%nat
   \/ py_int (nth 2 (py_split "17R NM 45x3 78") "") = None)
  /\ jitter_mgrs "17R NM 45x3 78" 7 = Ok "17R NM 45x3 78" 7.
Proof.
  assert ((List.length (py_split "17R NM 45x3 78") < 4)%nat
          \/ py_int (nth 2 (py_split "17R NM 45x3 78") "") = None) as H
    by (right; reflexivity).
  split; [exact H |].
  apply (@jitter_mgrs_no_draw Lcg.lcg "17R NM 45x3 78" 7 H).
Defined.

Lemma jitter_mgrs_lost_draw_witness :
  (4 <= List.length (py_split "17R NM 4523 7x"))%nat
  /\ (String.length (nth 2 (py_split "17R NM 4523 7x") "")
      <= MAX_STR_DIGITS)%nat
  /\ py_int (nth 2 (py_split "17R NM 4523 7x") "") <> None
  /\ py_int (nth 3 (py_split "17R NM 4523 7x") "") = None
  /\ jitter_mgrs "17R NM 4523 7x" 7
     = Ok "17R NM 4523 7x" (snd (randint (-50) 50 7)).
Proof.
  assert (4 <= List.length (py_split "17R NM 4523 7x"))%nat as H1
    by (vm_compute; apply le_n).
  assert (py_int (nth 2 (py_split "17R NM 4523 7x") "") <> None) as H2
    by (vm_compute; discriminate).
  assert (py_int (nth 3 (py_split "17R NM 4523 7x") "") = None) as H3
    by reflexivity.
  assert (String.length (nth 2 (py_split "17R NM 4523 7x") "")
          <= MAX_STR_DIGITS)%nat as L2
    by (change (nth 2 (py_split "17R NM 4523 7x") "") with "4523";
        unfold MAX_STR_DIGITS; cbn [String.length]; lia).
  split; [exact H1 |]. split; [exact L2 |].
  split; [exact H2 |]. split; [exact H3 |].
  apply (@jitter_mgrs_lost_draw Lcg.lcg "17R NM 4523 7x" 7 H1 L2 H2 H3).
Defined.

End ConcreteJitterDetails.

(* ====================================================================== *)
(** * Daily state engine: the active targets and the cut line *)
(* ====================================================================== *)

Lemma pick_In_pos {A : Type} (l : list A) (ps : list nat) (y : A) :
  In y (pick l ps) -> exists q, In q ps /\ nth_error l q = Some y.
Proof.
  unfold pick. intro H. apply in_flat_map in H. destruct H as [q [Hq Hy]].
  exists q. split; [exact Hq |].
  destruct (nth_error l q) as [z |]; [| contradiction].
  destruct Hy as [-> | []]. reflexivity.
Qed.

(** Distinct positions of a list with distinct keys carry distinct
    keys. *)
Lemma pick_keys_NoDup {T K : Type} (key : T -> K) (l : list T)
    (ps : list nat) :
  NoDup (map key l) -> NoDup ps ->
  Forall (fun p => (p < List.length l)%nat) ps ->
  NoDup (map key (pick l ps)).
Proof.
  intros Hl Hps Hlt. induction ps as [| p ps IH]; [constructor |].
  apply NoDup_cons_iff in Hps. destruct Hps as [Hp Hps].
  apply Forall_cons_iff in Hlt. destruct Hlt as [Hplt Hlt].
  specialize (IH Hps Hlt).
  change (pick l (p :: ps))
    with (app (match nth_error l p with Some x => [x] | None => [] end)
              (pick l ps)).
  destruct (nth_error l p) as [x |] eqn:Ex;
    [| apply nth_error_None in Ex; lia].
  cbn [app map]. constructor; [| exact IH].
  intro Hin. apply in_map_iff in Hin. destruct Hin as [y [Ekey Hy]].
  apply pick_In_pos in Hy. destruct Hy as [q [Hq Eq]].
  assert (p = q) as Hpq.
  { apply (proj1 (NoDup_nth_error (map key l)) Hl).
    - rewrite length_map. exact Hplt.
    - rewrite !nth_error_map, Ex, Eq. cbn [option_map]. f_equal.
      symmetry. exact Ekey. }
  subst q. contradiction.
Qed.

(** Removing the targets at distinct positions [ps] by their identifiers
    removes exactly [length ps] targets when identifiers are unique. *)
Lemma filter_ids_exact (ts : list Target) (ps : list nat) :
  NoDup (map tgt_id ts) -> NoDup ps ->
  Forall (fun p => (p < List.length ts)%nat) ps ->
  (List.length (filter (not_in_ids (map tgt_id (pick ts ps))) ts)
   + List.length ps = List.length ts)%nat.
Proof.
  intros Hts Hps Hlt.
  set (ids := map tgt_id (pick ts ps)).
  pose proof (filter_length (not_in_ids ids) ts) as Hsplit.
  pose proof (filter_ids_length ids ts Hts) as Hle.
  assert (List.length ids = List.length ps) as Hids
    by (unfold ids; rewrite length_map; apply pick_length, Hlt).
  assert (List.length ids
          <= List.length (filter (fun t => negb (not_in_ids ids t)) ts))%nat
    as Hge.
  { rewrite <- (length_map tgt_id (filter _ ts)).
    apply NoDup_incl_length.
    - apply pick_keys_NoDup; assumption.
    - intros x Hx. pose proof Hx as Hx'. unfold ids in Hx.
      apply in_map_iff in Hx. destruct Hx as [t [<- Ht]].
      apply in_map_iff. exists t. split; [reflexivity |].
      apply filter_In. split; [eapply pick_In, Ht |].
      apply negb_true_iff, in_ids_iff. exact Hx'. }
  lia.
Qed.

Lemma filter_no_ids (ts : list Target) : filter (not_in_ids []) ts = ts.
Proof. apply forallb_filter_id. apply forallb_forall. reflexivity. Qed.

Section TargetFacts.

Context {R : PyRandom}.

(** The survivors of a neutralization number exactly the available
    targets less the count drawn. *)
Lemma survivors_exact (available : list Target) (count : Z) (g : rng) :
  NoDup (map tgt_id available) -> 0 <= count <= len available ->
  len (filter (not_in_ids (fst (seeded_ids available count g))) available)
  = len available - count.
Proof.
  intros Hnd Hc. unfold seeded_ids.
  destruct (Z.ltb_spec 0 count) as [Hpos | Hzero].
  - cbn [fst].
    destruct (sample_pos_spec (List.length available) (Z.to_nat count) g)
      as [Hlen [Hps Hlt]]; [lia |].
    pose proof (filter_ids_exact available _ Hnd Hps Hlt). lia.
  - cbn [fst]. rewrite filter_no_ids. lia.
Qed.

Lemma neutralized_count_nonneg (d : Z) : 0 <= d -> 0 <= neutralized_count d.
Proof.
  intro Hd. pose proof (available_targets_bounds d Hd) as Hb.
  assert (0 <= int_mul d 3 100) by (apply Z.quot_pos; lia).
  unfold neutralized_count. lia.
Qed.

Lemma neutralized_count_early (d : Z) :
  0 <= d <= 33 -> neutralized_count d = 0.
Proof.
  intro Hd. pose proof (available_targets_bounds d ltac:(lia)) as Hb.
  assert (int_mul d 3 100 = 0) as H0 by (apply Z.quot_small; lia).
  unfold neutralized_count. rewrite H0. lia.
Qed.

Lemma available_targets_all (d : Z) :
  60 <= d -> available_targets d = TARGET_POOL.
Proof.
  intro Hd. apply forallb_filter_id. apply forallb_forall. intros t Ht.
  assert (forallb (fun t => tgt_from t <=? 60) TARGET_POOL = true) as H60
    by reflexivity.
  rewrite forallb_forall in H60. specialize (H60 t Ht).
  apply Z.leb_le in H60. apply Z.leb_le. lia.
Qed.

Lemma neutralized_count_late (d : Z) :
  700 <= d -> neutralized_count d = 21 /\ len (available_targets d) = 26.
Proof.
  intro Hd.
  assert (len (available_targets d) = 26) as Hlen
    by (rewrite available_targets_all by lia; reflexivity).
  split; [| exact Hlen].
  assert (21 <= int_mul d 3 100) as H21.
  { change 21 with (Z.quot 2100 100). apply Z.quot_le_mono; lia. }
  unfold neutralized_count. lia.
Qed.

Lemma day_survivors_length (d : Z) :
  0 <= d ->
  len (day_survivors d) = len (available_targets d) - neutralized_count d.
Proof.
  intro Hd. unfold day_survivors, day_seeded_ids.
  apply survivors_exact; [apply available_ids_NoDup |].
  split; [apply neutralized_count_nonneg, Hd |].
  pose proof (neutralized_count_le d). lia.
Qed.

Lemma day_survivors_early (d : Z) :
  0 <= d <= 33 -> day_survivors d = available_targets d.
Proof.
  intro Hd. unfold day_survivors, day_seeded_ids, seeded_ids.
  rewrite (neutralized_count_early d Hd). cbn [Z.ltb Z.compare fst].
  apply filter_no_ids.
Qed.

Lemma day_targets_length (d : Z) :
  0 <= d ->
  len (day_targets d) = len (available_targets d) - neutralized_count d.
Proof.
  intro Hd. rewrite (Permutation_length (day_targets_perm d)).
  apply day_survivors_length, Hd.
Qed.

Lemma survivors_keys_NoDup (ids : list string) (available : list Target) :
  NoDup (map tgt_id available) ->
  NoDup (map tgt_id (filter (not_in_ids ids) available)).
Proof. apply NoDup_keys_filter. Qed.

Lemma day_targets_ids_NoDup (d : Z) : NoDup (map tgt_id (day_targets d)).
Proof.
  apply (Permutation_NoDup (l := map tgt_id (day_survivors d))).
  - apply Permutation_map. symmetry. apply day_targets_perm.
  - unfold day_survivors.
    apply survivors_keys_NoDup, available_ids_NoDup.
Qed.

Lemma survivors_In (ids : list string) (available : list Target)
    (t : Target) :
  In t (filter (not_in_ids ids) available) -> In t available.
Proof. intro H. apply filter_In in H. apply H. Qed.

Lemma available_targets_In (d : Z) (t : Target) :
  In t (available_targets d) <-> In t TARGET_POOL /\ tgt_from t <= d.
Proof.
  unfold available_targets. rewrite filter_In, Z.leb_le. reflexivity.
Qed.

Lemma day_survivors_In (d : Z) (t : Target) :
  In t (day_survivors d) -> In t (available_targets d).
Proof. unfold day_survivors. apply survivors_In. Qed.

Lemma day_targets_In (d : Z) (t : Target) :
  In t (day_targets d) -> In t TARGET_POOL /\ tgt_from t <= d.
Proof.
  intro Ht. apply (Permutation_in _ (day_targets_perm d)) in Ht.
  apply (proj1 (available_targets_In d t)).
  apply day_survivors_In. exact Ht.
Qed.

(** X6. The active targets of a day: as many as the available targets less
    the neutralized count, each an available entry of the pool, none
    listed twice.  Up to day 33 nothing is neutralized and the active
    targets are the available ones rearranged; from day 700 on exactly
    five targets remain. *)
Theorem active_targets_census (d : Z) (g : rng) :
  0 <= d <= LAST_STATE_DAY ->
  exists st,
    DailyState_init d g = Ok st (seed 42)
    /\ len (active_targets st)
       = len (available_targets d) - neutralized_count d
    /\ NoDup (map tgt_id (active_targets st))
    /\ (forall t, In t (active_targets st) ->
                  In t TARGET_POOL /\ tgt_from t <= d)
    /\ (d <= 33 -> Permutation (active_targets st) (available_targets d))
    /\ (700 <= d -> len (active_targets st) = 5).
Proof.
  intro Hd. destruct (DailyState_init_ok d g) as [st [E Hok]].
  { rewrite FIRST_STATE_DAY_value. lia. }
  exists st. split; [exact E |].
  rewrite (ok_targets _ _ Hok).
  split; [apply day_targets_length; lia |].
  split; [apply day_targets_ids_NoDup |].
  split; [apply day_targets_In |].
  split.
  - intro H33. rewrite <- (day_survivors_early d ltac:(lia)).
    apply day_targets_perm.
  - intro H700. destruct (neutralized_count_late d H700) as [Hc Ha].
    rewrite day_targets_length by lia. lia.
Qed.

(** X7. The cut line splits the active targets in two: the list above the
    cut followed by the list below it is the active list.  Between five
    and ten targets stand above the cut; with at most six active targets
    none is below it, and with more than ten some are.  From day 700 on
    every active target is above the cut. *)
Theorem jiptl_cut_split (d : Z) (g : rng) :
  0 <= d <= LAST_STATE_DAY ->
  exists st,
    DailyState_init d g = Ok st (seed 42)
    /\ app (jiptl_above_cut st) (jiptl_below_cut st) = active_targets st
    /\ 5 <= len (jiptl_above_cut st) <= 10
    /\ (len (active_targets st) <= 6 -> jiptl_below_cut st = [])
    /\ (10 < len (active_targets st) -> jiptl_below_cut st <> [])
    /\ (700 <= d -> jiptl_above_cut st = active_targets st
                    /\ jiptl_below_cut st = []).
Proof.
  intro Hd. destruct (DailyState_init_ok d g) as [st [E Hok]].
  { rewrite FIRST_STATE_DAY_value. lia. }
  exists st. split; [exact E |].
  destruct (ok_cut _ _ Hok) as [r [Hr [Habove Hbelow]]].
  assert (5 <= len (active_targets st)) as Hfloor.
  { rewrite (ok_targets _ _ Hok).
    pose proof (day_targets_perm d) as Hperm.
    pose proof (day_survivors_floor d ltac:(lia)) as H5.
    rewrite <- (Permutation_length Hperm) in H5. lia. }
  assert (len (active_targets st) = 5 ->
          jiptl_above_cut st = active_targets st /\ jiptl_below_cut st = [])
    as Hfive.
  { intro H5. rewrite Habove, Hbelow.
    split; [apply firstn_all2 | apply skipn_all2]; lia. }
  assert (700 <= d -> len (active_targets st) = 5) as Hlate.
  { intro H700. destruct (neutralized_count_late d H700) as [Hc Ha].
    rewrite (ok_targets _ _ Hok), day_targets_length by lia. lia. }
  generalize dependent (active_targets st). intros active.
  intros Habove Hbelow Hfloor Hfive Hlate.
  split; [rewrite Habove, Hbelow; apply firstn_skipn |].
  split; [rewrite Habove, length_firstn; lia |].
  split; [intro H6; rewrite Hbelow; apply skipn_all2; lia |].
  split.
  - intros H10 Hnil. apply (f_equal (@List.length Target)) in Hnil.
    rewrite Hbelow, length_skipn in Hnil. cbn [List.length] in Hnil. lia.
  - intro H700. apply Hfive, Hlate, H700.
Qed.

(** X8. The trends run into their clamps: whatever the noise, the SLM
    strength is at its floor of 500 from day 400 on, the HNSF readiness
    at its cap of 95 from day 362 on, the corridor threat at its floor of
    1 from day 500 on and the popular support at its cap of 80 from day
    379 on.  Before that each metric stays on its side of the clamp, and
    the tip-line calls and the surrenders are never negative. *)
Theorem metrics_reach_their_clamps (d : Z) (g : rng) :
  0 <= d <= LAST_STATE_DAY ->
  exists st,
    DailyState_init d g = Ok st (seed 42)
    /\ 500 <= slm_strength st <= 3100
    /\ 30 <= hnsf_readiness st <= 95
    /\ 1 <= corridor_threat st <= 11
    /\ 27 <= popular_support_gos st <= 80
    /\ 0 <= tip_line_calls st <= int_mul d 8 10 + 10
    /\ 0 <= amnesty_surrenders st <= int_mul d 15 100 + 3
    /\ (400 <= d -> slm_strength st = 500)
    /\ (362 <= d -> hnsf_readiness st = 95)
    /\ (500 <= d -> corridor_threat st = 1)
    /\ (379 <= d -> popular_support_gos st = 80).
Proof.
  intro Hd. destruct (DailyState_init_ok d g) as [st [E Hok]].
  { rewrite FIRST_STATE_DAY_value. lia. }
  exists st. split; [exact E |].
  destruct (ok_slm _ _ Hok) as [r1 [Hr1 ->]].
  destruct (ok_hnsf _ _ Hok) as [r2 [Hr2 ->]].
  destruct (ok_threat _ _ Hok) as [r3 [Hr3 ->]].
  destruct (ok_support _ _ Hok) as [r4 [Hr4 ->]].
  destruct (ok_tips _ _ Hok) as [r5 [Hr5 ->]].
  destruct (ok_amnesty _ _ Hok) as [r6 [Hr6 ->]].
  assert (forall num den lo,
            0 <= num -> 0 < den ->
            (lo * den <= d * num -> lo <= int_mul d num den)) as Hlow.
  { intros num den lo Hn Hden Hlo. unfold int_mul.
    apply Z.quot_le_lower_bound; lia. }
  pose proof (Hlow 13 2 0 ltac:(lia) ltac:(lia) ltac:(lia)).
  pose proof (Hlow 18 100 0 ltac:(lia) ltac:(lia) ltac:(lia)).
  pose proof (Hlow 2 100 0 ltac:(lia) ltac:(lia) ltac:(lia)).
  pose proof (Hlow 14 100 0 ltac:(lia) ltac:(lia) ltac:(lia)).
  pose proof (Hlow 8 10 0 ltac:(lia) ltac:(lia) ltac:(lia)).
  pose proof (Hlow 15 100 0 ltac:(lia) ltac:(lia) ltac:(lia)).
  repeat (split; [lia |]).
  split; [intro Hs; pose proof (Hlow 13 2 2600 ltac:(lia) ltac:(lia)
                                 ltac:(lia)); lia |].
  split; [intro Hs; pose proof (Hlow 18 100 65 ltac:(lia) ltac:(lia)
                                 ltac:(lia)); lia |].
  split; [intro Hs; pose proof (Hlow 2 100 10 ltac:(lia) ltac:(lia)
                                 ltac:(lia)); lia |].
  intro Hs. pose proof (Hlow 14 100 53 ltac:(lia) ltac:(lia) ltac:(lia)). lia.
Qed.

End TargetFacts.

Section ConcreteTargets.

#[local] Existing Instance Lcg.lcg.

Lemma active_targets_census_witness :
  (0 <= 100 <= LAST_STATE_DAY)
  /\ exists st,
       DailyState_init 100 7 = Ok st (seed 42)
       /\ len (active_targets st)
          = len (available_targets 100) - neutralized_count 100
       /\ NoDup (map tgt_id (active_targets st))
       /\ (forall t, In t (active_targets st) ->
                     In t TARGET_POOL /\ tgt_from t <= 100)
       /\ (100 <= 33 ->
           Permutation (active_targets st) (available_targets 100))
       /\ (700 <= 100 -> len (active_targets st) = 5).
Proof.
  assert (0 <= 100 <= LAST_STATE_DAY) as H
    by (rewrite LAST_STATE_DAY_value; lia).
  split; [exact H | apply (@active_targets_census Lcg.lcg 100 7 H)].
Defined.

Lemma jiptl_cut_split_witness :
  (0 <= 700 <= LAST_STATE_DAY)
  /\ exists st,
       DailyState_init 700 7 = Ok st (seed 42)
       /\ app (jiptl_above_cut st) (jiptl_below_cut st) = active_targets st
       /\ 5 <= len (jiptl_above_cut st) <= 10
       /\ (len (active_targets st) <= 6 -> jiptl_below_cut st = [])
       /\ (10 < len (active_targets st) -> jiptl_below_cut st <> [])
       /\ (700 <= 700 -> jiptl_above_cut st = active_targets st
                         /\ jiptl_below_cut st = []).
Proof.
  assert (0 <= 700 <= LAST_STATE_DAY) as H
    by (rewrite LAST_STATE_DAY_value; lia).
  split; [exact H | apply (@jiptl_cut_split Lcg.lcg 700 7 H)].
Defined.

Lemma metrics_reach_their_clamps_witness :
  (0 <= 500 <= LAST_STATE_DAY)
  /\ exists st,
       DailyState_init 500 7 = Ok st (seed 42)
       /\ 500 <= slm_strength st <= 3100
       /\ 30 <= hnsf_readiness st <= 95
       /\ 1 <= corridor_threat st <= 11
       /\ 27 <= popular_support_gos st <= 80
       /\ 0 <= tip_line_calls st <= int_mul 500 8 10 + 10
       /\ 0 <= amnesty_surrenders st <= int_mul 500 15 100 + 3
       /\ (400 <= 500 -> slm_strength st = 500)
       /\ (362 <= 500 -> hnsf_readiness st = 95)
       /\ (500 <= 500 -> corridor_threat st = 1)
       /\ (379 <= 500 -> popular_support_gos st = 80).
Proof.
  assert (0 <= 500 <= LAST_STATE_DAY) as H
    by (rewrite LAST_STATE_DAY_value; lia).
  split; [exact H | apply (@metrics_reach_their_clamps Lcg.lcg 500 7 H)].
Defined.

End ConcreteTargets.

(* ====================================================================== *)
(** * Daily state engine: the events and the missions of a day *)
(* ====================================================================== *)

(** A loop whose invariant follows the elements processed so far. *)
Lemma returns_for_fold_prefix {S A B : Type} (body : B -> A -> M S B)
    (I : list A -> B -> S -> Prop) (l : list A) :
  forall pre acc s,
    I pre acc s ->
    (forall pre x acc s,
        I pre acc s -> returns (body acc x) (I (app pre [x])) s) ->
    returns (for_fold l acc body) (I (app pre l)) s.
Proof.
  induction l as [| x l IH]; intros pre acc s HI Hbody.
  - rewrite app_nil_r. exact HI.
  - cbn [for_fold]. apply returns_bind.
    eapply returns_mono; [apply Hbody, HI |].
    intros acc' s' HI'.
    replace (app pre (x :: l)) with (app (app pre [x]) l)
      by (rewrite <- app_assoc; reflexivity).
    apply IH; assumption.
Qed.

Lemma strings_NoDup_by_count (l : list string) :
  forallb (fun x => Nat.eqb (count_occ string_dec l x) 1) l = true ->
  NoDup l.
Proof.
  intro H. apply (NoDup_count_occ' string_dec). intros x Hx.
  rewrite forallb_forall in H. apply Nat.eqb_eq, H, Hx.
Qed.

Lemma ISR_AREAS_NoDup : NoDup ISR_AREAS.
Proof. apply strings_NoDup_by_count. vm_compute. reflexivity. Qed.

Lemma EVENTS_POOL_texts_NoDup : NoDup (map ev_text EVENTS_POOL).
Proof. apply strings_NoDup_by_count. vm_compute. reflexivity. Qed.

(** The windows of the pool cover the days 1 to 350 and no other day. *)
Lemma events_in_window_empty (d : Z) :
  events_in_window d = [] <-> d < 1 \/ 350 < d.
Proof.
  assert (forall e, In e EVENTS_POOL -> 1 <= ev_min e /\ ev_max e <= 350)
    as Hspan.
  { assert (forallb (fun e => (1 <=? ev_min e) && (ev_max e <=? 350))
                    EVENTS_POOL = true) as H by reflexivity.
    rewrite forallb_forall in H. intros e He. specialize (H e He).
    apply andb_prop in H. destruct H as [H1 H2].
    apply Z.leb_le in H1, H2. split; assumption. }
  assert (forall i, (i < 25)%nat ->
            ev_min (nth i EVENTS_POOL (mkEvent 0 0 "" ""))
            <= d <= ev_max (nth i EVENTS_POOL (mkEvent 0 0 "" "")) ->
            events_in_window d <> []) as Hcover.
  { intros i Hi Hin Hnil.
    assert (In (nth i EVENTS_POOL (mkEvent 0 0 "" "")) (events_in_window d))
      as Hmem.
    { unfold events_in_window. apply filter_In. split.
      - apply nth_In. exact Hi.
      - apply andb_true_intro. split; apply Z.leb_le; lia. }
    rewrite Hnil in Hmem. contradiction. }
  split.
  - intro Hnil.
    destruct (Z.lt_ge_cases d 1) as [Hlo | Hlo]; [left; exact Hlo |].
    destruct (Z.lt_ge_cases 350 d) as [Hhi | Hhi]; [right; exact Hhi |].
    exfalso. revert Hnil.
    destruct (Z.le_gt_cases d 5);
      [apply (Hcover 0%nat); [lia | cbn; lia] |].
    destruct (Z.le_gt_cases d 15);
      [apply (Hcover 3%nat); [lia | cbn; lia] |].
    destruct (Z.le_gt_cases d 40);
      [apply (Hcover 8%nat); [lia | cbn; lia] |].
    destruct (Z.le_gt_cases d 90);
      [apply (Hcover 14%nat); [lia | cbn; lia] |].
    destruct (Z.le_gt_cases d 180);
      [apply (Hcover 19%nat); [lia | cbn; lia] |].
    destruct (Z.le_gt_cases d 270);
      [apply (Hcover 22%nat); [lia | cbn; lia] |].
    apply (Hcover 24%nat); [lia | cbn; lia].
  - intro Hout.
    destruct (events_in_window d) as [| e es] eqn:Ew; [reflexivity |].
    exfalso.
    assert (In e (events_in_window d)) as He by (rewrite Ew; left; reflexivity).
    clear Ew. revert He. unfold events_in_window. intro He.
    apply filter_In in He. destruct He as [Hpool Hwin].
    apply andb_prop in Hwin. destruct Hwin as [H1 H2].
    apply Z.leb_le in H1, H2. specialize (Hspan e Hpool). lia.
Qed.

Lemma events_in_window_In (d : Z) (e : Event) :
  In e (events_in_window d) -> In e EVENTS_POOL /\ ev_min e <= d <= ev_max e.
Proof.
  unfold events_in_window. intro He. apply filter_In in He.
  destruct He as [Hpool Hwin]. apply andb_prop in Hwin.
  destruct Hwin as [H1 H2]. apply Z.leb_le in H1, H2. split; [| lia].
  exact Hpool.
Qed.

Lemma events_in_window_texts_NoDup (d : Z) :
  NoDup (map ev_text (events_in_window d)).
Proof.
  unfold events_in_window. apply NoDup_keys_filter, EVENTS_POOL_texts_NoDup.
Qed.

(** What [random.sample(window, min(len(window), randint(1, 3)))], taken
    only when the window is not empty, leaves in [evs]. *)
Definition sampled {A : Type} (window evs : list A) : Prop :=
  exists ps,
    evs = pick window ps
    /\ NoDup ps
    /\ Forall (fun p => (p < List.length window)%nat) ps
    /\ (window = [] -> ps = [])
    /\ (window <> [] -> 1 <= len ps <= 3).

(** The labels [ATO-001], [ATO-002], ... of [n] missions. *)
Definition msn_labels (n : nat) : list string :=
  map (fun i => "ATO-" ++ fmt_0d 3 (Z.of_nat i)) (seq 1 n).

(** The missions so far are numbered from 1 and [num] is the next
    number. *)
Definition numbered (ms : list Mission) (num : Z) : Prop :=
  num = 1 + len ms /\ map msn_num ms = msn_labels (List.length ms).

Lemma numbered_snoc (ms : list Mission) (num : Z) (m : Mission) :
  numbered ms num -> msn_num m = "ATO-" ++ fmt_0d 3 num ->
  numbered (app ms [m]) (num + 1).
Proof.
  intros [Hn Hl] Hm. split.
  - rewrite length_app. cbn [List.length]. lia.
  - rewrite map_app, length_app, Hl. cbn [List.length map].
    rewrite Nat.add_1_r. unfold msn_labels. rewrite seq_S, map_app.
    cbn [map]. rewrite Hm, Hn. do 4 f_equal. lia.
Qed.

(** The shape of a day's mission list in phase [p]: the ISR missions,
    the two standing support missions, and in phases 3 and 4 one more. *)
Definition missions_ok (p : Z) (ms : list Mission) : Prop :=
  exists isr sup extra,
    ms = app isr (app sup extra)
    /\ 4 <= len isr <= 7
    /\ Forall (fun m => msn_type m = "ISR") isr
    /\ NoDup (map target_area isr)
    /\ incl (map target_area isr) ISR_AREAS
    /\ map msn_type sup = ["MEDEVAC"; "AIRLIFT"]
    /\ (if 3 <=? p
        then exists m, extra = [m]
                       /\ (msn_type m = "INFILTRATION"
                           \/ msn_type m = "ASSAULT SUPPORT")
                       /\ In (target_area m) (firstn 3 ISR_AREAS)
        else extra = [])
    /\ map msn_num ms = msn_labels (List.length ms).

Section DailyStateDetail.

Context {R : PyRandom}.

Lemma returns_missions_detail (d : Z) (e : string) (p : Z)
    (Q : list Mission -> rng -> Prop) (g : rng) :
  FIRST_STATE_DAY <= d <= LAST_STATE_DAY ->
  (forall ms g', missions_ok p ms -> Q ms g') ->
  returns (generate_ato_missions d (date_of_day d) e p) Q g.
Proof.
  intros Hd HQ. unfold generate_ato_missions.
  apply returns_bind, returns_randint; [lia |]. intros k g1 Hk.
  apply returns_bind, returns_sample.
  { cbn [ISR_AREAS List.length]. lia. }
  intros ps g2 Hlen Hnd Hlt.
  apply returns_bind.
  eapply returns_mono.
  { apply (returns_for_fold_prefix (isr_mission d (date_of_day d))
             (fun pre acc _ =>
                numbered (fst acc) (snd acc)
                /\ map target_area (fst acc) = pre
                /\ Forall (fun m => msn_type m = "ISR") (fst acc))
             (pick ISR_AREAS ps) [] ([], 1) g2).
    - cbn [fst snd]. split; [split; reflexivity |].
      split; [reflexivity | constructor].
    - intros pre area [missions num] s [Hnum [Harea Hisr]].
      cbn [fst snd] in Hnum, Harea, Hisr. unfold isr_mission.
      apply returns_bind, returns_choice; [discriminate |]. intros pl g3 Hpl.
      apply returns_bind, returns_randint; [lia |]. intros c g4 _.
      apply returns_bind, returns_randint; [lia |]. intros sh g5 Hsh.
      apply returns_bind, returns_randint; [lia |]. intros du g6 Hdu.
      apply returns_bind, returns_plus_hours; [exact Hd | lia |]. intros st.
      apply returns_bind, returns_plus_hours; [exact Hd | lia |]. intros en.
      apply returns_ret. cbn [fst snd].
      split; [apply numbered_snoc; [exact Hnum | reflexivity] |].
      split; [rewrite map_app, Harea; reflexivity |].
      apply Forall_app. split; [exact Hisr |].
      constructor; [| constructor]. cbn [msn_type].
      destruct Hpl as [<- | [<- | [<- | [<- | []]]]]; reflexivity. }
  cbn [app]. intros [isr num] g3 [Hnum [Harea Hisr]].
  cbn [fst snd] in Hnum, Harea, Hisr.
  let l := eval compute in (firstn 2 MISSION_TYPES_SUPPORT) in
  change (firstn 2 MISSION_TYPES_SUPPORT) with l.
  apply returns_bind. cbn [for_fold].
  apply returns_bind. unfold support_mission at 1.
  apply returns_bind, returns_randint; [lia |].
  intros c1 g4 _. apply returns_ret.
  apply returns_bind. unfold support_mission at 1.
  apply returns_bind, returns_randint; [lia |].
  intros c2 g5 _. apply returns_ret. apply returns_ret.
  cbn [plat_callsign plat_acft plat_unit plat_type].
  match goal with
  | |- context [app (app isr [?a]) [?b]] => set (m1 := a); set (m2 := b)
  end.
  assert (numbered (app (app isr [m1]) [m2]) (num + 1 + 1)) as Hnum2
    by (apply numbered_snoc; [apply numbered_snoc; [exact Hnum |] |];
        reflexivity).
  assert (4 <= len isr <= 7) as Hcount.
  { rewrite <- (length_map target_area), Harea, pick_length by exact Hlt.
    rewrite Hlen. cbn [ISR_AREAS List.length]. lia. }
  assert (NoDup (map target_area isr)) as Hdistinct.
  { rewrite Harea, <- (map_id (pick ISR_AREAS ps)).
    apply pick_keys_NoDup; [rewrite map_id; apply ISR_AREAS_NoDup | |];
      assumption. }
  assert (incl (map target_area isr) ISR_AREAS) as Hincl
    by (rewrite Harea; intros x Hx; eapply pick_In, Hx).
  destruct (3 <=? p) eqn:Ephase.
  - apply returns_bind, returns_choice; [discriminate |]. intros ex g6 Hex.
    apply returns_bind, returns_randint; [lia |]. intros c3 g7 _.
    apply returns_bind, returns_choice; [discriminate |]. intros ar g8 Har.
    apply returns_bind, returns_randint; [lia |]. intros h g9 Hh.
    apply returns_bind, returns_plus_hours; [exact Hd | lia |]. intros t.
    apply returns_ret. apply HQ.
    match goal with
    | |- missions_ok _ (app _ [?c]) => set (m3 := c)
    end.
    exists isr, [m1; m2], [m3]. rewrite Ephase.
    split; [rewrite <- !app_assoc; reflexivity |].
    split; [exact Hcount |]. split; [exact Hisr |].
    split; [exact Hdistinct |]. split; [exact Hincl |].
    split; [reflexivity |].
    split.
    + exists m3. split; [reflexivity |]. split; [| exact Har].
      subst m3. cbn [msn_type].
      destruct Hex as [<- | [<- | []]]; [left | right]; reflexivity.
    + apply (numbered_snoc _ _ m3 Hnum2). reflexivity.
  - apply returns_ret. apply HQ.
    exists isr, [m1; m2], []. rewrite Ephase.
    split; [rewrite <- !app_assoc; reflexivity |].
    split; [exact Hcount |]. split; [exact Hisr |].
    split; [exact Hdistinct |]. split; [exact Hincl |].
    split; [reflexivity |].
    split; [reflexivity |].
    apply Hnum2.
Qed.

(** The construction, followed for what it selects and tasks. *)
Lemma DailyState_init_detail (d : Z) (g : rng) :
  FIRST_STATE_DAY <= d <= LAST_STATE_DAY ->
  returns (DailyState_init d)
          (fun st _ => sampled (events_in_window d) (events st)
                       /\ missions_ok (get_phase d) (ato_missions st)) g.
Proof.
  intro Hd. unfold DailyState_init.
  apply returns_bind.
  eapply returns_lift; [apply day_date_some; lia |].
  apply returns_bind, returns_plus_hours; [exact Hd | lia |]. intro end_date.
  destruct (get_phase_info_some d) as [info Hinfo].
  apply returns_bind. eapply returns_lift; [exact Hinfo |].
  apply returns_bind, returns_randint; [lia |]. intros r1 g1 Hr1.
  apply returns_bind, returns_randint; [lia |]. intros r2 g2 Hr2.
  apply returns_bind, returns_randint; [lia |]. intros r3 g3 Hr3.
  apply returns_bind, returns_randint; [lia |]. intros r4 g4 Hr4.
  apply returns_bind, returns_randint; [lia |]. intros r5 g5 Hr5.
  apply returns_bind, returns_randint; [lia |]. intros r6 g6 Hr6.
  apply returns_bind.
  apply (returns_mono _ (fun evs _ => sampled (events_in_window d) evs)).
  { unfold sampled. destruct (events_in_window d) as [| e es] eqn:Eev.
    - apply returns_ret. exists [].
      split; [reflexivity |]. split; [constructor |].
      split; [constructor |]. split; [reflexivity |].
      intro H. exfalso. apply H. reflexivity.
    - apply returns_bind, returns_randint; [lia |]. intros k g7 Hk.
      apply returns_sample; [cbn [List.length]; lia |].
      intros ps g' Hlen Hnd Hlt. exists ps.
      split; [reflexivity |]. split; [exact Hnd |]. split; [exact Hlt |].
      split; [discriminate |]. intros _. rewrite Hlen.
      cbn [List.length]. lia. }
  intros evs g7 Hev.
  apply returns_bind, returns_seed.
  apply returns_bind.
  apply (returns_mono _ (fun _ _ => True)).
  { destruct (0 <? neutralized_count d) eqn:Ecount.
    - apply returns_bind, returns_sample_exact.
      + apply Z.ltb_lt in Ecount. pose proof (neutralized_count_le d). lia.
      + exact I.
    - exact I. }
  intros ids g8 _.
  apply returns_bind, returns_shuffle_exact.
  apply returns_bind, returns_randint; [lia |]. intros r7 g9 Hr7.
  apply returns_bind, returns_missions_detail; [exact Hd |].
  intros ms g10 Hms.
  apply returns_bind, returns_randint; [lia |]. intros r8 g11 Hr8.
  apply returns_bind, returns_randint; [lia |]. intros r9 g12 Hr9.
  apply returns_bind, returns_seed.
  apply returns_ret. cbn [events ato_missions]. split; assumption.
Qed.

Lemma DailyState_init_described (d : Z) (g : rng) :
  FIRST_STATE_DAY <= d <= LAST_STATE_DAY ->
  exists st,
    DailyState_init d g = Ok st (seed 42)
    /\ DailyState_ok d st
    /\ sampled (events_in_window d) (events st)
    /\ missions_ok (get_phase d) (ato_missions st).
Proof.
  intro Hd. destruct (DailyState_init_ok d g Hd) as [st [E Hok]].
  destruct (returns_ok _ _ _ (DailyState_init_detail d g Hd))
    as [st' [g' [E' [Hev Hms]]]].
  rewrite E in E'. injection E' as <- _.
  exists st. split; [exact E |]. split; [exact Hok |]. split; assumption.
Qed.

(** X9. The events of a day are drawn from the pool entries whose window
    contains the day: at most three, none twice, and none at all exactly
    on the days without an open window (day 0 and the days after 350).
    The texts are those of the events, in the same order. *)
Theorem events_of_the_day (d : Z) (g : rng) :
  FIRST_STATE_DAY <= d <= LAST_STATE_DAY ->
  exists st,
    DailyState_init d g = Ok st (seed 42)
    /\ (forall e, In e (events st) ->
                  In e EVENTS_POOL /\ ev_min e <= d <= ev_max e)
    /\ NoDup (map ev_text (events st))
    /\ len (events st) <= 3
    /\ (events st = [] <-> d < 1 \/ 350 < d)
    /\ event_texts st = map ev_text (events st).
Proof.
  intro Hd.
  destruct (DailyState_init_described d g Hd) as [st [E [Hok [Hev _]]]].
  exists st. split; [exact E |].
  destruct Hev as [ps [Hevs [Hnd [Hlt [Hnone Hsome]]]]].
  assert (List.length (events st) = List.length ps) as Hlen
    by (rewrite Hevs; apply pick_length, Hlt).
  split.
  { intros e He. apply events_in_window_In. rewrite Hevs in He.
    eapply pick_In, He. }
  split.
  { rewrite Hevs.
    apply pick_keys_NoDup;
      [apply events_in_window_texts_NoDup | exact Hnd | exact Hlt]. }
  split.
  { rewrite Hlen. destruct (events_in_window d) as [| e es] eqn:Ew.
    - rewrite Hnone by reflexivity. cbn [List.length]. lia.
    - apply Hsome. discriminate. }
  split; [| exact (ok_texts _ _ Hok)].
  rewrite <- events_in_window_empty. split.
  - intro Hnil. destruct (events_in_window d) as [| e es] eqn:Ew;
      [reflexivity |].
    exfalso. rewrite Hnil in Hlen. cbn [List.length] in Hlen.
    assert (1 <= len ps <= 3) by (apply Hsome; discriminate). lia.
  - intro Hw. rewrite Hevs, (Hnone Hw). reflexivity.
Qed.

(** X10. The missions of a day: four to seven ISR missions over distinct
    areas, then the MEDEVAC and the AIRLIFT mission, then in phases 3 and
    4 one infiltration or assault support mission; they carry the labels
    ATO-001, ATO-002, ... in order. *)
Theorem missions_of_the_day (d : Z) (g : rng) :
  FIRST_STATE_DAY <= d <= LAST_STATE_DAY ->
  exists st isr sup extra,
    DailyState_init d g = Ok st (seed 42)
    /\ ato_missions st = app isr (app sup extra)
    /\ 4 <= len isr <= 7
    /\ Forall (fun m => msn_type m = "ISR") isr
    /\ NoDup (map target_area isr)
    /\ incl (map target_area isr) ISR_AREAS
    /\ map msn_type sup = ["MEDEVAC"; "AIRLIFT"]
    /\ (if 3 <=? get_phase d
        then exists m, extra = [m]
                       /\ (msn_type m = "INFILTRATION"
                           \/ msn_type m = "ASSAULT SUPPORT")
                       /\ In (target_area m) (firstn 3 ISR_AREAS)
        else extra = [])
    /\ map msn_num (ato_missions st)
       = msn_labels (List.length (ato_missions st))
    /\ 6 <= len (ato_missions st) <= 10.
Proof.
  intro Hd.
  destruct (DailyState_init_described d g Hd) as [st [E [_ [_ Hms]]]].
  destruct Hms as [isr [sup [extra [H1 [H2 [H3 [H4 [H5 [H6 [H7 H8]]]]]]]]]].
  exists st, isr, sup, extra.
  do 9 (split; [assumption |]).
  rewrite H1, !length_app.
  assert (List.length sup = 2%nat) as Hsup
    by (rewrite <- (length_map msn_type), H6; reflexivity).
  assert (List.length extra <= 1)%nat as Hextra.
  { destruct (3 <=? get_phase d).
    - destruct H7 as [m [-> _]]. apply le_n.
    - rewrite H7. cbn [List.length]. lia. }
  lia.
Qed.

End DailyStateDetail.

Section ConcreteDetail.

#[local] Existing Instance Lcg.lcg.

Lemma events_of_the_day_witness :
  (FIRST_STATE_DAY <= 12 <= LAST_STATE_DAY)
  /\ exists st,
       DailyState_init 12 7 = Ok st (seed 42)
       /\ (forall e, In e (events st) ->
                     In e EVENTS_POOL /\ ev_min e <= 12 <= ev_max e)
       /\ NoDup (map ev_text (events st))
       /\ len (events st) <= 3
       /\ (events st = [] <-> 12 < 1 \/ 350 < 12)
       /\ event_texts st = map ev_text (events st).
Proof.
  assert (FIRST_STATE_DAY <= 12 <= LAST_STATE_DAY) as H
    by (rewrite FIRST_STATE_DAY_value, LAST_STATE_DAY_value; lia).
  split; [exact H | apply (@events_of_the_day Lcg.lcg 12 7 H)].
Defined.

Lemma missions_of_the_day_witness :
  (FIRST_STATE_DAY <= 130 <= LAST_STATE_DAY)
  /\ exists st isr sup extra,
       DailyState_init 130 7 = Ok st (seed 42)
       /\ ato_missions st = app isr (app sup extra)
       /\ 4 <= len isr <= 7
       /\ Forall (fun m => msn_type m = "ISR") isr
       /\ NoDup (map target_area isr)
       /\ incl (map target_area isr) ISR_AREAS
       /\ map msn_type sup = ["MEDEVAC"; "AIRLIFT"]
       /\ (if 3 <=? get_phase 130
           then exists m, extra = [m]
                          /\ (msn_type m = "INFILTRATION"
                              \/ msn_type m = "ASSAULT SUPPORT")
                          /\ In (target_area m) (firstn 3 ISR_AREAS)
           else extra = [])
       /\ map msn_num (ato_missions st)
          = msn_labels (List.length (ato_missions st))
       /\ 6 <= len (ato_missions st) <= 10.
Proof.
  assert (FIRST_STATE_DAY <= 130 <= LAST_STATE_DAY) as H
    by (rewrite FIRST_STATE_DAY_value, LAST_STATE_DAY_value; lia).
  split; [exact H | apply (@missions_of_the_day Lcg.lcg 130 7 H)].
Defined.

End ConcreteDetail.

(* ====================================================================== *)
(** * The tables of the JIPTL and of the ACO *)
(* ====================================================================== *)

(** The labels [ACM-01], [ACM-02], ... and the control measure at
    position [sel] of the lists of [generate_aco]. *)
Definition acm_type_of (sel : nat) : string :=
  nth (sel mod List.length acm_types) acm_types "".

Lemma fscm_rows_length (fds : list (string * string * string * string)) :
  forall idx, List.length (fscm_rows fds idx) = List.length fds.
Proof.
  induction fds as [| [[[t name] loc] eff] fds IH]; intro idx;
    [reflexivity |].
  cbn [fscm_rows List.length]. rewrite IH. reflexivity.
Qed.

Section Tables.

Context {R : PyRandom}.

(** A row of the JIPTL for target [t] at priority [pri]: the target's
    own columns, a location [jitter_mgrs] gives for its coordinates, an
    effect, a nominator and an objective from the lists, and the status.
    Above the cut an INFO OPS target gets the non-lethal effect and any
    other target one of the first four effects; below the cut the effect
    is any of the six. *)
Definition jiptl_row_ok (above : bool) (pri : Z) (t : Target)
    (row : list string) : Prop :=
  exists loc eff nom obj,
    row = [ str_of_int pri; tgt_id t; tgt_name t; tgt_cat t; loc; eff;
            tgt_cde t; nom; obj;
            if above then "NOMINATED" else "BELOW CUT" ]
    /\ (exists g g', jitter_mgrs (tgt_mgrs t) g = Ok loc g')
    /\ In eff (if above
               then if String.eqb (tgt_cat t) "INFO OPS"
                    then ["DISRUPT (NON-LETHAL)"]
                    else firstn 4 effects
               else effects)
    /\ In nom nominators
    /\ In obj objectives.

(** Rows for the targets [ts], in order, with priorities from [pri]. *)
Fixpoint jiptl_rows_ok (above : bool) (pri : Z) (ts : list Target)
    (rows : list (list string)) : Prop :=
  match ts, rows with
  | [], [] => True
  | t :: ts', row :: rows' =>
      jiptl_row_ok above pri t row /\ jiptl_rows_ok above (pri + 1) ts' rows'
  | _, _ => False
  end.

Lemma returns_jitter_of (s : string) (Q : string -> rng -> Prop) (g : rng) :
  (forall out g', (exists g0 g1, jitter_mgrs s g0 = Ok out g1) -> Q out g') ->
  returns (jitter_mgrs s) Q g.
Proof.
  intro H. destruct (jitter_mgrs_returns s g) as [out [g' [E _]]].
  eapply ok_returns; [exact E |]. apply H. exists g, g'. exact E.
Qed.

Lemma jiptl_rows_return (above : bool) :
  forall (ts : list Target) (rows : list (list string)) (pri : Z) (g : rng),
    returns (for_fold ts (rows, pri)
               (if above then jiptl_above_row else jiptl_below_row))
      (fun acc _ =>
         exists new, fst acc = app rows new
                     /\ jiptl_rows_ok above pri ts new) g.
Proof.
  induction ts as [| t ts IH]; intros rows pri g.
  - apply returns_ret. exists []. cbn [fst]. rewrite app_nil_r.
    split; [reflexivity | exact I].
  - cbn [for_fold]. apply returns_bind.
    apply (returns_mono _
             (fun acc _ => exists row, acc = (app rows [row], pri + 1)
                                       /\ jiptl_row_ok above pri t row)).
    + destruct above; [unfold jiptl_above_row | unfold jiptl_below_row].
      * apply returns_bind, returns_jitter_of. intros loc g1 Hloc.
        apply returns_bind.
        apply (returns_mono _
                 (fun eff _ =>
                    In eff (if String.eqb (tgt_cat t) "INFO OPS"
                            then ["DISRUPT (NON-LETHAL)"]
                            else firstn 4 effects))).
        { destruct (String.eqb (tgt_cat t) "INFO OPS"); cbn [negb].
          - apply returns_ret. left. reflexivity.
          - apply returns_choice; [discriminate |].
            intros eff g2 Heff. exact Heff. }
        intros eff g2 Heff.
        apply returns_bind, returns_choice; [discriminate |].
        intros nom g3 Hnom.
        apply returns_bind, returns_choice; [discriminate |].
        intros obj g4 Hobj.
        apply returns_ret. eexists. split; [reflexivity |].
        exists loc, eff, nom, obj. repeat split; assumption.
      * apply returns_bind, returns_jitter_of. intros loc g1 Hloc.
        apply returns_bind, returns_choice; [discriminate |].
        intros eff g2 Heff.
        apply returns_bind, returns_choice; [discriminate |].
        intros nom g3 Hnom.
        apply returns_bind, returns_choice; [discriminate |].
        intros obj g4 Hobj.
        apply returns_ret. eexists. split; [reflexivity |].
        exists loc, eff, nom, obj. repeat split; assumption.
    + intros acc g1 [row [-> Hrow]].
      eapply returns_mono; [apply IH |].
      intros acc' g2 [new [Hacc Hnew]].
      exists (row :: new). split.
      * rewrite Hacc, <- app_assoc. reflexivity.
      * cbn [jiptl_rows_ok]. split; assumption.
Qed.

(** X11. The table of the JIPTL, whatever the state and the generator: one
    row for each target above the cut, in order, with priorities 1, 2,
    ...; then, only if some target is below the cut, the cut line and one
    row for each target below it, the priorities running on.  The
    generator is left freshly seeded with 42. *)
Theorem jiptl_table (st : DailyState) (g : rng) :
  exists ra rb,
    jiptl_body st g
    = Ok ([], [ app ra (match jiptl_below_cut st with
                        | [] => []
                        | _ => ["--- CUT LINE ---"] :: rb
                        end) ])
         (seed 42)
    /\ jiptl_rows_ok true 1 (jiptl_above_cut st) ra
    /\ jiptl_rows_ok false (len (jiptl_above_cut st) + 1)
                     (jiptl_below_cut st) rb.
Proof.
  assert (returns (jiptl_body st)
            (fun b g' =>
               g' = seed 42
               /\ exists ra rb,
                    b = ([], [ app ra (match jiptl_below_cut st with
                                       | [] => []
                                       | _ => ["--- CUT LINE ---"] :: rb
                                       end) ])
                    /\ jiptl_rows_ok true 1 (jiptl_above_cut st) ra
                    /\ jiptl_rows_ok false (len (jiptl_above_cut st) + 1)
                                     (jiptl_below_cut st) rb) g) as H.
  { unfold jiptl_body.
    apply returns_bind, returns_seed.
    apply returns_bind.
    eapply returns_mono; [apply (jiptl_rows_return true) |].
    intros [rows pri] g1 [ra [Hra Hok]]. cbn [fst app] in Hra. subst rows.
    apply returns_bind.
    destruct (jiptl_below_cut st) as [| t ts] eqn:Ebelow.
    - apply returns_ret. apply returns_bind, returns_seed.
      apply returns_ret. split; [reflexivity |].
      exists ra, []. rewrite app_nil_r.
      split; [reflexivity |]. split; [exact Hok | exact I].
    - apply returns_bind.
      eapply returns_mono; [apply (jiptl_rows_return false) |].
      intros [rows2 pri2] g2 [rb [Hrb Hokb]]. cbn [fst] in Hrb. subst rows2.
      apply returns_ret. apply returns_bind, returns_seed.
      apply returns_ret. split; [reflexivity |].
      exists ra, rb. cbn [fst]. rewrite <- app_assoc.
      split; [reflexivity |]. split; assumption. }
  destruct (returns_ok _ _ _ H) as [b [g' [E [-> [ra [rb [-> Hrows]]]]]]].
  exists ra, rb. split; [exact E | exact Hrows].
Qed.

(** A row of the first table of the ACO for the measure at position
    [sel], numbered [idx]: its type cycles through the four types, it is
    effective for the day's window unless it is an ACA, and it is
    controlled by the JTF JOC unless it is a UA, whose controller is
    drawn. *)
Definition acm_row_ok (st : DailyState) (idx : Z) (sel : nat)
    (row : list string) : Prop :=
  exists ctrl,
    row = [ "ACM-" ++ fmt_0d 2 idx; acm_type_of sel;
            nth sel acm_names ""; fst (nth sel acm_bases ("", ""));
            snd (nth sel acm_bases ("", ""));
            if String.eqb (acm_type_of sel) "ACA"
            then "CONTINUOUS" else eff_dtg st ++ "-" ++ end_dtg st;
            ctrl ]
    /\ (if String.eqb (acm_type_of sel) "UA"
        then In ctrl ["SOTF-C"; "SOTF-K"; "SOTF-B"; "CATF"]
        else ctrl = "JTF JOC").

Fixpoint acm_rows_ok (st : DailyState) (idx : Z) (sels : list nat)
    (rows : list (list string)) : Prop :=
  match sels, rows with
  | [], [] => True
  | sel :: sels', row :: rows' =>
      acm_row_ok st idx sel row /\ acm_rows_ok st (idx + 1) sels' rows'
  | _, _ => False
  end.

Lemma acm_rows_length (st : DailyState) :
  forall sels rows idx,
    acm_rows_ok st idx sels rows -> List.length rows = List.length sels.
Proof.
  induction sels as [| sel sels IH]; intros [| row rows] idx H;
    try contradiction; [reflexivity |].
  cbn [acm_rows_ok] in H. destruct H as [_ H].
  cbn [List.length]. f_equal. eapply IH, H.
Qed.

Lemma acm_rows_return (st : DailyState) :
  forall (sels : list nat) (rows : list (list string)) (idx : Z) (g : rng),
    Forall (fun sel => (sel < List.length acm_names)%nat) sels ->
    returns (for_fold sels (rows, idx) (acm_row st))
      (fun acc _ =>
         exists new, fst acc = app rows new
                     /\ acm_rows_ok st idx sels new) g.
Proof.
  induction sels as [| sel sels IH]; intros rows idx g Hsels.
  - apply returns_ret. exists []. cbn [fst]. rewrite app_nil_r.
    split; [reflexivity | exact I].
  - apply Forall_cons_iff in Hsels. destruct Hsels as [Hsel Hsels].
    cbn [acm_names List.length] in Hsel.
    cbn [for_fold]. apply returns_bind.
    apply (returns_mono _
             (fun acc _ => exists row, acc = (app rows [row], idx + 1)
                                       /\ acm_row_ok st idx sel row)).
    + unfold acm_row.
      apply returns_bind, returns_list_get.
      { cbn [acm_types List.length]. apply Nat.mod_upper_bound. discriminate. }
      intros ty Hty.
      apply returns_bind, returns_list_get;
        [cbn [acm_names List.length]; lia |]. intros name Hname.
      apply returns_bind, returns_list_get;
        [cbn [acm_bases List.length]; lia |]. intros base Hbase.
      apply (nth_error_nth _ _ "") in Hty. fold (acm_type_of sel) in Hty.
      apply (nth_error_nth _ _ "") in Hname.
      apply (nth_error_nth _ _ ("", "")) in Hbase.
      subst ty name base.
      assert (In (acm_type_of sel) acm_types) as Hin.
      { unfold acm_type_of. apply nth_In.
        apply Nat.mod_upper_bound. discriminate. }
      apply returns_bind.
      apply (returns_mono _
               (fun ctrl _ =>
                  if String.eqb (acm_type_of sel) "UA"
                  then In ctrl ["SOTF-C"; "SOTF-K"; "SOTF-B"; "CATF"]
                  else ctrl = "JTF JOC")).
      { destruct Hin as [<- | [<- | [<- | [<- | []]]]]; cbn.
        - apply returns_ret. reflexivity.
        - apply returns_choice; [discriminate |]. intros c g1 Hc. exact Hc.
        - apply returns_ret. reflexivity.
        - apply returns_ret. reflexivity. }
      intros ctrl g1 Hctrl. apply returns_ret.
      eexists. split; [reflexivity |]. exists ctrl. split; [| exact Hctrl].
      destruct Hin as [<- | [<- | [<- | [<- | []]]]]; reflexivity.
    + intros acc g1 [row [-> Hrow]].
      eapply returns_mono; [apply IH, Hsels |].
      intros acc' g2 [new [Hacc Hnew]].
      exists (row :: new). split.
      * rewrite Hacc, <- app_assoc. reflexivity.
      * cbn [acm_rows_ok]. split; assumption.
Qed.

(** X12. The two tables of the ACO of a day, from any generator state: as
    many airspace control measures as the state's [acm_count], at
    distinct positions of the list, numbered ACM-01, ACM-02, ...; and the
    first [fscm_count] fire support coordination measures.  The
    generator is left freshly seeded with 42. *)
Theorem aco_tables (d : Z) (g g' : rng) :
  0 <= d <= LAST_STATE_DAY ->
  exists st sels t1 t2,
    DailyState_init d g = Ok st (seed 42)
    /\ aco_body st g' = Ok ([], [t1; t2]) (seed 42)
    /\ NoDup sels
    /\ Forall (fun sel => (sel < List.length acm_names)%nat) sels
    /\ acm_rows_ok st 1 sels t1
    /\ len t1 = acm_count st
    /\ t2 = fscm_rows (firstn (Z.to_nat (fscm_count st)) fscm_data) 0
    /\ len t2 = fscm_count st.
Proof.
  intro Hd. destruct (DailyState_init_ok d g) as [st [E Hok]].
  { rewrite FIRST_STATE_DAY_value. lia. }
  pose proof (ok_acm _ _ Hok) as Hacm.
  pose proof (ok_fscm _ _ Hok) as Hfscm.
  assert (returns (aco_body st)
            (fun b g1 =>
               g1 = seed 42
               /\ exists sels t1,
                    b = ([], [t1; fscm_rows
                                    (firstn (Z.to_nat (fscm_count st))
                                            fscm_data) 0])
                    /\ NoDup sels
                    /\ Forall (fun sel => (sel < List.length acm_names)%nat)
                              sels
                    /\ acm_rows_ok st 1 sels t1
                    /\ len sels = acm_count st) g') as H.
  { unfold aco_body.
    apply returns_bind, returns_seed.
    apply returns_bind, returns_sample.
    { cbn [acm_names List.length]. rewrite length_seq. lia. }
    intros ps g1 Hlen Hnd Hlt.
    assert (Forall (fun sel => (sel < List.length acm_names)%nat)
                   (pick (seq 0 (List.length acm_names)) ps)) as Hsels.
    { apply Forall_forall. intros sel Hsel. apply pick_In, in_seq in Hsel.
      lia. }
    apply returns_bind.
    eapply returns_mono; [apply acm_rows_return, Hsels |].
    intros [rows idx] g2 [t1 [Hrows Hok1]]. cbn [fst app] in Hrows.
    subst rows.
    apply returns_bind, returns_seed. apply returns_ret.
    split; [reflexivity |].
    exists (pick (seq 0 (List.length acm_names)) ps), t1.
    cbn [fst].
    replace (Z.min (fscm_count st) (len fscm_data)) with (fscm_count st)
      by (cbn [fscm_data List.length]; lia).
    split; [reflexivity |].
    split.
    { rewrite <- (map_id (pick _ ps)).
      apply pick_keys_NoDup; [rewrite map_id; apply seq_NoDup | |];
        assumption. }
    split; [exact Hsels |]. split; [exact Hok1 |].
    rewrite pick_length by exact Hlt. rewrite Hlen.
    cbn [acm_names List.length]. lia. }
  destruct (returns_ok _ _ _ H)
    as [b [g1 [Eb [-> [sels [t1 [-> [Hnd [Hsels [Hrows Hlen]]]]]]]]]].
  exists st, sels, t1,
    (fscm_rows (firstn (Z.to_nat (fscm_count st)) fscm_data) 0).
  split; [exact E |]. split; [exact Eb |].
  split; [exact Hnd |]. split; [exact Hsels |]. split; [exact Hrows |].
  split; [rewrite (acm_rows_length _ _ _ _ Hrows); exact Hlen |].
  split; [reflexivity |].
  rewrite fscm_rows_length, length_firstn.
  cbn [fscm_data List.length]. lia.
Qed.

(** X13. The closing line of a CCIR and of a PIR names the review date three
    days ahead.  That date exists up to [LAST_RUN_DAY]; on the two later
    days whose state can still be built, both builders raise
    [OverflowError] and leave the generator as it was. *)
Theorem review_date_three_days_ahead (d : Z) (g g' : rng) :
  FIRST_STATE_DAY <= d <= LAST_STATE_DAY ->
  exists st,
    DailyState_init d g = Ok st (seed 42)
    /\ (d <= LAST_RUN_DAY ->
        ccir_body st g'
        = Ok (["Next CCIR review: " ++ mil_dtg (date_of_day (d + 3))], []) g'
        /\ pir_body st g'
           = Ok (["Next PIR review: " ++ mil_dtg (date_of_day (d + 3))], [])
                g')
    /\ (LAST_RUN_DAY < d ->
        ccir_body st g' = Raise OverflowError g'
        /\ pir_body st g' = Raise OverflowError g').
Proof.
  intro Hd. destruct (DailyState_init_ok d g Hd) as [st [E Hok]].
  exists st. split; [exact E |].
  pose proof (ok_date _ _ Hok) as Hdate.
  revert Hd. rewrite FIRST_STATE_DAY_value, LAST_STATE_DAY_value,
    LAST_RUN_DAY_value. intro Hd.
  assert (timedelta 3 0 = Some ((3 * 24 + 0) * 60)) as Edelta by reflexivity.
  assert (d <= 2912420 ->
          datetime_add (date_of_day d) ((3 * 24 + 0) * 60)
          = Some (date_of_day (d + 3))) as Enext.
  { intro Hrun. apply datetime_add_days.
    rewrite FIRST_STATE_DAY_value, LAST_STATE_DAY_value. lia. }
  assert (2912420 < d ->
          datetime_add (date_of_day d) ((3 * 24 + 0) * 60) = None) as Enone.
  { intro Hrun. rewrite (date_of_day_plus d _ 3 0) by lia.
    rewrite ltb_true by lia.
    destruct (Z.leb_spec (739636 + d + 3) 3652059) as [Hle | _]; [lia |].
    reflexivity. }
  split; intro Hrun; split.
  - unfold ccir_body. change CCIR_INTERVAL with 3. unfold bind, lift.
    rewrite Edelta. unfold ret at 1. rewrite Hdate, (Enext Hrun).
    reflexivity.
  - unfold pir_body. change PIR_INTERVAL with 3. unfold bind, lift.
    rewrite Edelta. unfold ret at 1. rewrite Hdate, (Enext Hrun).
    reflexivity.
  - unfold ccir_body. change CCIR_INTERVAL with 3. unfold bind, lift.
    rewrite Edelta. unfold ret at 1. rewrite Hdate, (Enone Hrun).
    reflexivity.
  - unfold pir_body. change PIR_INTERVAL with 3. unfold bind, lift.
    rewrite Edelta. unfold ret at 1. rewrite Hdate, (Enone Hrun).
    reflexivity.
Qed.

End Tables.

Section ConcreteTables.

#[local] Existing Instance Lcg.lcg.

Lemma aco_tables_witness :
  (0 <= 10 <= LAST_STATE_DAY)
  /\ exists st sels t1 t2,
       DailyState_init 10 7 = Ok st (seed 42)
       /\ aco_body st 9 = Ok ([], [t1; t2]) (seed 42)
       /\ NoDup sels
       /\ Forall (fun sel => (sel < List.length acm_names)%nat) sels
       /\ acm_rows_ok st 1 sels t1
       /\ len t1 = acm_count st
       /\ t2 = fscm_rows (firstn (Z.to_nat (fscm_count st)) fscm_data) 0
       /\ len t2 = fscm_count st.
Proof.
  assert (0 <= 10 <= LAST_STATE_DAY) as H
    by (rewrite LAST_STATE_DAY_value; lia).
  split; [exact H | apply (@aco_tables Lcg.lcg 10 7 9 H)].
Defined.

Lemma review_date_three_days_ahead_witness :
  (FIRST_STATE_DAY <= 6 <= LAST_STATE_DAY)
  /\ exists st,
       DailyState_init 6 7 = Ok st (seed 42)
       /\ (6 <= LAST_RUN_DAY ->
           ccir_body st 9
           = Ok (["Next CCIR review: " ++ mil_dtg (date_of_day (6 + 3))], [])
                9
           /\ pir_body st 9
              = Ok (["Next PIR review: " ++ mil_dtg (date_of_day (6 + 3))],
                    []) 9)
       /\ (LAST_RUN_DAY < 6 ->
           ccir_body st 9 = Raise OverflowError 9
           /\ pir_body st 9 = Raise OverflowError 9).
Proof.
  assert (FIRST_STATE_DAY <= 6 <= LAST_STATE_DAY) as H
    by (rewrite FIRST_STATE_DAY_value, LAST_STATE_DAY_value; lia).
  split; [exact H | apply (@review_date_three_days_ahead Lcg.lcg 6 7 9 H)].
Defined.

End ConcreteTables.

(* ====================================================================== *)
(** * The orchestrator: serial numbers and file names *)
(* ====================================================================== *)

Definition b2z (b : bool) : Z := if b then 1 else 0.

(** [current_phase != last_phase] on day [d] with the counters [c]. *)
Definition phase_changed (c : Counters) (d : Z) : bool :=
  negb (get_phase d =? last_phase c).

(** The counters [run] holds after the iteration for day [d]. *)
Definition next_counters (c : Counters) (d : Z) : Counters :=
  let changed := phase_changed c d in
  mkCounters
    (frago_counter c + 1)
    (ccir_counter c + b2z ((d mod CCIR_INTERVAL =? 0) || changed))
    (pir_counter c + b2z ((d mod PIR_INTERVAL =? 0) || changed))
    (roe_version c + b2z changed)
    (get_phase d)
    (total_docs c + len (kinds_of_day changed d)).

(** The serial number a generator of kind [k] is called with when the
    counters, already advanced, are [c]. *)
Definition number_of (c : Counters) (k : DocKind) : option Z :=
  match k with
  | FRAGO => Some (frago_counter c)
  | ROE => Some (roe_version c)
  | CCIR => Some (ccir_counter c)
  | PIR => Some (pir_counter c)
  | OPORD | ATO | ACO | JIPTL => None
  end.

(** Kind, day and serial number of a saved document. *)
Definition entry_of (doc : Doc) : DocKind * Z * option Z :=
  (doc_kind doc, day (doc_state doc), doc_number doc).

Definition day_entries (c : Counters) (d : Z) : list (DocKind * Z * option Z) :=
  map (fun k => (k, d, number_of (next_counters c d) k))
      (kinds_of_day (phase_changed c d) d).

(** The entries of the documents saved over the days [ds], starting
    from the counters [c]. *)
Fixpoint ledger (ds : list Z) (c : Counters) : list (DocKind * Z * option Z) :=
  match ds with
  | [] => []
  | d :: rest => app (day_entries c d) (ledger rest (next_counters c d))
  end.

(** The key of [dirs] each generator is given. *)
Definition dir_name (k : DocKind) : string :=
  match k with
  | OPORD => "OPORD" | FRAGO => "FRAGO" | ATO => "ATO" | ROE => "ROE"
  | ACO => "ACO" | CCIR => "CCIR" | PIR => "PIR" | JIPTL => "JIPTL"
  end.

(** The file name each generator composes. *)
Definition file_name (doc : Doc) : string :=
  let st := doc_state doc in
  let num := match doc_number doc with Some n => n | None => 0 end in
  match doc_kind doc with
  | OPORD => "OPORD_" ++ fmt_0d 3 (phase st) ++ "-26_Phase_"
             ++ phase_label st ++ "_" ++ replace_space (phase_name st)
             ++ ".docx"
  | FRAGO => "FRAGO_" ++ fmt_0d 4 num ++ "-26_Day_"
             ++ fmt_0d 3 (day st + 1) ++ ".docx"
  | ATO => "ATO_" ++ fmt_0d 3 (day st + 1) ++ "-26_Day_"
           ++ fmt_0d 3 (day st + 1) ++ ".docx"
  | ROE => "ROE_V" ++ fmt_0d 2 num ++ "_Phase_"
           ++ phase_label st ++ "_" ++ replace_space (phase_name st)
           ++ ".docx"
  | ACO => "ACO_" ++ fmt_0d 3 (day st + 1) ++ "-26_Day_"
           ++ fmt_0d 3 (day st + 1) ++ ".docx"
  | CCIR => "CCIR_" ++ fmt_0d 3 num ++ "_Day_"
            ++ fmt_0d 3 (day st + 1) ++ ".docx"
  | PIR => "PIR_" ++ fmt_0d 3 num ++ "_Day_"
           ++ fmt_0d 3 (day st + 1) ++ ".docx"
  | JIPTL => "JIPTL_" ++ fmt_0d 3 (day st + 1) ++ "-26_Day_"
             ++ fmt_0d 3 (day st + 1) ++ ".docx"
  end.

(** A document saved under the directory of its kind, with the file name
    of its kind, from a state in the phase of its day. *)
Definition filed (root : string) (doc : Doc) : Prop :=
  doc_path doc = path_join (dirs root (dir_name (doc_kind doc))) (file_name doc)
  /\ phase (doc_state doc) = get_phase (day (doc_state doc)).

Section Serials.

Context {R : PyRandom}.

Ltac generator E :=
  apply returns_bind, returns_with_rng; cbn [w_rng w_dirs w_saved];
  (eapply ok_returns; [exact E |]);
  apply returns_save; cbn [w_rng w_dirs w_saved doc_path].

(** One day of [run], followed for the counters and the files. *)
Lemma run_day_files (root : string) (c : Counters) (d : Z) (w : World) :
  0 <= d <= LAST_RUN_DAY -> w_rng w = seed 42 ->
  returns (run_day root c d)
    (fun c' w' =>
       c' = next_counters c d
       /\ w_rng w' = seed 42 /\ w_dirs w' = w_dirs w
       /\ exists docs,
            w_saved w' = app (w_saved w) docs
            /\ map entry_of docs = day_entries c d
            /\ Forall (filed root) docs) w.
Proof.
  intros Hd Hrng.
  assert (FIRST_STATE_DAY <= d <= LAST_STATE_DAY) as Hstate
    by (revert Hd; rewrite FIRST_STATE_DAY_value, LAST_STATE_DAY_value,
          LAST_RUN_DAY_value; lia).
  assert (FIRST_STATE_DAY <= d <= LAST_RUN_DAY) as Hrun
    by (rewrite FIRST_STATE_DAY_value; lia).
  destruct (DailyState_init_ok d (seed 42) Hstate) as [st [E Hok]].
  pose proof (ok_day _ _ Hok) as Hday.
  pose proof (ok_phase _ _ Hok) as Hphase.
  assert (forall g : rng, opord_body st g = Ok ([], []) g) as Eopord
    by reflexivity.
  assert (forall g : rng, roe_body st g = Ok ([], []) g) as Eroe
    by reflexivity.
  destruct (returns_ok _ _ _
              (returns_randint (-3) 3 (fun _ _ => True) (seed 42)
                 ltac:(lia) (fun _ _ _ => I))) as [r [g1 [Er _]]].
  assert (exists b, frago_body st (seed 42) = Ok b g1) as [bfrago Efrago].
  { eexists. unfold frago_body, bind. rewrite Er. reflexivity. }
  assert (exists b, forall g : rng, ato_body st g = Ok b g) as [bato Eato]
    by (eexists; intro; reflexivity).
  destruct (returns_ok _ _ _ (aco_body_returns st (seed 42)
              ltac:(pose proof (ok_acm _ _ Hok); lia)))
    as [baco [g2 [Eaco0 ->]]].
  assert (forall g : rng, aco_body st g = Ok baco (seed 42)) as Eaco
    by (intro g; rewrite (aco_body_any st g (seed 42)); exact Eaco0).
  destruct (returns_ok _ _ _ (jiptl_body_returns st (seed 42)))
    as [bjiptl [g3 [Ejiptl ->]]].
  destruct (ccir_body_returns st d (seed 42) (ok_date _ _ Hok) Hrun)
    as [bccir Eccir].
  destruct (pir_body_returns st d (seed 42) (ok_date _ _ Hok) Hrun)
    as [bpir Epir].
  assert (forall doc, doc_state doc = st ->
            doc_path doc
            = path_join (dirs root (dir_name (doc_kind doc))) (file_name doc) ->
            filed root doc) as Hfiled.
  { intros doc Hs Hp. split; [exact Hp |]. rewrite Hs, Hday. exact Hphase. }
  unfold run_day.
  apply returns_bind, returns_with_rng. rewrite Hrng.
  eapply ok_returns; [exact E |]. cbn [w_rng w_dirs w_saved].
  unfold day_entries, next_counters, phase_changed, kinds_of_day.
  rewrite Hphase.
  change CCIR_INTERVAL with 3. change PIR_INTERVAL with 3.
  destruct (negb (get_phase d =? last_phase c));
    [rewrite orb_true_r | rewrite orb_false_r; destruct (d mod 3 =? 0)].
  all: cbn iota;
    unfold generate_opord, generate_roe, generate_frago, generate_ato,
      generate_aco, generate_jiptl, generate_ccir, generate_pir.
  - apply returns_bind. apply returns_bind.
    generator (Eopord (seed 42)). apply returns_ret.
    apply returns_bind. apply returns_bind.
    generator (Eroe (seed 42)). apply returns_ret. cbn iota beta.
    apply returns_bind. generator Efrago.
    apply returns_bind. generator (Eato g1).
    apply returns_bind. generator (Eaco g1).
    apply returns_bind. generator Ejiptl.
    apply returns_bind. apply returns_bind.
    generator (Eccir (seed 42)). apply returns_ret. cbn iota beta.
    apply returns_bind. apply returns_bind.
    generator (Epir (seed 42)). apply returns_ret. cbn iota beta.
    apply returns_ret.
    split; [cbn [b2z app List.length]; f_equal; lia |].
    repeat (split; [reflexivity |]).
    eexists. split; [rewrite <- !app_assoc; cbn [app]; reflexivity |].
    split; [unfold entry_of, number_of, b2z;
            cbn [map app doc_kind doc_state doc_number
                 frago_counter ccir_counter pir_counter roe_version];
            rewrite Hday; reflexivity |].
    repeat (constructor; [apply Hfiled; reflexivity |]).
    constructor.
  - apply returns_bind. apply returns_ret.
    apply returns_bind. apply returns_ret. cbn iota beta.
    apply returns_bind. generator Efrago.
    apply returns_bind. generator (Eato g1).
    apply returns_bind. generator (Eaco g1).
    apply returns_bind. generator Ejiptl.
    apply returns_bind. apply returns_bind.
    generator (Eccir (seed 42)). apply returns_ret. cbn iota beta.
    apply returns_bind. apply returns_bind.
    generator (Epir (seed 42)). apply returns_ret. cbn iota beta.
    apply returns_ret.
    split; [cbn [b2z app List.length]; f_equal; lia |].
    repeat (split; [reflexivity |]).
    eexists. split; [rewrite <- !app_assoc; cbn [app]; reflexivity |].
    split; [unfold entry_of, number_of, b2z;
            cbn [map app doc_kind doc_state doc_number
                 frago_counter ccir_counter pir_counter roe_version];
            rewrite Hday; reflexivity |].
    repeat (constructor; [apply Hfiled; reflexivity |]).
    constructor.
  - apply returns_bind. apply returns_ret.
    apply returns_bind. apply returns_ret. cbn iota beta.
    apply returns_bind. generator Efrago.
    apply returns_bind. generator (Eato g1).
    apply returns_bind. generator (Eaco g1).
    apply returns_bind. generator Ejiptl.
    apply returns_bind. apply returns_ret. cbn iota beta.
    apply returns_bind. apply returns_ret. cbn iota beta.
    apply returns_ret.
    split; [cbn [b2z app List.length]; f_equal; lia |].
    repeat (split; [reflexivity |]).
    eexists. split; [rewrite <- !app_assoc; cbn [app]; reflexivity |].
    split; [unfold entry_of, number_of, b2z;
            cbn [map app doc_kind doc_state doc_number
                 frago_counter ccir_counter pir_counter roe_version];
            rewrite Hday; reflexivity |].
    repeat (constructor; [apply Hfiled; reflexivity |]).
    constructor.
Qed.

(** The loop over the days, followed for the counters and the files. *)
Lemma days_files (root : string) :
  forall (ds : list Z) (c : Counters) (w : World),
    Forall supported_day ds -> w_rng w = seed 42 ->
    returns (for_fold ds c (run_day root))
      (fun c' w' =>
         w_dirs w' = w_dirs w
         /\ exists docs,
              w_saved w' = app (w_saved w) docs
              /\ map entry_of docs = ledger ds c
              /\ Forall (filed root) docs) w.
Proof.
  induction ds as [| d ds IH]; intros c w Hds Hrng.
  - apply returns_ret. split; [reflexivity |].
    exists []. rewrite app_nil_r. repeat split. constructor.
  - apply Forall_cons_iff in Hds. destruct Hds as [Hd Hds].
    cbn [for_fold]. apply returns_bind.
    eapply returns_mono; [apply run_day_files; assumption |].
    intros c1 w1 [-> [Hrng1 [Hdirs1 [docs1 [Hs1 [He1 Hf1]]]]]].
    eapply returns_mono; [apply IH; assumption |].
    intros c2 w2 [Hdirs2 [docs2 [Hs2 [He2 Hf2]]]].
    split; [congruence |].
    exists (app docs1 docs2).
    split; [rewrite Hs2, Hs1, app_assoc; reflexivity |].
    split; [rewrite map_app, He1, He2; reflexivity |].
    apply Forall_app. split; assumption.
Qed.

Lemma run_files (n : Z) (root : string) :
  n <= LAST_RUN_DAY + 1 ->
  exists total w,
    main n root = Ok total w
    /\ map entry_of (w_saved w) = ledger (range n) initial_counters
    /\ Forall (filed root) (w_saved w)
    /\ incl (map (dirs root) DIR_NAMES) (w_dirs w).
Proof.
  intro Hn. unfold main. rewrite run_as_run_until.
  assert (returns (run_until root (range n))
            (fun _ w =>
               map entry_of (w_saved w) = ledger (range n) initial_counters
               /\ Forall (filed root) (w_saved w)
               /\ incl (map (dirs root) DIR_NAMES) (w_dirs w))
            initial_world) as H.
  { unfold run_until. apply returns_bind.
    eapply returns_mono; [apply makedirs_return |].
    intros _ w1 [Hrng1 [Hsaved1 [_ Hdirs1]]].
    eapply returns_mono;
      [apply days_files; [apply range_supported, Hn | rewrite Hrng1;
                                                       reflexivity] |].
    intros c w2 [Hdirs2 [docs [Hs [He Hf]]]].
    rewrite Hs, Hsaved1. cbn [initial_world w_saved app].
    split; [exact He |]. split; [exact Hf |].
    rewrite Hdirs2. exact Hdirs1. }
  destruct (returns_ok _ _ _ H) as [c [w [E Hw]]].
  exists (total_docs c), w. rewrite (bind_ok _ _ _ _ _ E).
  split; [reflexivity | exact Hw].
Qed.

End Serials.

(** The serial numbers of the saved documents of kind [k], in the order
    saved. *)
Definition numbers_of (k : DocKind) (docs : list Doc) : list (option Z) :=
  map doc_number (filter (fun doc => DocKind_eqb (doc_kind doc) k) docs).

(** [1, 2, ..., n] as serial numbers. *)
Definition serials (n : nat) : list (option Z) :=
  map (fun i => Some (Z.of_nat i)) (seq 1 n).

Definition entry_kind (e : DocKind * Z * option Z) : DocKind := fst (fst e).

(** What the serial number of an entry is, by its kind, in a run from
    day 0. *)
Definition entry_numbered (e : DocKind * Z * option Z) : Prop :=
  let '(k, d, num) := e in
  match k with
  | FRAGO => num = Some (d + 1)
  | ROE => num = Some (get_phase d)
  | CCIR | PIR => True
  | OPORD | ATO | ACO | JIPTL => num = None
  end.

Lemma numbers_of_entries (k : DocKind) (docs : list Doc) :
  numbers_of k docs
  = map snd (filter (fun e => DocKind_eqb (entry_kind e) k)
                    (map entry_of docs)).
Proof.
  unfold numbers_of. induction docs as [| doc docs IH]; [reflexivity |].
  cbn [map filter]. unfold entry_kind at 1, entry_of at 1. cbn [fst].
  destruct (DocKind_eqb (doc_kind doc) k); cbn [map snd]; rewrite IH;
    reflexivity.
Qed.

Lemma seq_serials (a : Z) (m : nat) :
  map (fun i => Some (a + 1 + Z.of_nat i)) (seq 1 m)
  = map (fun i => Some (a + Z.of_nat i)) (seq 2 m).
Proof.
  rewrite <- (seq_shift m 1), map_map. apply map_ext. intro i.
  f_equal. lia.
Qed.

(** From any counters, the numbers handed to a numbered kind over the
    days [ds] continue the counter of the kind without a gap. *)
Lemma ledger_numbers (k : DocKind) :
  forall (ds : list Z) (c : Counters) (a : Z),
    number_of c k = Some a ->
    map snd (filter (fun e => DocKind_eqb (entry_kind e) k) (ledger ds c))
    = map (fun i => Some (a + Z.of_nat i))
          (seq 1 (List.length
                    (filter (fun e => DocKind_eqb (entry_kind e) k)
                            (ledger ds c)))).
Proof.
  induction ds as [| d ds IH]; intros c a Hc; [reflexivity |].
  cbn [ledger]. rewrite filter_app, map_app, length_app.
  assert (exists cnt : bool,
             filter (fun e => DocKind_eqb (entry_kind e) k) (day_entries c d)
             = (if cnt then [(k, d, Some (a + 1))] else [])
             /\ number_of (next_counters c d) k = Some (a + b2z cnt))
    as [cnt [Hday Hnext]].
  { unfold day_entries, next_counters, kinds_of_day, number_of in *.
    change PIR_INTERVAL with CCIR_INTERVAL.
    destruct k; try discriminate Hc; injection Hc as <-;
      cbn [frago_counter ccir_counter pir_counter roe_version];
      destruct (phase_changed c d); destruct (d mod CCIR_INTERVAL =? 0);
      cbn [orb app map filter entry_kind fst DocKind_eqb b2z];
      first [ exists true; split; [reflexivity | f_equal; lia]
            | exists false; split; [reflexivity | f_equal; lia] ]. }
  rewrite Hday, (IH _ _ Hnext).
  set (m := List.length
              (filter (fun e => DocKind_eqb (entry_kind e) k)
                      (ledger ds (next_counters c d)))).
  destruct cnt; cbn [b2z map snd List.length app Nat.add].
  - cbn [seq map]. f_equal. apply seq_serials.
  - apply map_ext. intro i. f_equal. lia.
Qed.

Lemma phase_before_next (d : Z) : 0 <= d -> phase_before (d + 1) = get_phase d.
Proof.
  intro Hd. unfold phase_before.
  destruct (Z.eqb_spec (d + 1) 0) as [H | _]; [lia |].
  f_equal. lia.
Qed.

Lemma phase_after_transition (d : Z) :
  0 <= d -> is_phase_transition d = true ->
  get_phase d = phase_before d + 1.
Proof.
  intros _ Ht. apply is_phase_transition_cases in Ht.
  destruct Ht as [-> | [-> | [-> | ->]]]; reflexivity.
Qed.

(** In a run over consecutive days from day 0 the FRAGO of a day carries
    the day's number plus one and the ROE the number of the phase it
    opens. *)
Lemma ledger_consecutive (k : nat) :
  forall (a : nat) (c : Counters),
    frago_counter c = Z.of_nat a ->
    last_phase c = phase_before (Z.of_nat a) ->
    roe_version c = last_phase c ->
    Forall entry_numbered (ledger (map Z.of_nat (seq a k)) c).
Proof.
  induction k as [| k IH]; intros a c Hfrago Hlast Hroe; [constructor |].
  cbn [seq map ledger]. apply Forall_app.
  assert (phase_changed c (Z.of_nat a) = is_phase_transition (Z.of_nat a))
    as Hchanged
    by (unfold phase_changed; rewrite Hlast;
        apply phase_changes_on_transition; lia).
  split.
  - unfold day_entries. apply Forall_map. apply Forall_forall.
    intros q Hq. unfold entry_numbered, number_of, next_counters.
    cbn [frago_counter roe_version].
    destruct q; try reflexivity; try exact I.
    + rewrite Hfrago. reflexivity.
    + rewrite Hchanged in *. unfold kinds_of_day in Hq.
      destruct (is_phase_transition (Z.of_nat a)) eqn:Ht.
      * cbn [b2z]. rewrite Hroe, Hlast.
        rewrite (phase_after_transition (Z.of_nat a)) by (lia || exact Ht).
        reflexivity.
      * exfalso. rewrite orb_false_r in Hq.
        destruct (Z.of_nat a mod CCIR_INTERVAL =? 0);
          destruct (Z.of_nat a mod PIR_INTERVAL =? 0); cbn in Hq;
          repeat (destruct Hq as [Hq | Hq]; [discriminate Hq |]);
          contradiction.
  - apply (IH (S a)); unfold next_counters;
      cbn [frago_counter last_phase roe_version].
    + lia.
    + replace (Z.of_nat (S a)) with (Z.of_nat a + 1) by lia.
      symmetry. apply phase_before_next. lia.
    + rewrite Hchanged.
      destruct (is_phase_transition (Z.of_nat a)) eqn:Ht; cbn [b2z].
      * rewrite Hroe, Hlast.
        rewrite (phase_after_transition (Z.of_nat a)) by (lia || exact Ht).
        reflexivity.
      * rewrite Hroe, Z.add_0_r.
        unfold phase_changed in Hchanged.
        apply negb_false_iff, Z.eqb_eq in Hchanged. symmetry.
        exact Hchanged.
Qed.

Section SerialNumbers.

Context {R : PyRandom}.

(** X14. A run over [n] days numbers its documents as follows.  The FRAGO of
    a day carries the number of the day plus one, the ROE the number of
    the phase it opens, and an OPORD, ATO, ACO or JIPTL no number.  For
    each numbered kind (FRAGO, ROE, CCIR, PIR) the numbers of the saved
    documents, in the order saved, are 1, 2, 3, ... without a gap. *)
Theorem run_serial_numbers (n : Z) (root : string) :
  n <= LAST_RUN_DAY + 1 ->
  exists total w,
    main n root = Ok total w
    /\ Forall (fun doc =>
                 match doc_kind doc with
                 | FRAGO => doc_number doc = Some (day (doc_state doc) + 1)
                 | ROE => doc_number doc = Some (phase (doc_state doc))
                 | CCIR | PIR => exists i, doc_number doc = Some i
                 | OPORD | ATO | ACO | JIPTL => doc_number doc = None
                 end) (w_saved w)
    /\ (forall k, In k [FRAGO; ROE; CCIR; PIR] ->
          numbers_of k (w_saved w)
          = serials (List.length (numbers_of k (w_saved w)))).
Proof.
  intro Hn. destruct (run_files n root Hn) as [total [w [E [He [Hf _]]]]].
  exists total, w. split; [exact E |].
  split.
  - pose proof (ledger_consecutive (Z.to_nat n) 0 initial_counters
                  eq_refl eq_refl eq_refl) as Hled.
    fold (range n) in Hled. rewrite <- He in Hled.
    rewrite Forall_map in Hled.
    apply Forall_forall. intros doc Hdoc.
    rewrite Forall_forall in Hled, Hf.
    specialize (Hled doc Hdoc). destruct (Hf doc Hdoc) as [_ Hphase].
    unfold entry_numbered, entry_of in Hled.
    destruct (doc_kind doc) eqn:Hk; try exact Hled.
    + rewrite Hphase. exact Hled.
    + assert (In (entry_of doc) (ledger (range n) initial_counters)) as Hin
        by (rewrite <- He; apply in_map, Hdoc).
      clear - Hin Hk. unfold entry_of in Hin. rewrite Hk in Hin.
      revert Hin. generalize initial_counters.
      induction (range n) as [| d ds IH]; intros c Hin; [contradiction |].
      cbn [ledger] in Hin. apply in_app_or in Hin.
      destruct Hin as [Hin | Hin]; [| eapply IH, Hin].
      unfold day_entries in Hin. apply in_map_iff in Hin.
      destruct Hin as [q [Hq _]]. injection Hq as -> _ Hnum.
      eexists. symmetry. exact Hnum.
    + assert (In (entry_of doc) (ledger (range n) initial_counters)) as Hin
        by (rewrite <- He; apply in_map, Hdoc).
      clear - Hin Hk. unfold entry_of in Hin. rewrite Hk in Hin.
      revert Hin. generalize initial_counters.
      induction (range n) as [| d ds IH]; intros c Hin; [contradiction |].
      cbn [ledger] in Hin. apply in_app_or in Hin.
      destruct Hin as [Hin | Hin]; [| eapply IH, Hin].
      unfold day_entries in Hin. apply in_map_iff in Hin.
      destruct Hin as [q [Hq _]]. injection Hq as -> _ Hnum.
      eexists. symmetry. exact Hnum.
  - intros k Hk. rewrite numbers_of_entries, He.
    rewrite (ledger_numbers k _ _ 0).
    + unfold serials. rewrite length_map, length_seq. reflexivity.
    + destruct Hk as [<- | [<- | [<- | [<- | []]]]]; reflexivity.
Qed.

End SerialNumbers.

Section ConcreteSerials.

#[local] Existing Instance Lcg.lcg.

Lemma run_serial_numbers_witness :
  (40 <= LAST_RUN_DAY + 1)
  /\ exists total w,
       main 40 "out" = Ok total w
       /\ Forall (fun doc =>
                    match doc_kind doc with
                    | FRAGO => doc_number doc = Some (day (doc_state doc) + 1)
                    | ROE => doc_number doc = Some (phase (doc_state doc))
                    | CCIR | PIR => exists i, doc_number doc = Some i
                    | OPORD | ATO | ACO | JIPTL => doc_number doc = None
                    end) (w_saved w)
       /\ (forall k, In k [FRAGO; ROE; CCIR; PIR] ->
             numbers_of k (w_saved w)
             = serials (List.length (numbers_of k (w_saved w)))).
Proof.
  assert (40 <= LAST_RUN_DAY + 1) as H
    by (rewrite LAST_RUN_DAY_value; lia).
  split; [exact H | apply (@run_serial_numbers Lcg.lcg 40 "out" H)].
Defined.

End ConcreteSerials.

(* ====================================================================== *)
(** * The orchestrator: no two documents share a path *)
(* ====================================================================== *)

Definition is_digit (c : ascii) : bool :=
  match digit_val c with Some _ => true | None => false end.

Fixpoint all_digits (s : string) : bool :=
  match s with
  | EmptyString => true
  | String c s' => is_digit c && all_digits s'
  end.

Lemma all_digits_app (x y : string) :
  all_digits (x ++ y) = all_digits x && all_digits y.
Proof.
  induction x as [| c x IH]; [reflexivity |].
  cbn [append all_digits]. rewrite IH. apply andb_assoc.
Qed.

Lemma zeros_digits (k : nat) : all_digits (zeros k) = true.
Proof. induction k as [| k IH]; [reflexivity | exact IH]. Qed.

Lemma digits_of_digits (n : N) : all_digits (digits_of n) = true.
Proof.
  rewrite digits_of_NilEmpty. generalize (N.to_uint n). intro u.
  induction u; cbn [NilEmpty.string_of_uint all_digits];
    [reflexivity | ..]; exact IHu.
Qed.

Lemma fmt_0d_digits (w : nat) (z : Z) :
  0 <= z -> all_digits (fmt_0d w z) = true.
Proof.
  intro Hz. unfold fmt_0d.
  destruct (Z.ltb_spec z 0) as [Hneg | _]; [lia |].
  cbn [append]. rewrite all_digits_app, zeros_digits, digits_of_digits.
  reflexivity.
Qed.

Lemma fmt_0d_inj (w : nat) (a b : Z) : fmt_0d w a = fmt_0d w b -> a = b.
Proof.
  intro H. pose proof (py_int_fmt_0d w a) as Ha.
  rewrite H, py_int_fmt_0d in Ha. injection Ha as Ha. symmetry. exact Ha.
Qed.

(** A run of digits is delimited by the character that follows it. *)
Lemma digits_prefix_unique :
  forall (x y : string) (c : ascii) (r : string) (c' : ascii) (r' : string),
    all_digits x = true -> all_digits y = true ->
    is_digit c = false -> is_digit c' = false ->
    (x ++ String c r)%string = (y ++ String c' r')%string -> x = y.
Proof.
  induction x as [| d x IH]; intros [| e y] c r c' r' Hx Hy Hc Hc' H.
  - reflexivity.
  - cbn [append] in H. injection H as -> _.
    cbn [all_digits] in Hy. apply andb_prop in Hy. destruct Hy as [Hy _].
    congruence.
  - cbn [append] in H. injection H as <- _.
    cbn [all_digits] in Hx. apply andb_prop in Hx. destruct Hx as [Hx _].
    congruence.
  - cbn [append] in H. injection H as -> H.
    cbn [all_digits] in Hx, Hy.
    apply andb_prop in Hx. apply andb_prop in Hy.
    f_equal. eapply IH; [apply Hx | apply Hy | exact Hc | exact Hc' | exact H].
Qed.

Lemma append_cancel_l (x a b : string) :
  (x ++ a)%string = (x ++ b)%string -> a = b.
Proof.
  induction x as [| c x IH]; intro H; [exact H |].
  cbn [append] in H. injection H as H. apply IH, H.
Qed.

Lemma append_assoc_s (x y z : string) :
  ((x ++ y) ++ z)%string = (x ++ y ++ z)%string.
Proof.
  induction x as [| c x IH]; [reflexivity |].
  cbn [append]. rewrite IH. reflexivity.
Qed.

Lemma list_ascii_of_append (x y : string) :
  list_ascii_of_string (x ++ y)
  = app (list_ascii_of_string x) (list_ascii_of_string y).
Proof.
  induction x as [| c x IH]; [reflexivity |].
  cbn [append list_ascii_of_string app]. rewrite IH. reflexivity.
Qed.

Lemma ends_with_slash_app (x y : string) :
  y <> "" -> ends_with_slash (x ++ y) = ends_with_slash y.
Proof.
  intro Hy. unfold ends_with_slash.
  rewrite list_ascii_of_append, rev_app_distr.
  destruct (rev (list_ascii_of_string y)) as [| c l] eqn:E; [| reflexivity].
  exfalso. apply Hy. apply (f_equal (@rev ascii)) in E.
  rewrite rev_involutive in E. cbn [rev] in E.
  destruct y; [reflexivity | discriminate E].
Qed.

Definition starts_with_slash (b : string) : bool :=
  match b with
  | String c _ => Ascii.eqb c "/"
  | EmptyString => false
  end.

(** [os.path.join(a, b)] when [a] is a directory name without a
    trailing slash and [b] is relative. *)
Lemma path_join_plain (a b : string) :
  a <> "" -> ends_with_slash a = false -> starts_with_slash b = false ->
  path_join a b = (a ++ "/" ++ b)%string.
Proof.
  intros Ha Hs Hb. unfold path_join.
  apply String.eqb_neq in Ha. rewrite Ha, Hs. cbn [orb].
  destruct b as [| c b]; [reflexivity |].
  cbn [starts_with_slash] in Hb.
  destruct c as [[] [] [] [] [] [] [] []]; try reflexivity.
  discriminate Hb.
Qed.

(** What [os.path.join(root, name)] puts before a relative [name]. *)
Definition root_prefix (root : string) : string :=
  if (String.eqb root "" || ends_with_slash root)%bool
  then root else (root ++ "/")%string.

Lemma dirs_shape (root : string) (k : DocKind) :
  dirs root (dir_name k) = (root_prefix root ++ dir_name k)%string.
Proof.
  unfold dirs, path_join, root_prefix.
  destruct (String.eqb root "" || ends_with_slash root)%bool;
    destruct k; cbn [dir_name]; try reflexivity;
    rewrite append_assoc_s; reflexivity.
Qed.

Lemma file_name_relative (doc : Doc) :
  starts_with_slash (file_name doc) = false.
Proof. unfold file_name. destruct (doc_kind doc); reflexivity. Qed.

Lemma append_not_empty (x y : string) : y <> "" -> (x ++ y)%string <> "".
Proof.
  intros Hy H. destruct x as [| c x]; [exact (Hy H) | discriminate H].
Qed.

Lemma filed_path (root : string) (doc : Doc) :
  filed root doc ->
  doc_path doc
  = (root_prefix root
     ++ dir_name (doc_kind doc) ++ "/" ++ file_name doc)%string.
Proof.
  intros [Hp _]. rewrite Hp, dirs_shape.
  rewrite path_join_plain.
  - apply append_assoc_s.
  - apply append_not_empty. destruct (doc_kind doc); discriminate.
  - rewrite ends_with_slash_app by (destruct (doc_kind doc); discriminate).
    destruct (doc_kind doc); reflexivity.
  - apply file_name_relative.
Qed.

(** The number that tells two files of a kind apart: the phase for an
    OPORD, the serial number for a FRAGO, ROE, CCIR or PIR, the day plus
    one for an ATO, ACO or JIPTL. *)
Definition file_key (e : DocKind * Z * option Z) : Z :=
  let '(k, d, num) := e in
  match k with
  | OPORD => get_phase d
  | ATO | ACO | JIPTL => d + 1
  | FRAGO | ROE | CCIR | PIR => match num with Some i => i | None => 0 end
  end.

Definition kind_key (e : DocKind * Z * option Z) : DocKind * Z :=
  (entry_kind e, file_key e).

(** The largest key of each kind handed out once the counters are [c]. *)
Definition key_bound (c : Counters) (k : DocKind) : Z :=
  match k with
  | OPORD => last_phase c
  | ROE => roe_version c
  | FRAGO | ATO | ACO | JIPTL => frago_counter c
  | CCIR => ccir_counter c
  | PIR => pir_counter c
  end.

Definition key_prefix (k : DocKind) : string :=
  match k with
  | OPORD => "OPORD/OPORD_" | FRAGO => "FRAGO/FRAGO_" | ATO => "ATO/ATO_"
  | ROE => "ROE/ROE_V" | ACO => "ACO/ACO_" | CCIR => "CCIR/CCIR_"
  | PIR => "PIR/PIR_" | JIPTL => "JIPTL/JIPTL_"
  end.

Definition key_width (k : DocKind) : nat :=
  match k with
  | FRAGO => 4
  | ROE => 2
  | OPORD | ATO | ACO | CCIR | PIR | JIPTL => 3
  end.

(** Below its directory, a path starts with the kind's prefix, then the
    key, then a character that is not a digit. *)
Lemma filed_tail (root : string) (doc : Doc) :
  filed root doc ->
  exists (c : ascii) (rest : string),
    is_digit c = false
    /\ (dir_name (doc_kind doc) ++ "/" ++ file_name doc)%string
       = (key_prefix (doc_kind doc)
          ++ fmt_0d (key_width (doc_kind doc)) (file_key (entry_of doc))
          ++ String c rest)%string.
Proof.
  intros [_ Hphase]. unfold file_name, file_key, entry_of.
  destruct (doc_kind doc); cbn [dir_name key_prefix key_width];
    try rewrite <- Hphase;
    first [ exists "-"%char; eexists; split; reflexivity
          | exists "_"%char; eexists; split; reflexivity ].
Qed.

Lemma kinds_of_day_NoDup (changed : bool) (d : Z) :
  NoDup (kinds_of_day changed d).
Proof.
  unfold kinds_of_day.
  destruct changed, (d mod CCIR_INTERVAL =? 0), (d mod PIR_INTERVAL =? 0);
    cbn [orb app]; repeat constructor; cbn [In];
    intuition discriminate.
Qed.

Lemma kinds_of_day_In (changed : bool) (d : Z) (k : DocKind) :
  In k (kinds_of_day changed d) ->
  match k with
  | OPORD | ROE => changed = true
  | CCIR => ((d mod CCIR_INTERVAL =? 0) || changed)%bool = true
  | PIR => ((d mod PIR_INTERVAL =? 0) || changed)%bool = true
  | FRAGO | ATO | ACO | JIPTL => True
  end.
Proof.
  unfold kinds_of_day.
  destruct changed, (d mod CCIR_INTERVAL =? 0), (d mod PIR_INTERVAL =? 0);
    cbn [orb app In]; destruct k; intuition discriminate.
Qed.

Lemma phase_before_le (d : Z) : 0 <= d -> phase_before d <= get_phase d.
Proof.
  intro Hd. unfold phase_before.
  destruct (Z.eqb_spec d 0) as [-> | Hd0]; [vm_compute; discriminate |].
  destruct (get_phase_cases d) as [[H1 ->] | [[H1 ->] | [[H1 ->] | [H1 ->]]]];
    destruct (get_phase_cases (d - 1))
      as [[H2 ->] | [[H2 ->] | [[H2 ->] | [H2 ->]]]]; lia.
Qed.

Lemma NoDup_map_by {A B C : Type} (f : A -> B) (g : A -> C) (l : list A) :
  NoDup (map f l) ->
  (forall x y, In x l -> In y l -> g x = g y -> f x = f y) ->
  NoDup (map g l).
Proof.
  induction l as [| x l IH]; intros Hf Hfg; [constructor |].
  cbn [map] in *. apply NoDup_cons_iff in Hf. destruct Hf as [Hx Hf].
  constructor.
  - intro Hin. apply Hx. apply in_map_iff in Hin.
    destruct Hin as [y [Hy Hyl]]. apply in_map_iff. exists y.
    split; [| exact Hyl]. apply Hfg; [right; exact Hyl | left; reflexivity |].
    exact Hy.
  - apply IH; [exact Hf |]. intros a b Ha Hb. apply Hfg; right; assumption.
Qed.

(** Over consecutive days from day 0 each key handed out is larger than
    every key of its kind handed out before. *)
Lemma ledger_keys (k : nat) :
  forall (a : nat) (c : Counters),
    frago_counter c = Z.of_nat a ->
    last_phase c = phase_before (Z.of_nat a) ->
    Forall (fun e => key_bound c (entry_kind e) < file_key e)
           (ledger (map Z.of_nat (seq a k)) c)
    /\ NoDup (map kind_key (ledger (map Z.of_nat (seq a k)) c)).
Proof.
  induction k as [| k IH]; intros a c Hfrago Hlast;
    [split; constructor |].
  cbn [seq map ledger]. set (d := Z.of_nat a) in *.
  assert (phase_changed c d = is_phase_transition d) as Hchanged
    by (unfold phase_changed; rewrite Hlast;
        apply phase_changes_on_transition; lia).
  assert (Forall (fun e => key_bound c (entry_kind e) < file_key e
                           /\ file_key e
                              <= key_bound (next_counters c d) (entry_kind e))
                 (day_entries c d)) as Hday.
  { unfold day_entries. apply Forall_map. apply Forall_forall.
    intros q Hq. apply kinds_of_day_In in Hq.
    unfold entry_kind, file_key, key_bound, number_of, next_counters.
    cbn [fst frago_counter ccir_counter pir_counter roe_version last_phase].
    destruct q; try rewrite Hq; cbn [b2z]; try lia.
    rewrite Hchanged in Hq.
    rewrite (phase_after_transition d) by (lia || exact Hq). lia. }
  assert (forall q, key_bound c q <= key_bound (next_counters c d) q)
    as Hmono.
  { intro q. unfold key_bound, next_counters.
    cbn [frago_counter ccir_counter pir_counter roe_version last_phase].
    pose proof (phase_before_le d ltac:(lia)).
    destruct q; try lia;
      match goal with |- context [b2z ?b] => destruct b end; cbn [b2z]; lia. }
  destruct (IH (S a) (next_counters c d)) as [Hrest Hnd].
  { unfold next_counters. cbn [frago_counter]. lia. }
  { unfold next_counters. cbn [last_phase].
    replace (Z.of_nat (S a)) with (d + 1) by lia.
    symmetry. apply phase_before_next. lia. }
  split.
  - apply Forall_app. split.
    + eapply Forall_impl; [| exact Hday]. intros e [H _]. exact H.
    + eapply Forall_impl; [| exact Hrest]. intros e H.
      specialize (Hmono (entry_kind e)). cbv beta in *. lia.
  - rewrite map_app. apply NoDup_app.
    + apply (NoDup_map_inv fst). rewrite map_map.
      unfold day_entries. rewrite map_map. cbn [kind_key entry_kind fst].
      rewrite map_id. apply kinds_of_day_NoDup.
    + exact Hnd.
    + intros x Hx1 Hx2.
      apply in_map_iff in Hx1. destruct Hx1 as [e1 [<- He1]].
      apply in_map_iff in Hx2. destruct Hx2 as [e2 [Heq He2]].
      rewrite Forall_forall in Hday, Hrest.
      destruct (Hday e1 He1) as [_ Hle]. specialize (Hrest e2 He2).
      unfold kind_key in Heq. injection Heq as Hk Hkey.
      rewrite Hk, Hkey in Hrest. lia.
Qed.

Lemma DocKind_eq_dec (a b : DocKind) : {a = b} + {a <> b}.
Proof. decide equality. Defined.

(** Two filed documents with the same path have the same kind and the
    same key. *)
Lemma same_path_same_key (root : string) (x y : Doc) :
  filed root x -> filed root y ->
  0 <= file_key (entry_of x) -> 0 <= file_key (entry_of y) ->
  doc_path x = doc_path y ->
  kind_key (entry_of x) = kind_key (entry_of y).
Proof.
  intros Hx Hy Hkx Hky Hpath.
  rewrite (filed_path root x Hx), (filed_path root y Hy) in Hpath.
  apply append_cancel_l in Hpath.
  destruct (filed_tail root x Hx) as [cx [rx [Hcx Ex]]].
  destruct (filed_tail root y Hy) as [cy [ry [Hcy Ey]]].
  rewrite Ex, Ey in Hpath. clear Ex Ey.
  unfold kind_key, entry_kind. unfold entry_of at 1 3. cbn [fst].
  destruct (DocKind_eq_dec (doc_kind x) (doc_kind y)) as [Hk | Hk].
  - rewrite Hk in *. f_equal.
    apply append_cancel_l in Hpath.
    apply (fmt_0d_inj (key_width (doc_kind y))).
    eapply digits_prefix_unique; [| | exact Hcx | exact Hcy | exact Hpath];
      apply fmt_0d_digits; assumption.
  - exfalso. destruct (doc_kind x), (doc_kind y);
      try (apply Hk; reflexivity);
      cbn [key_prefix append] in Hpath; discriminate Hpath.
Qed.

Section Paths.

Context {R : PyRandom}.

(** X15. A run over [n] days never writes two documents to the same path, so
    no file is overwritten, and every document goes to the directory of
    its kind, which the run has created. *)
Theorem run_paths_distinct (n : Z) (root : string) :
  n <= LAST_RUN_DAY + 1 ->
  exists total w,
    main n root = Ok total w
    /\ NoDup (map doc_path (w_saved w))
    /\ Forall (fun doc =>
                 In (dirs root (dir_name (doc_kind doc))) (w_dirs w)
                 /\ doc_path doc
                    = path_join (dirs root (dir_name (doc_kind doc)))
                                (file_name doc))
              (w_saved w).
Proof.
  intro Hn. destruct (run_files n root Hn) as [total [w [E [He [Hf Hdirs]]]]].
  exists total, w. split; [exact E |].
  destruct (ledger_keys (Z.to_nat n) 0 initial_counters eq_refl eq_refl)
    as [Hpos Hnd].
  fold (range n) in Hpos, Hnd. rewrite <- He in Hpos, Hnd.
  rewrite Forall_map in Hpos. rewrite map_map in Hnd.
  rewrite Forall_forall in Hpos, Hf.
  split.
  - apply (NoDup_map_by (fun doc => kind_key (entry_of doc))); [exact Hnd |].
    intros x y Hx Hy Hpath.
    assert (forall doc, In doc (w_saved w) -> 0 <= file_key (entry_of doc))
      as Hkey.
    { intros doc Hdoc. specialize (Hpos doc Hdoc).
      assert (0 <= key_bound initial_counters (entry_kind (entry_of doc)))
        by (destruct (entry_kind (entry_of doc)); cbn; lia).
      lia. }
    apply (same_path_same_key root); auto.
  - apply Forall_forall. intros doc Hdoc. split; [| apply Hf, Hdoc].
    apply Hdirs. apply in_map.
    destruct (doc_kind doc); cbn [dir_name DIR_NAMES In]; tauto.
Qed.

End Paths.

Section ConcretePaths.

#[local] Existing Instance Lcg.lcg.

Lemma run_paths_distinct_witness :
  (365 <= LAST_RUN_DAY + 1)
  /\ exists total w,
       main 365 "out" = Ok total w
       /\ NoDup (map doc_path (w_saved w))
       /\ Forall (fun doc =>
                    In (dirs "out" (dir_name (doc_kind doc))) (w_dirs w)
                    /\ doc_path doc
                       = path_join (dirs "out" (dir_name (doc_kind doc)))
                                   (file_name doc))
                 (w_saved w).
Proof.
  assert (365 <= LAST_RUN_DAY + 1) as H
    by (rewrite LAST_RUN_DAY_value; lia).
  split; [exact H | apply (@run_paths_distinct Lcg.lcg 365 "out" H)].
Defined.

End ConcretePaths.

(* ====================================================================== *)
(** * The orchestrator: the last day a run can reach *)
(* ====================================================================== *)

(** [raises_with c e Q s]: started in [s], the computation [c] raises [e]
    and the state it leaves satisfies [Q]. *)
Definition raises_with {S A : Type} (c : M S A) (e : PyExc) (Q : S -> Prop)
    (s : S) : Prop :=
  match c s with
  | Raise e' s' => e' = e /\ Q s'
  | Ok _ _ => False
  end.

Lemma raises_bind {S A B : Type} (c : M S A) (f : A -> M S B) (e : PyExc)
    (Q : S -> Prop) (s : S) :
  returns c (fun a s' => raises_with (f a) e Q s') s ->
  raises_with (bind c f) e Q s.
Proof.
  unfold returns, raises_with, bind.
  destruct (c s) as [a s' | e' s']; intro H; [exact H | contradiction].
Qed.

Lemma raises_here {S A B : Type} (c : M S A) (f : A -> M S B) (e : PyExc)
    (Q : S -> Prop) (s : S) :
  raises_with c e Q s -> raises_with (bind c f) e Q s.
Proof.
  unfold raises_with, bind.
  destruct (c s) as [a s' | e' s']; intro H; [contradiction | exact H].
Qed.

Lemma raises_for_fold {S A B : Type} (body : B -> A -> M S B) (x : A)
    (l : list A) (acc : B) (e : PyExc) (Q : S -> Prop) (s : S) :
  raises_with (body acc x) e Q s ->
  raises_with (for_fold (x :: l) acc body) e Q s.
Proof. cbn [for_fold]. apply raises_here. Qed.

Lemma range_split (n a : Z) :
  0 <= a < n ->
  range n = app (range a) (a :: map Z.of_nat (seq (S (Z.to_nat a))
                                                (Z.to_nat n - S (Z.to_nat a)))).
Proof.
  intro Ha. unfold range.
  replace (Z.to_nat n)
    with (Z.to_nat a + S (Z.to_nat n - S (Z.to_nat a)))%nat by lia.
  rewrite seq_app, map_app. cbn [seq map Nat.add]. f_equal.
  rewrite Z2Nat.id by lia.
  replace (Z.to_nat a + S (Z.to_nat n - S (Z.to_nat a))
           - S (Z.to_nat a))%nat
    with (Z.to_nat n - S (Z.to_nat a))%nat by lia.
  reflexivity.
Qed.

Section LastDay.

Context {R : PyRandom}.

Ltac generator_then E :=
  apply returns_bind, returns_with_rng; cbn [w_rng w_dirs w_saved];
  (eapply ok_returns; [exact E |]);
  apply returns_save; cbn [w_rng w_dirs w_saved doc_path].

(** On the day after [LAST_RUN_DAY] the state can still be built and
    the four daily documents are saved, but the CCIR, due because the
    day is a multiple of three, cannot name its review date. *)
Lemma run_day_overflow (root : string) (c : Counters) (w : World) :
  w_rng w = seed 42 ->
  raises_with (run_day root c (LAST_RUN_DAY + 1)) OverflowError
    (fun w' => exists docs,
                 w_saved w' = app (w_saved w) docs
                 /\ In (FRAGO, LAST_RUN_DAY + 1) (map kind_day docs)
                 /\ ~ In CCIR (map doc_kind docs)) w.
Proof.
  intro Hrng. set (d := LAST_RUN_DAY + 1).
  assert (d = 2912421) as Hd by reflexivity.
  assert (FIRST_STATE_DAY <= d <= LAST_STATE_DAY) as Hstate
    by (rewrite FIRST_STATE_DAY_value, LAST_STATE_DAY_value; lia).
  destruct (DailyState_init_ok d (seed 42) Hstate) as [st [E Hok]].
  pose proof (ok_day _ _ Hok) as Hday.
  assert (forall g : rng, opord_body st g = Ok ([], []) g) as Eopord
    by reflexivity.
  assert (forall g : rng, roe_body st g = Ok ([], []) g) as Eroe
    by reflexivity.
  destruct (returns_ok _ _ _
              (returns_randint (-3) 3 (fun _ _ => True) (seed 42)
                 ltac:(lia) (fun _ _ _ => I))) as [r [g1 [Er _]]].
  assert (exists b, frago_body st (seed 42) = Ok b g1) as [bfrago Efrago].
  { eexists. unfold frago_body, bind. rewrite Er. reflexivity. }
  assert (exists b, forall g : rng, ato_body st g = Ok b g) as [bato Eato]
    by (eexists; intro; reflexivity).
  destruct (returns_ok _ _ _ (aco_body_returns st (seed 42)
              ltac:(pose proof (ok_acm _ _ Hok); lia)))
    as [baco [g2 [Eaco0 ->]]].
  assert (forall g : rng, aco_body st g = Ok baco (seed 42)) as Eaco
    by (intro g; rewrite (aco_body_any st g (seed 42)); exact Eaco0).
  destruct (returns_ok _ _ _ (jiptl_body_returns st (seed 42)))
    as [bjiptl [g3 [Ejiptl ->]]].
  assert (forall g : rng, ccir_body st g = Raise OverflowError g) as Eccir.
  { intro g. unfold ccir_body. change CCIR_INTERVAL with 3.
    unfold bind, lift.
    change (timedelta 3 0) with (Some ((3 * 24 + 0) * 60)).
    unfold ret at 1. rewrite (ok_date _ _ Hok).
    rewrite (date_of_day_plus d _ 3 0) by lia. rewrite Hd. reflexivity. }
  unfold run_day.
  apply raises_bind, returns_with_rng. rewrite Hrng.
  eapply ok_returns; [exact E |]. cbn [w_rng w_dirs w_saved].
  change CCIR_INTERVAL with 3.
  replace (d mod 3 =? 0) with true by (rewrite Hd; reflexivity).
  cbn [orb].
  destruct (negb (phase st =? last_phase c)).
  all: cbn iota;
    unfold generate_opord, generate_roe, generate_frago, generate_ato,
      generate_aco, generate_jiptl, generate_ccir.
  - apply raises_bind. apply returns_bind.
    generator_then (Eopord (seed 42)). apply returns_ret.
    apply raises_bind. apply returns_bind.
    generator_then (Eroe (seed 42)). apply returns_ret. cbn iota beta.
    apply raises_bind. generator_then Efrago.
    apply raises_bind. generator_then (Eato g1).
    apply raises_bind. generator_then (Eaco g1).
    apply raises_bind. generator_then Ejiptl.
    apply raises_here, raises_here, raises_here.
    unfold raises_with, with_rng. cbn [w_rng w_dirs w_saved].
    rewrite Eccir. split; [reflexivity |].
    eexists. split; [rewrite <- !app_assoc; cbn [app]; reflexivity |].
    unfold kind_day. cbn [map doc_kind doc_state]. rewrite Hday.
    split; [right; right; left; reflexivity |].
    cbn [In]. intuition discriminate.
  - apply raises_bind. apply returns_ret.
    apply raises_bind. apply returns_ret. cbn iota beta.
    apply raises_bind. generator_then Efrago.
    apply raises_bind. generator_then (Eato g1).
    apply raises_bind. generator_then (Eaco g1).
    apply raises_bind. generator_then Ejiptl.
    apply raises_here, raises_here, raises_here.
    unfold raises_with, with_rng. cbn [w_rng w_dirs w_saved].
    rewrite Eccir. split; [reflexivity |].
    eexists. split; [rewrite <- !app_assoc; cbn [app]; reflexivity |].
    unfold kind_day. cbn [map doc_kind doc_state]. rewrite Hday.
    split; [left; reflexivity |].
    cbn [In]. intuition discriminate.
Qed.

(** X16. A run returns exactly when it covers no day after [LAST_RUN_DAY].
    Asked for more days, it raises [OverflowError] on the day after
    [LAST_RUN_DAY], once that day's FRAGO has been saved and before its
    CCIR; what was saved stays saved. *)
Theorem run_past_the_last_day (n : Z) (root : string) :
  ((exists total w, main n root = Ok total w) <-> n <= LAST_RUN_DAY + 1)
  /\ (LAST_RUN_DAY + 1 < n ->
      exists w,
        main n root = Raise OverflowError w
        /\ In (FRAGO, LAST_RUN_DAY + 1) (map kind_day (w_saved w))
        /\ ~ In (CCIR, LAST_RUN_DAY + 1) (map kind_day (w_saved w))).
Proof.
  assert (LAST_RUN_DAY + 1 < n ->
          exists w,
            main n root = Raise OverflowError w
            /\ In (FRAGO, LAST_RUN_DAY + 1) (map kind_day (w_saved w))
            /\ ~ In (CCIR, LAST_RUN_DAY + 1) (map kind_day (w_saved w)))
    as Hpast.
  { intro Hn. set (d := LAST_RUN_DAY + 1) in *.
    assert (d = 2912421) as Hd by reflexivity.
    assert (Forall supported_day (range d)) as Hsup
      by (apply range_supported; subst d; lia).
    destruct (returns_ok _ _ _
                (run_until_returns root (range d) initial_world Hsup eq_refl))
      as [c1 [w1 [E1 [Hrng1 [_ [docs1 [Hs1 [Hk1 _]]]]]]]].
    cbn [initial_world w_saved app] in Hs1.
    pose proof (run_day_overflow root c1 w1 Hrng1) as Hday.
    fold d in Hday.
    unfold main. rewrite run_as_run_until.
    rewrite (range_split n d) by lia.
    unfold bind at 1. rewrite run_until_app, (bind_ok _ _ _ _ _ E1).
    cbn [for_fold]. unfold bind at 1. unfold raises_with in Hday.
    destruct (run_day root c1 d w1) as [c2 w2 | e w2]; [contradiction |].
    destruct Hday as [-> [docs [Hs [Hin Hnot]]]].
    exists w2. split; [reflexivity |].
    rewrite Hs, map_app. split; [apply in_or_app; right; exact Hin |].
    intro Hc. apply in_app_or in Hc. destruct Hc as [Hc | Hc].
    - rewrite Hs1, Hk1 in Hc.
      assert (forall ds last q x,
                 In (q, x) (schedule ds last) -> In x ds) as Hsched.
      { induction ds as [| y ds IH]; intros last q x Hx; [contradiction |].
        cbn [schedule] in Hx. apply in_app_or in Hx.
        destruct Hx as [Hx | Hx].
        - apply in_map_iff in Hx. destruct Hx as [q' [Hq _]].
          injection Hq as _ <-. left. reflexivity.
        - right. eapply IH, Hx. }
      apply Hsched in Hc. unfold range in Hc. apply in_map_iff in Hc.
      destruct Hc as [i [Hi Hseq]]. apply in_seq in Hseq. lia.
    - apply Hnot. apply in_map_iff in Hc. destruct Hc as [doc [Hkd Hdoc]].
      apply in_map_iff. exists doc. split; [| exact Hdoc].
      unfold kind_day in Hkd. injection Hkd as Hkd _. exact Hkd. }
  split; [| exact Hpast].
  split.
  - intros [total [w E]].
    destruct (Z.le_gt_cases n (LAST_RUN_DAY + 1)) as [Hle | Hgt];
      [exact Hle |].
    destruct (Hpast ltac:(lia)) as [w' [E' _]].
    rewrite E in E'. discriminate E'.
  - intro Hn.
    destruct (run_returns n root initial_world Hn eq_refl) as [w [E _]].
    eexists _, w. exact E.
Qed.

End LastDay.

(* ====================================================================== *)
(** * The catalog coordinates and the float products *)
(* ====================================================================== *)

Section Catalog.

Context {R : PyRandom}.

Ltac catalog_case g :=
  cbn [tgt_mgrs];
  match goal with
  | |- context [py_split ?s] =>
      let ps := eval vm_compute in (py_split s) in
      match ps with
      | [?p0; ?p1; ?p2; ?p3] =>
          let e := eval vm_compute in (py_int p2) in
          let n := eval vm_compute in (py_int p3) in
          match e with
          | Some ?e0 =>
              match n with
              | Some ?n0 =>
                  let Hs := fresh "Hs" in
                  assert (py_split s = [p0; p1; p2; p3]) as Hs
                    by (vm_compute; reflexivity);
                  destruct (jitter_mgrs_parts s p0 p1 p2 p3 [] e0 n0 g Hs
                              eq_refl eq_refl)
                    as [r1 [r2 [g' [Hr1 [Hr2 E]]]]];
                  exists e0, n0, r1, r2, g';
                  split; [vm_compute; reflexivity |];
                  split; [lia |]; split; [lia |];
                  split; [exact Hr1 |]; split; [exact Hr2 |]; exact E
              end
          end
      end
  end.

(** X18. Every coordinate string of the target pool is well formed: grid
    zone 17R, square NM, an easting and a northing.  So on a catalog
    target [jitter_mgrs] never falls back to the unjittered string; it
    returns the easting and the northing moved by at most 50 each. *)
Theorem catalog_coordinates_jitter (t : Target) (g : rng) :
  In t TARGET_POOL ->
  exists e0 n0 r1 r2 g',
    py_split (tgt_mgrs t) = ["17R"; "NM"; fmt_0d 4 e0; fmt_0d 2 n0]
    /\ 2560 <= e0 <= 5890 /\ 62 <= n0 <= 91
    /\ -50 <= r1 <= 50 /\ -50 <= r2 <= 50
    /\ jitter_mgrs (tgt_mgrs t) g
       = Ok ("17R NM " ++ fmt_0d 4 (e0 + r1) ++ " " ++ fmt_0d 2 (n0 + r2))
            g'.
Proof.
  intro Hin. unfold TARGET_POOL in Hin. cbn [In] in Hin.
  repeat (destruct Hin as [<- | Hin]; [catalog_case g |]).
  contradiction.
Qed.

End Catalog.

(** X19. On every day of the declared phases, each product [int(day * c)] of
    the metric and neutralization formulas, computed in binary64 as
    Python does, is the exact product truncated: no rounding error
    crosses an integer. *)
Theorem metric_products_exact (d : Z) :
  0 <= d <= 999 ->
  Forall (fun c => int_mul_b64 d (fst c) (snd c) = int_mul d (fst c) (snd c))
         FLOAT_LITERALS.
Proof.
  intro Hd. apply Forall_forall. intros [num den] Hc.
  apply binary64_int_mul_agrees; assumption.
Qed.

Lemma metric_products_exact_witness :
  (0 <= 700 <= 999)
  /\ Forall (fun c => int_mul_b64 700 (fst c) (snd c)
                      = int_mul 700 (fst c) (snd c))
            FLOAT_LITERALS.
Proof.
  assert (0 <= 700 <= 999) as H by lia.
  split; [exact H | apply (metric_products_exact 700 H)].
Defined.

Section ConcreteCatalog.

#[local] Existing Instance Lcg.lcg.

Lemma catalog_coordinates_jitter_witness :
  In (nth 25 TARGET_POOL (mkTarget "" "" "" "" "" 0)) TARGET_POOL
  /\ exists e0 n0 r1 r2 g',
       py_split (tgt_mgrs (nth 25 TARGET_POOL (mkTarget "" "" "" "" "" 0)))
       = ["17R"; "NM"; fmt_0d 4 e0; fmt_0d 2 n0]
       /\ 2560 <= e0 <= 5890 /\ 62 <= n0 <= 91
       /\ -50 <= r1 <= 50 /\ -50 <= r2 <= 50
       /\ jitter_mgrs
            (tgt_mgrs (nth 25 TARGET_POOL (mkTarget "" "" "" "" "" 0))) 7
          = Ok ("17R NM " ++ fmt_0d 4 (e0 + r1) ++ " "
                  ++ fmt_0d 2 (n0 + r2)) g'.
Proof.
  assert (In (nth 25 TARGET_POOL (mkTarget "" "" "" "" "" 0)) TARGET_POOL)
    as H by (vm_compute; do 25 right; left; reflexivity).
  split; [exact H |].
  apply (@catalog_coordinates_jitter Lcg.lcg _ 7 H).
Defined.

End ConcreteCatalog.

(* ====================================================================== *)
(** * Paragraphs of the FRAGO and of the ATO computed from the state *)
(* ====================================================================== *)

(** The task change [generate_frago] appends for one event, by its
    impact type. *)
Definition task_change (label : string) (evt : Event) : string :=
  if String.eqb (ev_impact evt) "CONTACT" then
    "SOTF-K: Increase CSG patrol frequency in sector of contact. Surge ISR to affected area."
  else if String.eqb (ev_impact evt) "SABOTAGE" then
    "SOTF-K: Coordinate with HNSF engineers for rapid repair. Adjust CSG patrol pattern to cover vulnerability."
  else if String.eqb (ev_impact evt) "INTEL" then
    "J-2: Develop intelligence lead. Nominate for ISR collection on next ATO cycle."
  else if String.eqb (ev_impact evt) "INTERDICTION" then
    "SOTF-B: Exploit captured material. Update border interdiction priorities."
  else if String.eqb (ev_impact evt) "INFO" then
    "MISTF: Develop counter-narrative. Coordinate with Radio Solara Libre for broadcast."
  else if String.eqb (ev_impact evt) "CUAS" then
    "J-3: Review CUAS posture at all FOBs. Report hostile UAS characteristics to J-2 for analysis."
  else if String.eqb (ev_impact evt) "CYBER" then
    "J-6/DCO: Elevate network monitoring. Implement recommended OPSEC changes."
  else if String.eqb (ev_impact evt) "CLEARING" then
    "SOTF-C: Exploit site for intelligence. Coordinate with J-2 for detainee processing via HNSF."
  else if String.eqb (ev_impact evt) "CIVIL" then
    "CATF: Continue engagement. Report atmospherics to J-2 and MISTF."
  else
    "All units: Continue Phase " ++ label ++ " operations as directed.".

(** The line that stands in when no task change was appended. *)
Definition no_task_change (state : DailyState) : string :=
  "No changes. Continue Phase " ++ phase_label state
  ++ " operations IAW OPORD " ++ fmt_0d 3 (phase state) ++ "-26.".

(** [task_changes] of [generate_frago], before it is printed. *)
Definition task_changes (state : DailyState) : list string :=
  match map (task_change (phase_label state)) (events state) with
  | [] => [no_task_change state]
  | tcs => tcs
  end.

(** Paragraph 3.c of the FRAGO. *)
Definition frago_ccir_line (state : DailyState) : string :=
  if day state mod CCIR_INTERVAL =? 0
  then "See updated CCIR document this period."
  else "No change to CCIR.".

(** [any(e[3] == "CONTACT" for e in state.events)]: whether the FRAGO
    carries the MEDEVAC line. *)
Definition frago_medevac (state : DailyState) : bool :=
  existsb (fun e => String.eqb (ev_impact e) "CONTACT") (events state).

(** The weather line of the ATO. *)
Definition ato_weather (state : DailyState) : string :=
  if day state <? 150
  then "Dry season; CAVU expected. Morning fog in swamp areas 0500-0800L."
  else "Wet season; scattered thunderstorms possible. Ceiling variable 800-unlimited.".

(** The three figures of paragraph 3.f of the ATO: total, ISR,
    support. *)
Definition ato_totals (state : DailyState) : Z * Z * Z :=
  ( len (ato_missions state),
    len (filter (fun m => String.eqb (msn_type m) "ISR") (ato_missions state)),
    len (filter (fun m => negb (String.eqb (msn_type m) "ISR"))
                (ato_missions state)) ).

Lemma task_change_not_fallback (label : string) (evt : Event)
    (state : DailyState) :
  task_change label evt <> no_task_change state.
Proof.
  unfold task_change, no_task_change.
  repeat match goal with
         | |- context [if ?b then _ else _] => destruct b
         end; discriminate.
Qed.

Lemma sampled_facts {A : Type} (window evs : list A) :
  sampled window evs ->
  (forall e, In e evs -> In e window)
  /\ len evs <= 3
  /\ (evs = [] <-> window = []).
Proof.
  intros [ps [Hevs [Hnd [Hlt [Hnone Hsome]]]]].
  assert (List.length evs = List.length ps) as Hlen
    by (rewrite Hevs; apply pick_length, Hlt).
  split; [intros e He; rewrite Hevs in He; eapply pick_In, He |].
  destruct window as [| x window].
  - rewrite Hevs, (Hnone eq_refl). cbn. split; [lia |].
    split; reflexivity.
  - assert (1 <= len ps <= 3) as Hps by (apply Hsome; discriminate).
    split; [lia |]. split; [| discriminate].
    intro Hnil. rewrite Hnil in Hlen. cbn [List.length] in Hlen. lia.
Qed.

Lemma contact_windows (e : Event) :
  In e EVENTS_POOL -> ev_impact e = "CONTACT" ->
  (ev_min e = 3 /\ ev_max e = 10) \/ (ev_min e = 15 /\ ev_max e = 40).
Proof.
  intros He Hc.
  assert (forallb (fun e => implb (String.eqb (ev_impact e) "CONTACT")
                              ((ev_min e =? 3) && (ev_max e =? 10)
                               || (ev_min e =? 15) && (ev_max e =? 40)))
                  EVENTS_POOL = true) as H by (vm_compute; reflexivity).
  rewrite forallb_forall in H. specialize (H e He).
  rewrite Hc in H. cbn [implb] in H.
  change (String.eqb "CONTACT" "CONTACT") with true in H. cbn [implb] in H.
  apply orb_prop in H. destruct H as [H | H]; apply andb_prop in H;
    destruct H as [H1 H2]; apply Z.eqb_eq in H1, H2; [left | right];
    split; assumption.
Qed.

Lemma filter_none {A : Type} (f : A -> bool) (l : list A) :
  (forall x, In x l -> f x = false) -> filter f l = [].
Proof.
  induction l as [| x l IH]; intro H; [reflexivity |].
  cbn [filter]. rewrite (H x (or_introl eq_refl)).
  apply IH. intros y Hy. apply H. right. exact Hy.
Qed.

Section Paragraphs.

Context {R : PyRandom}.

(** X20. The FRAGO of a day lists one task change for each event of the
    day, hence one to three, and the standing line alone exactly when the
    day has no event (day 0 and the days after 350).  The MEDEVAC line of
    paragraph 4 can only appear on the days 3 to 10 and 15 to 40, the
    windows of the two CONTACT events. *)
Theorem frago_task_changes (d : Z) (g : rng) :
  FIRST_STATE_DAY <= d <= LAST_STATE_DAY ->
  exists st,
    DailyState_init d g = Ok st (seed 42)
    /\ len (task_changes st) = Z.max 1 (len (events st))
    /\ 1 <= len (task_changes st) <= 3
    /\ (events st <> [] ->
        task_changes st = map (task_change (phase_label st)) (events st))
    /\ (task_changes st = [no_task_change st] <-> d < 1 \/ 350 < d)
    /\ (frago_medevac st = true -> 3 <= d <= 10 \/ 15 <= d <= 40).
Proof.
  intro Hd.
  destruct (DailyState_init_described d g Hd) as [st [E [Hok [Hev _]]]].
  exists st. split; [exact E |].
  destruct (sampled_facts _ _ Hev) as [Hin [Hlen Hnil]].
  rewrite events_in_window_empty in Hnil.
  unfold task_changes.
  destruct (events st) as [| e es] eqn:Eevs.
  - cbn [map List.length]. split; [reflexivity |]. split; [lia |].
    split; [intro H; contradiction H; reflexivity |].
    split.
    + split; [intros _; apply Hnil; reflexivity | reflexivity].
    + unfold frago_medevac. rewrite Eevs. discriminate.
  - cbn [map]. split; [cbn [List.length]; rewrite length_map; lia |].
    split; [cbn [List.length] in *; rewrite length_map; lia |].
    split; [reflexivity |].
    split.
    + split.
      * intro H. injection H as H _. exfalso.
        exact (task_change_not_fallback _ _ _ H).
      * intro H. apply Hnil in H. discriminate H.
    + unfold frago_medevac. rewrite Eevs. intro Hm.
      apply existsb_exists in Hm. destruct Hm as [c [Hc Hcontact]].
      apply String.eqb_eq in Hcontact.
      apply Hin, events_in_window_In in Hc. destruct Hc as [Hpool Hwin].
      destruct (contact_windows c Hpool Hcontact) as [[H1 H2] | [H1 H2]];
        [left | right]; lia.
Qed.

(** X21. The FRAGO announces an updated CCIR exactly on the days that are
    multiples of the interval.  Each of those days is a day on which the
    run issues a CCIR, but not conversely: on the phase transition days
    31, 121 and 271 a CCIR is issued and the FRAGO says there is no
    change. *)
Theorem frago_ccir_notice (d : Z) (g : rng) :
  0 <= d <= LAST_STATE_DAY ->
  exists st,
    DailyState_init d g = Ok st (seed 42)
    /\ (frago_ccir_line st = "See updated CCIR document this period."
        <-> d mod CCIR_INTERVAL = 0)
    /\ (frago_ccir_line st = "See updated CCIR document this period."
        -> periodic_day d = true)
    /\ (is_phase_transition d = true -> d <> 0 ->
        periodic_day d = true /\ frago_ccir_line st = "No change to CCIR.").
Proof.
  intro Hd. destruct (DailyState_init_ok d g) as [st [E Hok]].
  { rewrite FIRST_STATE_DAY_value. lia. }
  exists st. split; [exact E |].
  unfold frago_ccir_line, periodic_day. rewrite (ok_day _ _ Hok).
  destruct (Z.eqb_spec (d mod CCIR_INTERVAL) 0) as [Hmod | Hmod].
  - split; [split; [intros _; exact Hmod | reflexivity] |].
    split; [reflexivity |].
    intros Ht Hd0. apply is_phase_transition_cases in Ht.
    exfalso. destruct Ht as [-> | [-> | [-> | ->]]];
      [apply Hd0; reflexivity | discriminate Hmod ..].
  - split; [split; [intro H; discriminate H | intro H; contradiction] |].
    split; [intro H; discriminate H |].
    intros Ht _. rewrite Ht. split; reflexivity.
Qed.

(** X22. Paragraph 3.f of the ATO counts four to seven ISR missions and two
    support missions, three in phases 3 and 4; the two counts add up to
    the total.  The weather line is the dry season one before day 150
    and the wet season one from then on. *)
Theorem ato_summary (d : Z) (g : rng) :
  FIRST_STATE_DAY <= d <= LAST_STATE_DAY ->
  exists st total isr support,
    DailyState_init d g = Ok st (seed 42)
    /\ ato_totals st = (total, isr, support)
    /\ total = isr + support
    /\ 4 <= isr <= 7
    /\ support = 2 + b2z (3 <=? get_phase d)
    /\ (ato_weather st
        = "Dry season; CAVU expected. Morning fog in swamp areas 0500-0800L."
        <-> d < 150).
Proof.
  intro Hd.
  destruct (DailyState_init_described d g Hd) as [st [E [Hok [_ Hms]]]].
  destruct Hms as [isr [sup [extra [H1 [H2 [H3 [_ [_ [H6 [H7 _]]]]]]]]]].
  assert (filter (fun m => String.eqb (msn_type m) "ISR") isr = isr) as Fisr.
  { apply forallb_filter_id. apply forallb_forall. intros m Hm.
    rewrite Forall_forall in H3. rewrite (H3 m Hm). reflexivity. }
  assert (filter (fun m => negb (String.eqb (msn_type m) "ISR")) isr = [])
    as Nisr.
  { apply filter_none. intros m Hm. rewrite Forall_forall in H3.
    rewrite (H3 m Hm). reflexivity. }
  assert (filter (fun m => String.eqb (msn_type m) "ISR") sup = []
          /\ filter (fun m => negb (String.eqb (msn_type m) "ISR")) sup = sup
          /\ List.length sup = 2%nat) as [Fsup [Nsup Lsup]].
  { destruct sup as [| m1 [| m2 [| m3 sup]]]; try discriminate H6.
    cbn [map] in H6. injection H6 as Hm1 Hm2.
    cbn [filter]. rewrite Hm1, Hm2. repeat split. }
  assert (filter (fun m => String.eqb (msn_type m) "ISR") extra = []
          /\ filter (fun m => negb (String.eqb (msn_type m) "ISR")) extra
             = extra
          /\ len extra = b2z (3 <=? get_phase d)) as [Fex [Nex Lex]].
  { destruct (3 <=? get_phase d).
    - destruct H7 as [m [-> [[Hm | Hm] _]]]; cbn [filter]; rewrite Hm;
        repeat split.
    - rewrite H7. repeat split. }
  exists st, (len (ato_missions st)), (len isr), (len (app sup extra)).
  split; [exact E |].
  split.
  { unfold ato_totals. rewrite H1, !filter_app.
    rewrite Fisr, Fsup, Fex, Nisr, Nsup, Nex, !app_nil_r. reflexivity. }
  split; [rewrite H1, !length_app; lia |].
  split; [exact H2 |].
  split; [rewrite length_app; lia |].
  unfold ato_weather. rewrite (ok_day _ _ Hok).
  destruct (Z.ltb_spec d 150) as [Hlt | Hge].
  - split; [intros _; exact Hlt | reflexivity].
  - split; [intro H; discriminate H | lia].
Qed.

End Paragraphs.

Section ConcreteParagraphs.

#[local] Existing Instance Lcg.lcg.

Lemma frago_task_changes_witness :
  (FIRST_STATE_DAY <= 20 <= LAST_STATE_DAY)
  /\ exists st,
       DailyState_init 20 7 = Ok st (seed 42)
       /\ len (task_changes st) = Z.max 1 (len (events st))
       /\ 1 <= len (task_changes st) <= 3
       /\ (events st <> [] ->
           task_changes st = map (task_change (phase_label st)) (events st))
       /\ (task_changes st = [no_task_change st] <-> 20 < 1 \/ 350 < 20)
       /\ (frago_medevac st = true -> 3 <= 20 <= 10 \/ 15 <= 20 <= 40).
Proof.
  assert (FIRST_STATE_DAY <= 20 <= LAST_STATE_DAY) as H
    by (rewrite FIRST_STATE_DAY_value, LAST_STATE_DAY_value; lia).
  split; [exact H | apply (@frago_task_changes Lcg.lcg 20 7 H)].
Defined.

Lemma frago_ccir_notice_witness :
  (0 <= 31 <= LAST_STATE_DAY)
  /\ exists st,
       DailyState_init 31 7 = Ok st (seed 42)
       /\ (frago_ccir_line st = "See updated CCIR document this period."
           <-> 31 mod CCIR_INTERVAL = 0)
       /\ (frago_ccir_line st = "See updated CCIR document this period."
           -> periodic_day 31 = true)
       /\ (is_phase_transition 31 = true -> 31 <> 0 ->
           periodic_day 31 = true
           /\ frago_ccir_line st = "No change to CCIR.").
Proof.
  assert (0 <= 31 <= LAST_STATE_DAY) as H
    by (rewrite LAST_STATE_DAY_value; lia).
  split; [exact H | apply (@frago_ccir_notice Lcg.lcg 31 7 H)].
Defined.

Lemma ato_summary_witness :
  (FIRST_STATE_DAY <= 200 <= LAST_STATE_DAY)
  /\ exists st total isr support,
       DailyState_init 200 7 = Ok st (seed 42)
       /\ ato_totals st = (total, isr, support)
       /\ total = isr + support
       /\ 4 <= isr <= 7
       /\ support = 2 + b2z (3 <=? get_phase 200)
       /\ (ato_weather st
           = "Dry season; CAVU expected. Morning fog in swamp areas 0500-0800L."
           <-> 200 < 150).
Proof.
  assert (FIRST_STATE_DAY <= 200 <= LAST_STATE_DAY) as H
    by (rewrite FIRST_STATE_DAY_value, LAST_STATE_DAY_value; lia).
  split; [exact H | apply (@ato_summary Lcg.lcg 200 7 H)].
Defined.

End ConcreteParagraphs.

(* ====================================================================== *)
(** * Phases along the campaign *)
(* ====================================================================== *)

(** X23. Along the days from 0 on the phase never goes back, and between two
    days in different phases lies a transition day.  A negative day falls
    through every declared range and resolves to the fallback, phase 4,
    without being a transition day. *)
Theorem phases_advance (d1 d2 : Z) :
  d1 <= d2 ->
  (0 <= d1 -> get_phase d1 <= get_phase d2)
  /\ (0 <= d1 -> get_phase d1 < get_phase d2 ->
      exists t, d1 < t <= d2 /\ is_phase_transition t = true
                /\ get_phase t = get_phase d2)
  /\ (d1 < 0 -> get_phase d1 = 4 /\ is_phase_transition d1 = false).
Proof.
  intro Hle.
  destruct (get_phase_cases d1) as [[H1 E1] | [[H1 E1] | [[H1 E1] | [H1 E1]]]];
    destruct (get_phase_cases d2)
      as [[H2 E2] | [[H2 E2] | [[H2 E2] | [H2 E2]]]];
    rewrite E1, E2.
  all: split; [intro H0; lia |].
  all: split;
    [intros H0 Hlt; try (exfalso; lia) | intro Hneg; try (exfalso; lia)].
  all: try (first [ exists 31; split; [lia | split; reflexivity]
                  | exists 121; split; [lia | split; reflexivity]
                  | exists 271; split; [lia | split; reflexivity] ]).
  all: split; [reflexivity |].
  all: destruct (is_phase_transition d1) eqn:Et; [| reflexivity].
  all: apply is_phase_transition_cases in Et; lia.
Qed.

Lemma phases_advance_witness :
  (100 <= 300)
  /\ (0 <= 100 -> get_phase 100 <= get_phase 300)
  /\ (0 <= 100 -> get_phase 100 < get_phase 300 ->
      exists t, 100 < t <= 300 /\ is_phase_transition t = true
                /\ get_phase t = get_phase 300)
  /\ (100 < 0 -> get_phase 100 = 4 /\ is_phase_transition 100 = false).
Proof.
  assert (100 <= 300) as H by lia.
  split; [exact H | apply (phases_advance 100 300 H)].
Defined.

(* ====================================================================== *)
(** * The orchestrator: the documents a document refers to *)
(* ====================================================================== *)

Lemma range_In (n d : Z) : In d (range n) <-> 0 <= d < n.
Proof.
  unfold range. rewrite in_map_iff. split.
  - intros [i [<- Hi]]. apply in_seq in Hi. lia.
  - intro Hd. exists (Z.to_nat d). split; [lia |]. apply in_seq. lia.
Qed.

Lemma cadence_In (k : DocKind) (d : Z) (ds : list Z) :
  In (k, d) (cadence ds)
  <-> In d ds /\ In k (kinds_of_day (is_phase_transition d) d).
Proof.
  unfold cadence. rewrite in_flat_map. split.
  - intros [x [Hx Hk]]. apply in_map_iff in Hk.
    destruct Hk as [q [Hq Hin]]. injection Hq as -> ->.
    split; assumption.
  - intros [Hd Hk]. exists d. split; [exact Hd |].
    apply in_map_iff. exists k. split; [reflexivity | exact Hk].
Qed.

Lemma kind_day_In (k : DocKind) (d : Z) (docs : list Doc) :
  In (k, d) (map kind_day docs) ->
  exists x, In x docs /\ doc_kind x = k /\ day (doc_state x) = d.
Proof.
  intro H. apply in_map_iff in H. destruct H as [x [Hx Hin]].
  unfold kind_day in Hx. injection Hx as Hk Hd.
  exists x. repeat split; assumption.
Qed.

(** The first day of the phase of day [d]. *)
Definition phase_start (d : Z) : Z :=
  match get_phase_info d with
  | Some info => ph_start info
  | None => 0
  end.

Lemma phase_start_spec (d : Z) :
  0 <= d ->
  0 <= phase_start d <= d
  /\ is_phase_transition (phase_start d) = true
  /\ get_phase (phase_start d) = get_phase d.
Proof.
  intro Hd. unfold phase_start.
  destruct (get_phase_cases d) as [[H1 E] | [[H1 E] | [[H1 E] | [H1 E]]]];
    unfold get_phase_info; rewrite E; cbn [PHASES dict_get Z.eqb Pos.eqb ph_start];
    (split; [lia | split; reflexivity]).
Qed.

Lemma previous_phase_start (d : Z) :
  0 <= d -> 1 < get_phase d ->
  exists t, 0 <= t < d /\ is_phase_transition t = true
            /\ get_phase t = get_phase d - 1.
Proof.
  intros Hd Hp.
  destruct (get_phase_cases d) as [[H1 E] | [[H1 E] | [[H1 E] | [H1 E]]]];
    rewrite E in *; try lia;
    [exists 0 | exists 31 | exists 121];
    (split; [lia | split; reflexivity]).
Qed.

Section References.

Context {R : PyRandom}.

(** X24. Each document of a run refers to documents the run has issued: for
    every saved document the run has also saved the OPORD of the
    document's phase, issued no later than the document's day, and the
    FRAGO, ATO, ACO and JIPTL of the document's day; and for every OPORD
    of a phase after the first it has saved the OPORD of the previous
    phase. *)
Theorem run_references_resolve (n : Z) (root : string) :
  n <= LAST_RUN_DAY + 1 ->
  exists total w,
    main n root = Ok total w
    /\ Forall
         (fun doc =>
            (exists o, In o (w_saved w) /\ doc_kind o = OPORD
                       /\ phase (doc_state o) = phase (doc_state doc)
                       /\ day (doc_state o) <= day (doc_state doc))
            /\ (forall k, In k [FRAGO; ATO; ACO; JIPTL] ->
                  exists x, In x (w_saved w) /\ doc_kind x = k
                            /\ day (doc_state x) = day (doc_state doc))
            /\ (doc_kind doc = OPORD -> 1 < phase (doc_state doc) ->
                exists o, In o (w_saved w) /\ doc_kind o = OPORD
                          /\ phase (doc_state o)
                             = phase (doc_state doc) - 1))
         (w_saved w).
Proof.
  intro Hn.
  destruct (run_files n root Hn) as [total [w [E [_ [Hf _]]]]].
  destruct (run_returns n root initial_world Hn eq_refl)
    as [w' [E' [_ [_ [docs [Hs [Hk _]]]]]]].
  unfold main in E. rewrite E in E'. injection E' as _ <-.
  cbn [initial_world w_saved app] in Hs. subst docs.
  rewrite schedule_range in Hk.
  exists total, w. split; [exact E |].
  rewrite Forall_forall in Hf.
  assert (forall k t, 0 <= t < n -> is_phase_transition t = true ->
            k = OPORD ->
            exists o, In o (w_saved w) /\ doc_kind o = OPORD
                      /\ day (doc_state o) = t
                      /\ phase (doc_state o) = get_phase t) as Hopord.
  { intros k t Ht Htr _.
    destruct (kind_day_In OPORD t (w_saved w)) as [o [Ho [Hko Hdo]]].
    { rewrite Hk. apply cadence_In. split; [apply range_In, Ht |].
      rewrite Htr. left. reflexivity. }
    exists o. repeat split; try assumption.
    destruct (Hf o Ho) as [_ Hp]. rewrite Hp, Hdo. reflexivity. }
  apply Forall_forall. intros doc Hdoc.
  destruct (Hf doc Hdoc) as [_ Hphase].
  assert (In (kind_day doc) (cadence (range n))) as Hin
    by (rewrite <- Hk; apply in_map, Hdoc).
  unfold kind_day in Hin. apply cadence_In in Hin.
  destruct Hin as [Hday _]. apply range_In in Hday.
  set (d := day (doc_state doc)) in *.
  destruct (phase_start_spec d ltac:(lia)) as [Hstart [Htr Hsame]].
  split.
  - destruct (Hopord OPORD (phase_start d) ltac:(lia) Htr eq_refl)
      as [o [Ho [Hko [Hdo Hpo]]]].
    exists o. split; [exact Ho |]. split; [exact Hko |].
    split; [rewrite Hpo, Hphase, Hsame; reflexivity | lia].
  - split.
    + intros k Hkind. apply kind_day_In. rewrite Hk. apply cadence_In.
      split; [apply range_In, Hday |].
      unfold kinds_of_day. apply in_or_app. right. apply in_or_app. left.
      exact Hkind.
    + intros _ Hp. rewrite Hphase in Hp. fold d in Hp.
      destruct (previous_phase_start d ltac:(lia) Hp) as [t [Ht [Httr Hpt]]].
      destruct (Hopord OPORD t ltac:(lia) Httr eq_refl)
        as [o [Ho [Hko [Hdo Hpo]]]].
      exists o. split; [exact Ho |]. split; [exact Hko |].
      rewrite Hpo, Hphase, Hpt. reflexivity.
Qed.

End References.

Section ConcreteReferences.

#[local] Existing Instance Lcg.lcg.

Lemma run_references_resolve_witness :
  (130 <= LAST_RUN_DAY + 1)
  /\ exists total w,
       main 130 "out" = Ok total w
       /\ Forall
            (fun doc =>
               (exists o, In o (w_saved w) /\ doc_kind o = OPORD
                          /\ phase (doc_state o) = phase (doc_state doc)
                          /\ day (doc_state o) <= day (doc_state doc))
               /\ (forall k, In k [FRAGO; ATO; ACO; JIPTL] ->
                     exists x, In x (w_saved w) /\ doc_kind x = k
                               /\ day (doc_state x) = day (doc_state doc))
               /\ (doc_kind doc = OPORD -> 1 < phase (doc_state doc) ->
                   exists o, In o (w_saved w) /\ doc_kind o = OPORD
                             /\ phase (doc_state o)
                                = phase (doc_state doc) - 1))
            (w_saved w).
Proof.
  assert (130 <= LAST_RUN_DAY + 1) as H
    by (rewrite LAST_RUN_DAY_value; lia).
  split; [exact H | apply (@run_references_resolve Lcg.lcg 130 "out" H)].
Defined.

End ConcreteReferences.
